(** * termplanner: the planner engine of [planner.py]

    A shallow embedding of the parts of [planner.py] that carry the
    program's logic: the due-date normaliser [parse_due_date], the
    operations on the [todos] table ([add_todo], [mark_done],
    [delete_todo], [get_stats] and the two [SELECT]s of
    [draw_dashboard] and [draw_completed]), the progress percentage,
    and the key dispatch of [main].

    Conventions.
    - A Python [str] is a Rocq [string]; a character is a code point
      below 256 (the Latin-1 block), which is where [str.strip],
      [str.lower] and [str.isdigit] are written out.
    - A Python [int] is a [Z].
    - A raised exception that nothing catches is the outcome [Raises].
    - [date.today()] is an argument [today] of whatever reads it.
    - [dateutil.parser.parse] is not part of the program: it is a
      variable of the section that holds the program.  So are the
      rowid SQLite picks at random when the largest one is taken,
      and, where the drawing is followed call by call, the answer of
      curses to each call.
    - The interpreter is CPython 3.11 with its [sqlite3] module on
      SQLite 3; their limits (4300 digits for [int], 64-bit integers
      in the store, NUL-terminated text in [LIKE]) are written out
      where the program meets them. *)

From Stdlib Require Import ZArith NArith List String Ascii Bool Lia.
From Stdlib Require Import Permutation Sorted DecimalString.
From Stdlib Require Import Floats Uint63.
Import ListNotations.

Local Open Scope string_scope.
Local Open Scope Z_scope.

(** ** Outcomes of a call *)

Inductive outcome (A : Type) : Type :=
| Returns (a : A)
| Raises.
Arguments Returns {A} a.
Arguments Raises {A}.

Definition bind {A B : Type} (o : outcome A) (k : A -> outcome B) : outcome B :=
  match o with
  | Returns a => k a
  | Raises => Raises
  end.

Notation "x <- e ;; k" := (bind e (fun x => k))
  (at level 61, e at next level, right associativity).

(** ** Python [str] methods used by the program *)

Module PyStr.

Definition ord (c : ascii) : N := N_of_ascii c.

(** [str.isspace] on one character: TAB..CR, FS..US, SPACE, NEL, NBSP. *)
Definition isspace (c : ascii) : bool :=
  let n := ord c in
  (((9 <=? n) && (n <=? 13)) || ((28 <=? n) && (n <=? 32))
   || (n =? 133) || (n =? 160))%N.

(** [str.isdigit] on one character: the decimal digits and the
    superscripts two, three and one. *)
Definition isdigit_char (c : ascii) : bool :=
  let n := ord c in
  (((48 <=? n) && (n <=? 57)) || (n =? 178) || (n =? 179) || (n =? 185))%N.

(** The characters [int] reads as decimal digits. *)
Definition isdecimal_char (c : ascii) : bool :=
  let n := ord c in ((48 <=? n) && (n <=? 57))%N.

(** [str.lower] on one character: A..Z and the accented capitals of
    Latin-1 (all of 192..222 but the multiplication sign). *)
Definition lower_char (c : ascii) : ascii :=
  let n := ord c in
  if (((65 <=? n) && (n <=? 90))
      || ((192 <=? n) && (n <=? 222) && negb (n =? 215)))%N
  then ascii_of_N (n + 32) else c.

Fixpoint lower (s : string) : string :=
  match s with
  | EmptyString => EmptyString
  | String c s' => String (lower_char c) (lower s')
  end.

Fixpoint lstrip (s : string) : string :=
  match s with
  | EmptyString => EmptyString
  | String c s' => if isspace c then lstrip s' else s
  end.

Fixpoint rstrip (s : string) : string :=
  match s with
  | EmptyString => EmptyString
  | String c s' =>
      match rstrip s' with
      | EmptyString => if isspace c then EmptyString else String c EmptyString
      | r => String c r
      end
  end.

Definition strip (s : string) : string := rstrip (lstrip s).

(** Truth value of a string: [if s:]. *)
Definition nonempty (s : string) : bool :=
  match s with
  | EmptyString => false
  | String _ _ => true
  end.

Definition startswith (s p : string) : bool := prefix p s.

Fixpoint endswith (s p : string) : bool :=
  String.eqb s p ||
  match s with
  | EmptyString => false
  | String _ s' => endswith s' p
  end.

(** [s[:-1]] *)
Fixpoint drop_last (s : string) : string :=
  match s with
  | EmptyString => EmptyString
  | String c EmptyString => EmptyString
  | String c s' => String c (drop_last s')
  end.

(** [s[1:]] *)
Definition drop_first (s : string) : string :=
  match s with
  | EmptyString => EmptyString
  | String _ s' => s'
  end.

(** [s[1:-1]] *)
Definition slice_1_m1 (s : string) : string := drop_last (drop_first s).

Fixpoint all_chars (p : ascii -> bool) (s : string) : bool :=
  match s with
  | EmptyString => true
  | String c s' => p c && all_chars p s'
  end.

(** [str.isdigit]: at least one character, and all of them digits. *)
Definition isdigit (s : string) : bool := nonempty s && all_chars isdigit_char s.

Definition digit_value (c : ascii) : Z := Z.of_N (ord c) - 48.

Fixpoint int_acc (acc : Z) (s : string) : Z :=
  match s with
  | EmptyString => acc
  | String c s' => int_acc (10 * acc + digit_value c) s'
  end.

(** The most digits [int] converts: [sys.int_max_str_digits], 4300
    unless the interpreter is started with another value. *)
Definition int_max_str_digits : Z := 4300.

(** [int(s)] on the strings that reach it in [parse_due_date], those
    for which [s.isdigit()] holds: the decimal value when every
    character is one of 0..9 and there are at most 4300 of them,
    leading zeros counted; [ValueError] (here [Raises]) on a
    superscript digit and on a longer run of digits. *)
Definition int (s : string) : outcome Z :=
  if nonempty s && all_chars isdecimal_char s
     && (Z.of_nat (String.length s) <=? int_max_str_digits)
  then Returns (int_acc 0 s)
  else Raises.

(** ["%0<w>d" % n] for [0 <= n]. *)
Definition zfill (w : nat) (s : string) : string :=
  string_of_list_ascii (repeat "0"%char (w - String.length s)) ++ s.

Definition str_of_Z (n : Z) : string := NilZero.string_of_int (Z.to_int n).

Definition fmt_0d (w : nat) (n : Z) : string := zfill w (str_of_Z n).

End PyStr.

(** ** [datetime.date] and [datetime.timedelta] *)

Module PyDate.

Record date : Type := mkdate { year : Z; month : Z; day : Z }.

Definition MAXYEAR : Z := 9999.
Definition _MAXORDINAL : Z := 3652059.

Definition _DAYS_IN_MONTH : list Z :=
  [-1; 31; 28; 31; 30; 31; 30; 31; 31; 30; 31; 30; 31].

Definition _DAYS_BEFORE_MONTH : list Z :=
  [-1; 0; 31; 59; 90; 120; 151; 181; 212; 243; 273; 304; 334].

Definition index (l : list Z) (i : Z) : Z := nth (Z.to_nat i) l 0.

Definition _is_leap (y : Z) : bool :=
  (y mod 4 =? 0) && (negb (y mod 100 =? 0) || (y mod 400 =? 0)).

Definition _days_before_year (y : Z) : Z :=
  let y := y - 1 in y * 365 + y / 4 - y / 100 + y / 400.

Definition _days_in_month (y m : Z) : Z :=
  if (m =? 2) && _is_leap y then 29 else index _DAYS_IN_MONTH m.

Definition _days_before_month (y m : Z) : Z :=
  index _DAYS_BEFORE_MONTH m + (if (2 <? m) && _is_leap y then 1 else 0).

Definition _ymd2ord (y m d : Z) : Z :=
  _days_before_year y + _days_before_month y m + d.

Definition _DI400Y : Z := 146097.
Definition _DI100Y : Z := 36524.
Definition _DI4Y : Z := 1461.

Definition _ord2ymd (n : Z) : date :=
  let n := n - 1 in
  let n400 := n / _DI400Y in
  let n := n mod _DI400Y in
  let y := n400 * 400 + 1 in
  let n100 := n / _DI100Y in
  let n := n mod _DI100Y in
  let n4 := n / _DI4Y in
  let n := n mod _DI4Y in
  let n1 := n / 365 in
  let n := n mod 365 in
  let y := y + n100 * 100 + n4 * 4 + n1 in
  if (n1 =? 4) || (n100 =? 4) then mkdate (y - 1) 12 31
  else
    let leapyear := (n1 =? 3) && (negb (n4 =? 24) || (n100 =? 3)) in
    let m := Z.shiftr (n + 50) 5 in
    let preceding :=
      index _DAYS_BEFORE_MONTH m + (if (2 <? m) && leapyear then 1 else 0) in
    if n <? preceding then
      let m := m - 1 in
      let preceding :=
        preceding
        - (index _DAYS_IN_MONTH m + (if (m =? 2) && leapyear then 1 else 0)) in
      mkdate y m (n - preceding + 1)
    else mkdate y m (n - preceding + 1).

(** The values a [date] object can hold. *)
Definition valid_date (d : date) : bool :=
  (1 <=? year d) && (year d <=? MAXYEAR)
  && (1 <=? month d) && (month d <=? 12)
  && (1 <=? day d) && (day d <=? _days_in_month (year d) (month d)).

Definition toordinal (d : date) : Z := _ymd2ord (year d) (month d) (day d).

Definition fromordinal (n : Z) : date := _ord2ymd n.

(** [timedelta(days=d, weeks=w)], as its number of days;
    [OverflowError] past 999999999 days either way. *)
Definition timedelta (days weeks : Z) : outcome Z :=
  let d := days + 7 * weeks in
  if Z.abs d <=? 999999999 then Returns d else Raises.

(** [date.__add__]: [OverflowError] when the sum leaves
    0001-01-01 .. 9999-12-31. *)
Definition add (d : date) (delta : Z) : outcome date :=
  let o := toordinal d + delta in
  if (0 <? o) && (o <=? _MAXORDINAL) then Returns (fromordinal o) else Raises.

(** [date.isoformat]: ["%04d-%02d-%02d"]. *)
Definition isoformat (d : date) : string :=
  PyStr.fmt_0d 4 (year d) ++ "-" ++ PyStr.fmt_0d 2 (month d) ++ "-"
  ++ PyStr.fmt_0d 2 (day d).

End PyDate.

Import PyDate.

Example isoformat_ex : isoformat (mkdate 2025 1 10) = "2025-01-10".
Proof. reflexivity. Qed.

Example add_ex : PyDate.add (mkdate 2025 1 10) 14 = Returns (mkdate 2025 1 24).
Proof. reflexivity. Qed.

Example add_max_ex : PyDate.add (mkdate 9999 12 31) 1 = Raises.
Proof. reflexivity. Qed.

Example toordinal_ex : toordinal (mkdate 2025 1 10) = 739261.
Proof. reflexivity. Qed.

(** ** The [todos] table

    One record per row, with the six columns of [CREATE TABLE todos];
    the table is the list of its rows in insertion order.  [done] and
    [deleted] are SQLite INTEGERs: the program writes only 0 and 1. *)

Record todo : Type := mktodo {
  id : Z;
  title : string;
  category : string;
  due : string;
  done : Z;
  deleted : Z
}.

Definition table : Type := list todo.

Definition ids (rows : list todo) : list Z := map id rows.

(** [id INTEGER PRIMARY KEY]: no two rows share an [id]. *)
Definition primary_key (con : table) : Prop := NoDup (ids con).

(** An INTEGER of SQLite is a signed integer of 64 bits. *)
Definition MAX_ROWID : Z := 9223372036854775807.

Definition SMALLEST_INT64 : Z := -9223372036854775808.

Definition sqlite_int64 (n : Z) : bool :=
  (SMALLEST_INT64 <=? n) && (n <=? MAX_ROWID).

(** A Python [int] bound to a [?] of a statement: [OverflowError]
    when it is no INTEGER of SQLite. *)
Definition bind_int (n : Z) : outcome Z :=
  if sqlite_int64 n then Returns n else Raises.

Fixpoint max_rowid (con : table) : option Z :=
  match con with
  | [] => None
  | r :: con' =>
      match max_rowid con' with
      | None => Some (id r)
      | Some m => Some (Z.max (id r) m)
      end
  end.

(** The rowid SQLite gives an [INSERT] that names none: 1 in an empty
    table, else one more than the largest in use.  When the largest
    is [MAX_ROWID] SQLite draws positive candidates at random until
    one is unused, and gives up ([SQLITE_FULL], an exception of
    [execute]) after some attempts: [random_rowid con] is the last
    candidate drawn. *)
Definition new_rowid (random_rowid : table -> Z) (con : table) : outcome Z :=
  match max_rowid con with
  | None => Returns 1
  | Some m =>
      if m <? MAX_ROWID then Returns (m + 1)
      else
        let v := random_rowid con in
        if (1 <=? v) && (v <=? MAX_ROWID) && negb (existsb (Z.eqb v) (ids con))
        then Returns v
        else Raises
  end.

(** [INSERT INTO todos(title, category, due, done, deleted)
     VALUES (?,?,?,?,0)] *)
Definition sql_insert (random_rowid : table -> Z) (con : table)
  (t c d : string) (dn : Z) : outcome table :=
  n <- new_rowid random_rowid con ;;
  Returns (con ++ [mktodo n t c d dn 0])%list.

(** [UPDATE todos SET ... WHERE id=?] *)
Definition sql_update (set : todo -> todo) (tid : Z) (con : table) : table :=
  map (fun r => if id r =? tid then set r else r) con.

Definition set_done (r : todo) : todo :=
  mktodo (id r) (title r) (category r) (due r) 1 (deleted r).

Definition set_deleted (r : todo) : todo :=
  mktodo (id r) (title r) (category r) (due r) (done r) 1.

(** [ORDER BY id DESC], by insertion. *)
Fixpoint insert_desc (r : todo) (rows : list todo) : list todo :=
  match rows with
  | [] => [r]
  | r' :: rows' =>
      if id r' <=? id r then r :: rows else r' :: insert_desc r rows'
  end.

Fixpoint order_by_id_desc (rows : list todo) : list todo :=
  match rows with
  | [] => []
  | r :: rows' => insert_desc r (order_by_id_desc rows')
  end.

(** [SELECT ... FROM todos WHERE p ORDER BY id DESC] *)
Definition sql_select (p : todo -> bool) (con : table) : list todo :=
  order_by_id_desc (filter p con).

(** [SELECT COUNT( * ) FROM todos WHERE p] *)
Definition sql_count (p : todo -> bool) (con : table) : Z :=
  Z.of_nat (List.length (filter p con)).

(** *** [LIKE]

    SQLite's [LIKE] without [ESCAPE]: [%] stands for any run of
    characters, [_] for any one character, and any other character
    for itself, the letters A..Z and a..z without regard to case.
    Pattern and text are read as the strings of C: up to their first
    NUL character. *)

(** The characters of [s] before its first NUL. *)
Fixpoint c_str (s : string) : string :=
  match s with
  | EmptyString => EmptyString
  | String c s' =>
      if Ascii.eqb c Ascii.zero then EmptyString else String c (c_str s')
  end.

Definition like_fold (c : ascii) : ascii :=
  let n := PyStr.ord c in
  if ((65 <=? n) && (n <=? 90))%N then ascii_of_N (n + 32) else c.

Definition like_char (c d : ascii) : bool :=
  Ascii.eqb (like_fold c) (like_fold d).

Fixpoint patternCompare (p s : string) : bool :=
  match p with
  | EmptyString => negb (PyStr.nonempty s)
  | String c p' =>
      if Ascii.eqb c "%" then
        (fix any (s : string) : bool :=
           patternCompare p' s ||
           match s with
           | EmptyString => false
           | String _ s' => any s'
           end) s
      else
        match s with
        | EmptyString => false
        | String d s' =>
            (Ascii.eqb c "_" || like_char c d) && patternCompare p' s'
        end
  end.

(** [s LIKE p] *)
Definition sql_like (p s : string) : bool :=
  patternCompare (c_str p) (c_str s).

(** The pair [(where_clause, params)] that [main] threads through
    [draw_dashboard] and [get_stats]: one of the three the program
    ever builds. *)
Inductive clause : Type :=
| where_none                      (* "", () *)
| where_category (cat : string)   (* "AND category=?", (cat,) *)
| where_title_like (pat : string) (* "AND title LIKE ?", (pat,) *).

Definition where_holds (w : clause) (r : todo) : bool :=
  match w with
  | where_none => true
  | where_category cat => String.eqb (category r) cat
  | where_title_like pat => sql_like pat (title r)
  end.

(** ** The progress percentage: [int((done / total) * 100)]

    [/] on two [int]s and [*] are binary64 operations; [int] drops the
    fraction.  Counts are below 2^53, where [int -> float] is exact. *)

Definition float_of_int (z : Z) : float := PrimFloat.of_uint63 (Uint63.of_Z z).

Definition int_of_float (f : float) : Z :=
  match Prim2SF f with
  | S754_finite s m e =>
      let v := if 0 <=? e then Z.shiftl (Zpos m) e else Z.shiftr (Zpos m) (- e) in
      if s then - v else v
  | _ => 0
  end.

Definition progress_of (total dn : Z) : Z :=
  if total =? 0 then 0
  else int_of_float
         (PrimFloat.mul (PrimFloat.div (float_of_int dn) (float_of_int total))
                        (float_of_int 100)).

Example progress_3_1 : progress_of 3 1 = 33.
Proof. reflexivity. Qed.

Example sql_like_ex :
  sql_like "%milk%" "Buy MILK today" = true /\ sql_like "%milk%" "Buy silk" = false
  /\ sql_like "%_%" "x" = true /\ sql_like "%_%" "" = false
  /\ sql_like "%%%" "" = true
  /\ sql_like "%b%" ("a" ++ String Ascii.zero "b") = false
  /\ sql_like ("%a" ++ String Ascii.zero "b%") "xa" = true
  /\ sql_like ("%a" ++ String Ascii.zero "b%") "xab" = false.
Proof. repeat split; reflexivity. Qed.

(** [l[i]] on a Python list: negative indices count from the end,
    [IndexError] outside [-len .. len-1]. *)
Definition py_index {A : Type} (l : list A) (i : Z) : outcome A :=
  let n := Z.of_nat (List.length l) in
  let j := if i <? 0 then i + n else i in
  if (0 <=? j) && (j <? n) then
    match nth_error l (Z.to_nat j) with
    | Some a => Returns a
    | None => Raises
    end
  else Raises.

(** ** The store operations of [planner.py] that need no parser *)

Definition mark_done (con : table) (tid : Z) : outcome table :=
  tid <- bind_int tid ;;
  Returns (sql_update set_done tid con).

Definition delete_todo (con : table) (tid : Z) : outcome table :=
  tid <- bind_int tid ;;
  Returns (sql_update set_deleted tid con).

Definition get_stats (con : table) (w : clause) : Z * Z :=
  let total := sql_count (fun r => (deleted r =? 0) && where_holds w r) con in
  let dn :=
    sql_count (fun r => (done r =? 1) && (deleted r =? 0) && where_holds w r) con in
  (total, dn).

(** The rows [draw_dashboard] fetches and returns. *)
Definition draw_dashboard (con : table) (w : clause) : list todo :=
  sql_select (fun r => (deleted r =? 0) && (done r =? 0) && where_holds w r) con.

(** The percentage [draw_dashboard] prints. *)
Definition dashboard_progress (con : table) (w : clause) : Z :=
  let '(total, dn) := get_stats con w in progress_of total dn.

(** The rows [draw_completed] fetches. *)
Definition draw_completed (con : table) : list todo :=
  sql_select (fun r => (deleted r =? 0) && (done r =? 1)) con.

(** ** The view state of [main] *)

Inductive view_name : Type := dashboard | completed.

Record state : Type := mkstate {
  view : view_name;
  cursor_idx : Z;
  where_clause : clause;
  subtitle : string;
  con : table
}.

(** What one turn of the loop reads: the key from [getch], with the
    lines the prompts of that key collect through [getstr]. *)
Inductive key : Type :=
| key_q
| KEY_UP
| KEY_DOWN
| key_a (title category due : string)
| key_d
| key_x
| key_c
| key_f (cat : string)
| key_slash (query : string)
| key_b
| key_other.

Definition initial (db : table) : state := mkstate dashboard 0 where_none "" db.

Definition truthy {A : Type} (l : list A) : bool :=
  match l with
  | [] => false
  | _ :: _ => true
  end.

Definition len {A : Type} (l : list A) : Z := Z.of_nat (List.length l).

Section Planner.

(** [dateutil.parser.parse(s).date()] when the current date is
    [today]; [Raises] stands for any exception of the parser. *)
Variable date_parser_parse : date -> string -> outcome date.

(** The candidate rowid of [new_rowid]. *)
Variable random_rowid : table -> Z.

Definition parse_due_date (today : date) (s : string) : outcome string :=
  let s := PyStr.lower (PyStr.strip s) in
  if negb (PyStr.nonempty s) then Returns ""
  else if String.eqb s "today" then Returns (isoformat today)
  else if String.eqb s "tomorrow" then
    td <- timedelta 1 0 ;; d <- PyDate.add today td ;; Returns (isoformat d)
  else if PyStr.startswith s "+" && PyStr.endswith s "d"
          && PyStr.isdigit (PyStr.slice_1_m1 s) then
    n <- PyStr.int (PyStr.slice_1_m1 s) ;;
    td <- timedelta n 0 ;; d <- PyDate.add today td ;; Returns (isoformat d)
  else if PyStr.startswith s "+" && PyStr.endswith s "w"
          && PyStr.isdigit (PyStr.slice_1_m1 s) then
    n <- PyStr.int (PyStr.slice_1_m1 s) ;;
    td <- timedelta 0 n ;; d <- PyDate.add today td ;; Returns (isoformat d)
  else
    match date_parser_parse today s with
    | Returns d => Returns (isoformat d)
    | Raises => Returns s
    end.

Definition add_todo (today : date) (con : table) (title category due : string)
  : outcome table :=
  d <- parse_due_date today due ;;
  sql_insert random_rowid con title category d 0.

(** One turn of [while True], from the key read on: [Returns (Some
    st)] goes round again, [Returns None] is [break], [Raises] is an
    exception of the store or of [parse_due_date] leaving [main].
    The drawing at the head of the turn and the prompts are taken to
    be accepted by curses (what it may refuse is followed in [write]
    below), and the lines of the prompts to decode as UTF-8: a key
    carries them decoded. *)
Definition loop_body (today : date) (ch : key) (st : state)
  : outcome (option state) :=
  let todos :=
    match view st with
    | dashboard => draw_dashboard (con st) (where_clause st)
    | completed => []
    end in
  match ch, view st with
  | key_q, _ => Returns None
  | KEY_UP, dashboard =>
      if truthy todos then
        Returns (Some (mkstate (view st) ((cursor_idx st - 1) mod len todos)
                               (where_clause st) (subtitle st) (con st)))
      else Returns (Some st)
  | KEY_DOWN, dashboard =>
      if truthy todos then
        Returns (Some (mkstate (view st) ((cursor_idx st + 1) mod len todos)
                               (where_clause st) (subtitle st) (con st)))
      else Returns (Some st)
  | key_a t c d, dashboard =>
      db <- add_todo today (con st) t c d ;;
      Returns (Some (mkstate (view st) 0 where_none "" db))
  | key_d, dashboard =>
      if truthy todos then
        r <- py_index todos (cursor_idx st) ;;
        db <- mark_done (con st) (id r) ;;
        Returns (Some (mkstate (view st) 0 (where_clause st) (subtitle st) db))
      else Returns (Some st)
  | key_x, dashboard =>
      if truthy todos then
        r <- py_index todos (cursor_idx st) ;;
        db <- delete_todo (con st) (id r) ;;
        Returns (Some (mkstate (view st) 0 (where_clause st) (subtitle st) db))
      else Returns (Some st)
  | key_c, dashboard =>
      Returns (Some (mkstate completed (cursor_idx st) (where_clause st)
                             (subtitle st) (con st)))
  | key_f cat, dashboard =>
      if PyStr.nonempty cat then
        Returns (Some (mkstate (view st) 0 (where_category cat)
                               ("Filtered by #" ++ cat) (con st)))
      else Returns (Some st)
  | key_slash query, dashboard =>
      if PyStr.nonempty query then
        Returns (Some (mkstate (view st) 0 (where_title_like ("%" ++ query ++ "%"))
                               ("Search results for '" ++ query ++ "'") (con st)))
      else Returns (Some st)
  | key_b, dashboard =>
      Returns (Some (mkstate (view st) 0 where_none "" (con st)))
  | key_b, completed =>
      Returns (Some (mkstate dashboard 0 (where_clause st) (subtitle st) (con st)))
  | _, _ => Returns (Some st)
  end.

(** The loop over the keys read so far. *)
Fixpoint main (keys : list (date * key)) (st : state) : outcome (option state) :=
  match keys with
  | [] => Returns (Some st)
  | (today, ch) :: keys' =>
      match loop_body today ch st with
      | Returns (Some st') => main keys' st'
      | stop => stop
      end
  end.

(** The writes the store exposes, and a run of them in sequence. *)
Inductive store_op : Type :=
| op_add (today : date) (title category due : string)
| op_mark_done (tid : Z)
| op_delete (tid : Z).

Definition run_op (op : store_op) (con : table) : outcome table :=
  match op with
  | op_add today t c d => add_todo today con t c d
  | op_mark_done tid => mark_done con tid
  | op_delete tid => delete_todo con tid
  end.

Fixpoint run_ops (ops : list store_op) (con : table) : outcome table :=
  match ops with
  | [] => Returns con
  | op :: ops' => con' <- run_op op con ;; run_ops ops' con'
  end.

End Planner.

(** A parser that recognises nothing and a draw that finds no rowid,
    for running the examples. *)
Definition no_parser (today : date) (s : string) : outcome date := Raises.

Definition no_rowid (con : table) : Z := 0.

Definition today_ex : date := mkdate 2025 1 10.

(** [no_parser] fails on [t] whatever the day. *)
Definition date_parser_none (t : string) : Prop :=
  forall today, no_parser today t = Raises.

Example parse_due_date_ex :
  map (parse_due_date no_parser today_ex)
      ["today"; "tomorrow"; "+3d"; "+2w"; ""; "xyzzy"; "  ToMorrow "; "+9999999d"]
  = [Returns "2025-01-10"; Returns "2025-01-11"; Returns "2025-01-13";
     Returns "2025-01-24"; Returns ""; Returns "xyzzy"; Returns "2025-01-11";
     Raises].
Proof. reflexivity. Qed.

(** "+" superscript-two "d": [isdigit] holds of the middle, [int]
    raises [ValueError] on it, and nothing catches that. *)
Example superscript_digit_ex :
  PyStr.isdigit (String (ascii_of_N 178) "") = true
  /\ parse_due_date no_parser today_ex ("+" ++ String (ascii_of_N 178) "d") = Raises.
Proof. split; reflexivity. Qed.

(** ** Vocabulary of the properties *)

(** Descending by [id], and strictly so. *)
Definition id_desc (a b : todo) : Prop := id b <= id a.

Definition id_strict_desc (a b : todo) : Prop := id b < id a.

(** Every row of [db] with identity [t] is marked deleted. *)
Definition all_deleted (t : Z) (db : table) : Prop :=
  forall r, In r db -> id r = t -> deleted r <> 0.

(** [t] is the identity of a row, and every row of that identity
    has [deleted = 1]. *)
Definition soft_deleted (t : Z) (db : table) : Prop :=
  In t (ids db) /\ forall r, In r db -> id r = t -> deleted r = 1.

(** The cursor points into the rows the dashboard lists, or is 0
    when there is none. *)
Definition cursor_in_bounds (st : state) : Prop :=
  let todos := draw_dashboard (con st) (where_clause st) in
  (todos = [] -> cursor_idx st = 0)
  /\ (todos <> [] -> 0 <= cursor_idx st < len todos).

Definition cursor_ok (st : state) : Prop :=
  view st = dashboard -> cursor_in_bounds st.

(** [s] with A..Z folded to a..z, the way [LIKE] compares. *)
Fixpoint like_fold_str (s : string) : string :=
  match s with
  | EmptyString => EmptyString
  | String c s' => String (like_fold c) (like_fold_str s')
  end.

(** Neither [%] nor [_] occurs in [q]; no NUL occurs in [q]. *)
Definition no_wildcard (q : string) : bool :=
  PyStr.all_chars (fun c => negb (Ascii.eqb c "%" || Ascii.eqb c "_")) q.

Definition no_nul (q : string) : bool :=
  PyStr.all_chars (fun c => negb (Ascii.eqb c Ascii.zero)) q.

(** [t] has a run of characters equal to [q] up to the case of
    A..Z. *)
Definition contains_nocase (t q : string) : Prop :=
  exists pre m post, t = pre ++ m ++ post /\ like_fold_str m = like_fold_str q.

(** What the documentation of SQLite says of [LIKE], as a relation
    between a pattern and a text without NUL: a [%] in the pattern
    matches any run of zero or more characters of the text, a [_]
    matches any one character, and any other character matches
    itself or its other case, for the letters of ASCII. *)
Inductive like_match : string -> string -> Prop :=
| like_end : like_match "" ""
| like_any (p pre post : string) :
    like_match p post -> like_match (String "%" p) (pre ++ post)
| like_one (p : string) (d : ascii) (s : string) :
    like_match p s -> like_match (String "_" p) (String d s)
| like_same (c : ascii) (p : string) (d : ascii) (s : string) :
    c <> "%"%char -> c <> "_"%char -> like_fold c = like_fold d ->
    like_match p s -> like_match (String c p) (String d s).

(** The bytes of [s] in UTF-8: one for a character below 128, two
    for the others of Latin-1. *)
Fixpoint utf8_len (s : string) : Z :=
  match s with
  | EmptyString => 0
  | String c s' => (if (PyStr.ord c <? 128)%N then 1 else 2) + utf8_len s'
  end.

(** SQLite evaluates [LIKE] on patterns of at most 50000 bytes
    ([SQLITE_MAX_LIKE_PATTERN_LENGTH]); a longer one is an error of
    the statement.  The prompts of [main] read at most 1023 bytes. *)
Definition like_pattern_ok (pat : string) : Prop := utf8_len pat <= 50000.

(** The ids of the table are INTEGERs of SQLite, as the column
    [id INTEGER PRIMARY KEY] holds them. *)
Definition rowids (db : table) : Prop :=
  forall r, In r db -> sqlite_int64 (id r) = true.

(** Every id of the table is below [n]. *)
Definition ids_below (n : Z) (db : table) : Prop :=
  forall i, In i (ids db) -> i < n.

(** The tests of the two [+N] shortcuts, on the stripped and
    lower-cased input: [c] is "d" or "w". *)
Definition plus_rule (c t : string) : bool :=
  PyStr.startswith t "+" && PyStr.endswith t c
  && PyStr.isdigit (PyStr.slice_1_m1 t).

(** The date [n] days after [today], by day number. *)
Definition days_later (today : date) (n : Z) : date :=
  fromordinal (toordinal today + n).

(** The month and day [_ord2ymd] finds for day [n] (from 0) of a
    year, leap or not. *)
Definition month_day (leapyear : bool) (n : Z) : Z * Z :=
  let m := Z.shiftr (n + 50) 5 in
  let preceding :=
    index _DAYS_BEFORE_MONTH m + (if (2 <? m) && leapyear then 1 else 0) in
  if n <? preceding then
    let m := m - 1 in
    let preceding :=
      preceding
      - (index _DAYS_IN_MONTH m + (if (m =? 2) && leapyear then 1 else 0)) in
    (m, n - preceding + 1)
  else (m, n - preceding + 1).

(** [month_day] lands on a day of the calendar, the [n]-th. *)
Definition month_day_ok (leap : bool) (n : Z) : bool :=
  let '(m, d) := month_day leap n in
  (1 <=? m) && (m <=? 12) && (1 <=? d)
  && (d <=? (if (m =? 2) && leap then 29 else index _DAYS_IN_MONTH m))
  && (index _DAYS_BEFORE_MONTH m + (if (2 <? m) && leap then 1 else 0) + d
      =? n + 1).

(** Days before month [m] and days in month [m], in a leap year or
    not: [_days_before_month] and [_days_in_month] by the leap flag. *)
Definition dbm (leap : bool) (m : Z) : Z :=
  index _DAYS_BEFORE_MONTH m + (if (2 <? m) && leap then 1 else 0).

Definition dim (leap : bool) (m : Z) : Z :=
  if (m =? 2) && leap then 29 else index _DAYS_IN_MONTH m.

(** The months of a year follow one another without overlap. *)
Definition months_ok (leap : bool) (m1 m2 : Z) : bool :=
  (0 <=? dbm leap m1)
  && (dbm leap m1 + dim leap m1 <=? (if leap then 366 else 365))
  && (if m1 <? m2 then dbm leap m1 + dim leap m1 <=? dbm leap m2 else true).

(** Fifty tasks added to an empty table, the first twenty-nine then
    marked done. *)
Definition fifty_tasks : list store_op :=
  (repeat (op_add today_ex "task" "" "") 50
   ++ map (fun n => op_mark_done (Z.of_nat n)) (seq 1 29))%list.

(** Two tasks, as [add_todo] leaves them on 2025-01-10. *)
Definition db_ex : table :=
  [mktodo 1 "A" "work" "2025-01-10" 0 0; mktodo 2 "B" "home" "2025-01-11" 0 0].

(** The same table after A is deleted and B is done; a run of
    store operations; a run of keys. *)
Definition db_deleted_ex : table :=
  [mktodo 1 "A" "work" "2025-01-10" 0 1; mktodo 2 "B" "home" "2025-01-11" 1 0].

Definition ops_ex : list store_op :=
  [op_add today_ex "C" "" "+3d"; op_mark_done 1; op_delete 2; op_mark_done 1].

Definition keys_ex : list (date * key) :=
  [(today_ex, KEY_DOWN); (today_ex, key_d); (today_ex, key_a "C" "" "tomorrow");
   (today_ex, KEY_UP)].

(** Where [keys_ex] leaves [main] started on [db_ex]: A done, C
    added, the cursor on B, the second of the two rows listed. *)
Definition st_ex : state :=
  mkstate dashboard 1 where_none ""
    [mktodo 1 "A" "work" "2025-01-10" 1 0; mktodo 2 "B" "home" "2025-01-11" 0 0;
     mktodo 3 "C" "" "2025-01-11" 0 0].

(** ** What [draw_dashboard] and [draw_completed] write

    The calls on [stdscr] whose text or attribute depends on the
    data, in the order the code makes them as long as curses accepts
    them.  ([clear], the fixed header lines and [refresh] are left
    out.) *)

Inductive attr : Type :=
| A_NORMAL               (* 0, no attribute given *)
| A_BOLD
| A_DIM
| color_pair (n : Z).

Inductive call : Type :=
| addstr_at (y x : Z) (s : string) (a : attr)   (* stdscr.addstr(y, x, s, a) *)
| addstr (s : string) (a : attr).               (* stdscr.addstr(s, a) *)

(** *** [datetime.strptime(s, "%Y-%m-%d").date()]

    The format compiles to the regular expression
    [(\d\d\d\d)-(1[0-2]|0[1-9]|[1-9])-(3[0-1]|[1-2]\d|0[1-9]|[1-9]| [1-9])],
    matched at the start of [s]; the match must reach the end of [s]
    and name a date of the calendar, else [ValueError]. *)

Definition char_in (lo hi : N) (c : ascii) : bool :=
  ((lo <=? PyStr.ord c) && (PyStr.ord c <=? hi))%N.

(** The ways [1[0-2]|0[1-9]|[1-9]] matches at the head of [s], in the
    order the alternatives are tried: the month and what follows. *)
Definition month_matches (s : string) : list (Z * string) :=
  match s with
  | EmptyString => []
  | String a t =>
      (match t with
       | EmptyString => []
       | String b t' =>
           (if Ascii.eqb a "1" && char_in 48 50 b
            then [(10 + PyStr.digit_value b, t')] else [])
           ++ (if Ascii.eqb a "0" && char_in 49 57 b
               then [(PyStr.digit_value b, t')] else [])
       end
       ++ (if char_in 49 57 a then [(PyStr.digit_value a, t)] else []))%list
  end.

(** The same for [3[0-1]|[1-2]\d|0[1-9]|[1-9]| [1-9]]. *)
Definition day_matches (s : string) : list (Z * string) :=
  match s with
  | EmptyString => []
  | String a t =>
      (match t with
       | EmptyString => []
       | String b t' =>
           (if Ascii.eqb a "3" && char_in 48 49 b
            then [(30 + PyStr.digit_value b, t')] else [])
           ++ (if char_in 49 50 a && char_in 48 57 b
               then [(10 * PyStr.digit_value a + PyStr.digit_value b, t')] else [])
           ++ (if Ascii.eqb a "0" && char_in 49 57 b
               then [(PyStr.digit_value b, t')] else [])
       end
       ++ (if char_in 49 57 a then [(PyStr.digit_value a, t)] else [])
       ++ match t with
          | EmptyString => []
          | String b t' =>
              if Ascii.eqb a " " && char_in 49 57 b
              then [(PyStr.digit_value b, t')] else []
          end)%list
  end.

Definition after_dash (s : string) : option string :=
  match s with
  | String c t => if Ascii.eqb c "-" then Some t else None
  | EmptyString => None
  end.

(** The first way, in the order of the regex engine, to match a
    month, a dash and a day at the head of [s]. *)
Fixpoint month_dash_day (ms : list (Z * string)) : option (Z * Z * string) :=
  match ms with
  | [] => None
  | (m, t1) :: ms' =>
      match after_dash t1 with
      | Some t2 =>
          match day_matches t2 with
          | (d, t3) :: _ => Some (m, d, t3)
          | [] => month_dash_day ms'
          end
      | None => month_dash_day ms'
      end
  end.

Definition strptime_ymd (s : string) : outcome date :=
  match s with
  | String a (String b (String c (String e t))) =>
      if char_in 48 57 a && char_in 48 57 b && char_in 48 57 c && char_in 48 57 e
      then
        let y := 1000 * PyStr.digit_value a + 100 * PyStr.digit_value b
                 + 10 * PyStr.digit_value c + PyStr.digit_value e in
        match after_dash t with
        | Some t1 =>
            match month_dash_day (month_matches t1) with
            | Some (m, d, rest) =>
                if PyStr.nonempty rest then Raises
                else if valid_date (mkdate y m d) then Returns (mkdate y m d)
                else Raises
            | None => Raises
            end
        | None => Raises
        end
      else Raises
  | _ => Raises
  end.

(** [date.__lt__] and [date.__eq__]: by year, then month, then day. *)
Definition date_ltb (a b : date) : bool :=
  (year a <? year b)
  || ((year a =? year b)
      && ((month a <? month b) || ((month a =? month b) && (day a <? day b)))).

Definition date_eqb (a b : date) : bool :=
  (year a =? year b) && (month a =? month b) && (day a =? day b).

(** Truth value of an [int]. *)
Definition int_truthy (n : Z) : bool := negb (n =? 0).

(** The attribute of a row of the dashboard: red (pair 1) when
    overdue, yellow (pair 2) when due today, green (pair 3) when due
    later; none when there is no due date, when the task is done, or
    when the due date is not in the format.  (The two reads of
    [date.today()] are taken to fall on one day.) *)
Definition due_attr (today : date) (due_str : string) (dn : Z) : attr :=
  if PyStr.nonempty due_str && negb (int_truthy dn) then
    match strptime_ymd due_str with
    | Returns d =>
        if date_ltb d today then color_pair 1
        else if date_eqb d today then color_pair 2
        else color_pair 3
    | Raises => A_NORMAL
    end
  else A_NORMAL.

(** The body of [for idx, t in enumerate(todos)] in [draw_dashboard]. *)
Definition todo_calls (today : date) (cursor_idx idx : Z) (t : todo) : list call :=
  let prefix := if int_truthy (done t) then "[x] " else "[ ] " in
  let a := due_attr today (due t) (done t) in
  let marker := if idx =? cursor_idx then "-> " else "   " in
  ([addstr_at (5 + idx) 0 marker A_NORMAL;
    addstr (prefix ++ title t ++ " ") a]
   ++ (if PyStr.nonempty (category t)
       then [addstr ("#" ++ category t) (color_pair 4)] else [])
   ++ (if PyStr.nonempty (due t)
       then [addstr (" (due " ++ due t ++ ")") a] else []))%list.

(** [enumerate(l)], counting from [i]. *)
Fixpoint enumerate_from {A : Type} (i : Z) (l : list A) : list (Z * A) :=
  match l with
  | [] => []
  | a :: l' => (i, a) :: enumerate_from (i + 1) l'
  end.

Definition todos_calls (today : date) (cursor_idx : Z) (todos : list todo)
  : list call :=
  if truthy todos then
    flat_map (fun it => todo_calls today cursor_idx (fst it) (snd it))
             (enumerate_from 0 todos)
  else [addstr_at 5 0 "No todos yet!" A_DIM].

(** [s * n] on a [str]: nothing when [n] is negative. *)
Definition str_mul (s : string) (n : Z) : string :=
  String.concat "" (repeat s (Z.to_nat n)).

(** [int -> float] with the sign: exact below 2^53 either way. *)
Definition float_of_signed (z : Z) : float :=
  if z <? 0 then PrimFloat.opp (float_of_int (- z)) else float_of_int z.

(** [filled] in [draw_progress_bar]: [int((percent / 100) * width)]. *)
Definition bar_filled (percent width : Z) : Z :=
  int_of_float
    (PrimFloat.mul (PrimFloat.div (float_of_signed percent) (float_of_signed 100))
                   (float_of_signed width)).

Definition bar_text (percent width : Z) : string :=
  let filled := bar_filled percent width in
  "[" ++ str_mul "#" filled ++ str_mul "-" (width - filled)
  ++ "] " ++ PyStr.str_of_Z percent ++ "%".

Definition draw_progress_bar (y x percent width : Z) : call :=
  addstr_at y x (bar_text percent width) A_NORMAL.

(** The calls of [draw_dashboard] from the subtitle on, on a screen
    [maxx] columns wide. *)
Definition dashboard_calls (today : date) (maxx : Z) (con : table)
  (cursor_idx : Z) (w : clause) (subtitle : string) : list call :=
  let todos := draw_dashboard con w in
  let '(total, dn) := get_stats con w in
  let progress := progress_of total dn in
  ((if PyStr.nonempty subtitle then [addstr_at 3 0 subtitle A_BOLD] else [])
   ++ todos_calls today cursor_idx todos
   ++ [addstr_at 18 0
         ("Total: " ++ PyStr.str_of_Z total ++ "  Done: " ++ PyStr.str_of_Z dn
          ++ "  Progress: " ++ PyStr.str_of_Z progress ++ "%") A_NORMAL;
       draw_progress_bar 19 0 progress (maxx - 7)])%list.

(** The body of the loop of [draw_completed], and its calls. *)
Definition completed_calls_of (idx : Z) (t : todo) : list call :=
  ([addstr_at (3 + idx) 0 ("[x] " ++ title t ++ " ") A_NORMAL]
   ++ (if PyStr.nonempty (category t)
       then [addstr ("#" ++ category t) (color_pair 4)] else [])
   ++ (if PyStr.nonempty (due t)
       then [addstr (" (due " ++ due t ++ ")") A_NORMAL] else []))%list.

Definition completed_calls (con : table) : list call :=
  let todos := draw_completed con in
  if truthy todos then
    flat_map (fun it => completed_calls_of (fst it) (snd it))
             (enumerate_from 0 todos)
  else [addstr_at 3 0 "No completed todos yet!" A_DIM].

(** *** The screen

    [addstr] raises [curses.error] when the text does not fit the
    window: when the line named is below the last one, or the text
    runs past the bottom right corner.  Whether a call fits depends
    on the size of the terminal and on what was written before:
    [fits written c] tells whether curses accepts the call [c] after
    the calls [written].  A drawing makes its calls in order and
    stops at the first one refused; nothing catches the exception. *)
Fixpoint write (fits : list call -> call -> bool) (written cs : list call)
  : outcome (list call) :=
  match cs with
  | [] => Returns written
  | c :: cs' =>
      if fits written c then write fits (written ++ [c])%list cs' else Raises
  end.

(** Two screens for the examples: one that takes every call, and
    one of 24 lines, which refuses the calls that name a line it has
    not (and, here, no other). *)
Definition fits_all (written : list call) (c : call) : bool := true.

Definition fits_24_lines (written : list call) (c : call) : bool :=
  match c with
  | addstr_at y _ _ _ => (0 <=? y) && (y <? 24)
  | addstr _ _ => true
  end.

(** The line a call names, if it names one. *)
Definition call_line (c : call) : option Z :=
  match c with
  | addstr_at y _ _ _ => Some y
  | addstr _ _ => None
  end.

(** The markers written, line by line. *)
Fixpoint markers (cs : list call) : list (Z * string) :=
  match cs with
  | addstr_at y 0 s A_NORMAL :: cs' => (y, s) :: markers cs'
  | _ :: cs' => markers cs'
  | [] => []
  end.

Example strptime_ymd_ex :
  map strptime_ymd
      ["2025-01-10"; "2025-1-5"; "2025-01- 5"; "2025-02-30"; "0000-01-01";
       "0999-01-01"; "2025-01-32"; "2025-13-01"; "2025-10-5"; " 2025-01-10";
       "2025-01-10 "; "2025-00-10"; "2025-01-00"; "xyzzy"; ""]
  = [Returns (mkdate 2025 1 10); Returns (mkdate 2025 1 5);
     Returns (mkdate 2025 1 5); Raises; Raises; Returns (mkdate 999 1 1);
     Raises; Raises; Returns (mkdate 2025 10 5); Raises; Raises; Raises;
     Raises; Raises; Raises].
Proof. reflexivity. Qed.

Example bar_text_ex :
  bar_text 33 20 = "[######--------------] 33%"
  /\ bar_text 100 10 = "[##########] 100%"
  /\ bar_text 50 (-3) = "[] 50%".
Proof. repeat split. Qed.

(** ** Vocabulary of the further properties *)

(** [p] holds of the [n] integers from [lo] on. *)
Fixpoint forall_from (n : nat) (lo : Z) (p : Z -> bool) : bool :=
  match n with
  | O => true
  | S n' => p lo && forall_from n' (lo + 1) p
  end.

(** ["%04d" % y] is four digits that read [y]. *)
Definition year_fmt_ok (y : Z) : bool :=
  match PyStr.fmt_0d 4 y with
  | String a (String b (String c (String e EmptyString))) =>
      char_in 48 57 a && char_in 48 57 b && char_in 48 57 c && char_in 48 57 e
      && (1000 * PyStr.digit_value a + 100 * PyStr.digit_value b
          + 10 * PyStr.digit_value c + PyStr.digit_value e =? y)
  | _ => false
  end.

(** ["%02d-%02d" % (m, d)] is read back as month [m] and day [d],
    with nothing left. *)
Definition month_day_fmt_ok (m d : Z) : bool :=
  match month_dash_day
          (month_matches (PyStr.fmt_0d 2 m ++ "-" ++ PyStr.fmt_0d 2 d)) with
  | Some (m', d', EmptyString) => (m' =? m) && (d' =? d)
  | _ => false
  end.

(** The colour [draw_dashboard] gives a date, by day numbers. *)
Definition urgency (today d : date) : attr :=
  if toordinal d <? toordinal today then color_pair 1
  else if toordinal d =? toordinal today then color_pair 2
  else color_pair 3.

(** The colour of a row that is not done, from what [strptime]
    makes of its due date. *)
Definition due_colour (today : date) (due_str : string) : attr :=
  match strptime_ymd due_str with
  | Returns d => urgency today d
  | Raises => A_NORMAL
  end.

(** The rows other than those of identity [t]. *)
Definition without (t : Z) (rows : list todo) : list todo :=
  filter (fun r => negb (id r =? t)) rows.

(** Every flag of the table is 0 or 1. *)
Definition flags01 (db : table) : Prop :=
  forall r, In r db ->
            (done r = 0 \/ done r = 1) /\ (deleted r = 0 \/ deleted r = 1).

(** What a row keeps for ever. *)
Definition core (r : todo) : Z * string * string * string :=
  (id r, title r, category r, due r).

(** [r'] is [r] later on: the same core, each flag as it was or 1. *)
Definition row_evolves (r r' : todo) : Prop :=
  core r' = core r
  /\ (done r' = done r \/ done r' = 1)
  /\ (deleted r' = deleted r \/ deleted r' = 1).

(** [db'] is [db] later on: its rows in place, each evolved, and new
    rows after them. *)
Definition table_evolves (db db' : table) : Prop :=
  exists old added, db' = (old ++ added)%list /\ Forall2 row_evolves db old.

(** Identities grow with the order of insertion. *)
Definition ids_increasing (db : table) : Prop :=
  StronglySorted Z.lt (ids db).

(** The percentage is within one of the exact floor, and is 100
    exactly when everything is done. *)
Definition progress_ok (total dn : Z) : bool :=
  let p := progress_of total dn in
  let e := 100 * dn / total in
  (e - 1 <=? p) && (p <=? e) && (0 <=? p) && (p <=? 100)
  && Bool.eqb (p =? 100) (dn =? total).

(** The filled part of the bar is within the bar and within one
    cell of the exact proportion; all of it at 100. *)
Definition bar_ok (width percent : Z) : bool :=
  let f := bar_filled percent width in
  if width <? 0 then (f <=? 0) && (width <=? f)
  else
    let e := percent * width / 100 in
    (0 <=? f) && (f <=? width) && (e - 1 <=? f) && (f <=? e)
    && (negb (percent =? 100) || (f =? width)).

(** Task B of [db_ex], and a completed view reached with a filter
    on. *)
Definition task_B : todo := mktodo 2 "B" "home" "2025-01-11" 0 0.

(** A task whose title is "a", NUL, "b". *)
Definition task_nul : todo :=
  mktodo 1 (String "a" (String Ascii.zero "b")) "" "" 0 0.

(** Equality of rows is decidable: rows can be counted. *)
Definition todo_eq_dec (a b : todo) : {a = b} + {a <> b}.
Proof. decide equality; auto using Z.eq_dec, string_dec. Defined.

Definition st_completed_ex : state := mkstate completed 1 (where_category "home")
                                              "Filtered by #home" db_ex.

(** * Properties *)

(** ** [ORDER BY id DESC] *)

Lemma insert_desc_perm (r : todo) (rows : list todo) :
  Permutation (insert_desc r rows) (r :: rows).
Proof.
  induction rows as [|a rows IH]; simpl.
  - reflexivity.
  - destruct (id a <=? id r).
    + reflexivity.
    + rewrite IH. apply perm_swap.
Qed.

Lemma order_by_id_desc_perm (rows : list todo) :
  Permutation (order_by_id_desc rows) rows.
Proof.
  induction rows as [|a rows IH]; simpl.
  - reflexivity.
  - rewrite insert_desc_perm. now apply perm_skip.
Qed.

Lemma insert_desc_sorted (r : todo) (rows : list todo) :
  StronglySorted id_desc rows -> StronglySorted id_desc (insert_desc r rows).
Proof.
  induction 1 as [|a rows Hs IH Ha]; simpl.
  - repeat constructor.
  - destruct (id a <=? id r) eqn:E.
    + apply Z.leb_le in E. constructor.
      * now constructor.
      * constructor; [exact E|].
        rewrite Forall_forall in Ha |- *. intros b Hb.
        specialize (Ha b Hb). unfold id_desc in *. lia.
    + apply Z.leb_gt in E. constructor; [exact IH|].
      rewrite Forall_forall in Ha |- *. intros b Hb.
      apply (Permutation_in _ (insert_desc_perm r rows)) in Hb.
      destruct Hb as [<-|Hb]; [unfold id_desc; lia | now apply Ha].
Qed.

Lemma order_by_id_desc_sorted (rows : list todo) :
  StronglySorted id_desc (order_by_id_desc rows).
Proof.
  induction rows as [|a rows IH]; simpl.
  - constructor.
  - now apply insert_desc_sorted.
Qed.

Lemma sorted_nodup_strict (rows : list todo) :
  StronglySorted id_desc rows -> NoDup (ids rows) ->
  StronglySorted id_strict_desc rows.
Proof.
  induction 1 as [|a rows Hs IH Ha]; simpl; intros Hn.
  - constructor.
  - inversion Hn as [|x xs Hnotin Hn']; subst.
    constructor; [now apply IH|].
    rewrite Forall_forall in Ha |- *. intros b Hb.
    specialize (Ha b Hb). unfold id_desc, id_strict_desc in *.
    assert (id b <> id a).
    { intros Heq. apply Hnotin. rewrite <- Heq. now apply in_map. }
    lia.
Qed.

Lemma nodup_ids_filter (p : todo -> bool) (rows : list todo) :
  NoDup (ids rows) -> NoDup (ids (filter p rows)).
Proof.
  induction rows as [|a rows IH]; simpl; intros Hn.
  - constructor.
  - inversion Hn as [|x xs Hnotin Hn']; subst.
    destruct (p a); simpl; [|now apply IH].
    constructor; [|now apply IH].
    intros Hin. apply Hnotin. unfold ids in *.
    apply in_map_iff in Hin. destruct Hin as (b & Hb & Hin).
    apply filter_In in Hin. apply in_map_iff. exists b. tauto.
Qed.

Lemma sql_select_perm (p : todo -> bool) (db : table) :
  Permutation (sql_select p db) (filter p db).
Proof. apply order_by_id_desc_perm. Qed.

Lemma sql_select_In (p : todo -> bool) (db : table) (r : todo) :
  In r (sql_select p db) <-> In r db /\ p r = true.
Proof.
  rewrite <- filter_In. split; apply Permutation_in.
  - apply sql_select_perm.
  - symmetry. apply sql_select_perm.
Qed.

Lemma sql_select_sorted (p : todo -> bool) (db : table) :
  StronglySorted id_desc (sql_select p db).
Proof. apply order_by_id_desc_sorted. Qed.

Lemma sql_select_strict (p : todo -> bool) (db : table) :
  primary_key db -> StronglySorted id_strict_desc (sql_select p db).
Proof.
  intros Hpk. apply sorted_nodup_strict; [apply sql_select_sorted|].
  apply (Permutation_NoDup (l := ids (filter p db))).
  - unfold ids. apply Permutation_map. symmetry. apply sql_select_perm.
  - now apply nodup_ids_filter.
Qed.

(** ** [LIKE] *)

Lemma patternCompare_percent (p s : string) :
  patternCompare (String "%" p) s
  = patternCompare p s
    || match s with
       | EmptyString => false
       | String _ s' => patternCompare (String "%" p) s'
       end.
Proof. destruct s; reflexivity. Qed.

Lemma patternCompare_percent_iff (p s : string) :
  patternCompare (String "%" p) s = true
  <-> exists pre post, s = pre ++ post /\ patternCompare p post = true.
Proof.
  induction s as [|a s IH]; rewrite patternCompare_percent, orb_true_iff.
  - split.
    + intros [H|H]; [|discriminate]. now exists "", "".
    + intros (pre & post & E & H). left.
      destruct pre; [|discriminate]. simpl in E. now subst.
  - rewrite IH. split.
    + intros [H|(pre & post & E & H)].
      * now exists "", (String a s).
      * exists (String a pre), post. simpl. now rewrite E.
    + intros (pre & post & E & H). destruct pre as [|b pre]; simpl in E.
      * left. now subst.
      * right. injection E as -> ->. now exists pre, post.
Qed.

Lemma patternCompare_only_percent (s : string) : patternCompare "%" s = true.
Proof.
  induction s as [|a s IH]; rewrite patternCompare_percent; [reflexivity|].
  rewrite IH. apply orb_true_r.
Qed.

Lemma patternCompare_prefix_iff (q s : string) :
  no_wildcard q = true ->
  (patternCompare (q ++ "%") s = true
   <-> exists m post, s = m ++ post /\ like_fold_str m = like_fold_str q).
Proof.
  revert s. induction q as [|c q IH]; intros s Hq.
  - simpl. split.
    + intros _. now exists "", s.
    + intros _. apply patternCompare_only_percent.
  - unfold no_wildcard in Hq. simpl in Hq.
    apply andb_true_iff in Hq. destruct Hq as [Hc Hq].
    apply negb_true_iff, orb_false_iff in Hc. destruct Hc as [Hc1 Hc2].
    simpl. rewrite Hc1, Hc2. destruct s as [|d s].
    + split; [discriminate|].
      intros (m & post & E & H). destruct m; simpl in *; discriminate.
    + simpl. rewrite andb_true_iff, (IH s Hq). unfold like_char.
      rewrite Ascii.eqb_eq. split.
      * intros [Hcd (m & post & E & H)]. exists (String d m), post.
        simpl. now rewrite E, H, Hcd.
      * intros (m & post & E & H). destruct m as [|d' m]; simpl in *;
          [discriminate|].
        injection E as -> ->. injection H as H1 H2. split; [now symmetry|].
        now exists m, post.
Qed.

Lemma patternCompare_contains (q t : string) :
  no_wildcard q = true ->
  (patternCompare ("%" ++ q ++ "%") t = true <-> contains_nocase t q).
Proof.
  intros Hq. change ("%" ++ q ++ "%") with (String "%" (q ++ "%")).
  rewrite patternCompare_percent_iff. unfold contains_nocase. split.
  - intros (pre & post & E & H). apply (patternCompare_prefix_iff q post Hq) in H.
    destruct H as (m & post' & -> & H). now exists pre, m, post'.
  - intros (pre & m & post & E & H). exists pre, (m ++ post). split; [exact E|].
    apply (patternCompare_prefix_iff q _ Hq). now exists m, post.
Qed.

Lemma c_str_no_nul (q : string) : no_nul q = true -> c_str q = q.
Proof.
  unfold no_nul. induction q as [|c q IH]; [reflexivity|]. cbn [PyStr.all_chars c_str].
  rewrite andb_true_iff, negb_true_iff. intros [-> H]. now rewrite IH.
Qed.

Lemma no_nul_app (a b : string) :
  no_nul (a ++ b) = no_nul a && no_nul b.
Proof.
  unfold no_nul. induction a as [|c a IH]; [reflexivity|].
  cbn [append PyStr.all_chars]. now rewrite IH, andb_assoc.
Qed.

Lemma c_str_search_pattern (q : string) :
  no_nul q = true -> c_str ("%" ++ q ++ "%") = "%" ++ q ++ "%".
Proof.
  intros H. apply c_str_no_nul. change ("%" ++ q ++ "%") with ("%" ++ (q ++ "%")).
  rewrite !no_nul_app, H. reflexivity.
Qed.

(** [patternCompare] decides the relation of the documentation. *)
Lemma patternCompare_like_match (p s : string) :
  patternCompare p s = true <-> like_match p s.
Proof.
  revert s. induction p as [|c p IH]; intros s.
  - destruct s; cbn; split; intros H; try discriminate;
      [constructor|reflexivity|inversion H].
  - destruct (Ascii.eqb c "%") eqn:Ec.
    + apply Ascii.eqb_eq in Ec. subst c. rewrite patternCompare_percent_iff. split.
      * intros (pre & post & -> & H). constructor. now apply IH.
      * intros H. inversion H; subst.
        -- exists pre, post. split; [reflexivity|]. now apply IH.
        -- congruence.
    + assert (Hc : c <> "%"%char) by (intros ->; discriminate).
      cbn [patternCompare]. rewrite Ec. destruct s as [|d s].
      * split; [discriminate|]. intros H. inversion H; subst. congruence.
      * rewrite andb_true_iff, orb_true_iff, IH. unfold like_char.
        rewrite !Ascii.eqb_eq. split.
        -- intros [[->|Hl] Hm]; [now constructor|].
           destruct (Ascii.eqb c "_") eqn:Eu.
           ++ apply Ascii.eqb_eq in Eu. subst c. now constructor.
           ++ constructor; auto. intros ->. discriminate.
        -- intros H. inversion H; subst; [congruence|auto|auto].
Qed.

Lemma sql_like_match (p s : string) :
  sql_like p s = true <-> like_match (c_str p) (c_str s).
Proof. apply patternCompare_like_match. Qed.

Lemma sql_like_contains (q t : string) :
  no_wildcard q = true -> no_nul q = true ->
  (sql_like ("%" ++ q ++ "%") t = true <-> contains_nocase (c_str t) q).
Proof.
  intros Hw Hn. unfold sql_like. rewrite (c_str_search_pattern q Hn).
  now apply patternCompare_contains.
Qed.


(** ** The two listings *)

Lemma active_cond (w : clause) (r : todo) :
  (deleted r =? 0) && (done r =? 0) && where_holds w r = true
  <-> deleted r = 0 /\ done r = 0 /\ where_holds w r = true.
Proof. rewrite !andb_true_iff, !Z.eqb_eq. tauto. Qed.

Lemma completed_cond (r : todo) :
  (deleted r =? 0) && (done r =? 1) = true <-> deleted r = 0 /\ done r = 1.
Proof. rewrite !andb_true_iff, !Z.eqb_eq. tauto. Qed.

Lemma count_occ_filter (p : todo -> bool) (l : list todo) (r : todo) :
  count_occ todo_eq_dec (filter p l) r
  = if p r then count_occ todo_eq_dec l r else 0%nat.
Proof.
  induction l as [|a l IH]; cbn [filter count_occ]; [now destruct (p r)|].
  destruct (p a) eqn:Ea; cbn [count_occ]; destruct (todo_eq_dec a r) as [E|Hne];
    rewrite IH; try reflexivity; subst a; now rewrite Ea.
Qed.

Lemma sql_select_count_occ (p : todo -> bool) (db : table) (r : todo) :
  In r (sql_select p db) ->
  count_occ todo_eq_dec (sql_select p db) r = count_occ todo_eq_dec db r.
Proof.
  intros Hin. apply sql_select_In in Hin. destruct Hin as [_ Hp].
  rewrite (proj1 (Permutation_count_occ todo_eq_dec _ _) (sql_select_perm p db)).
  now rewrite count_occ_filter, Hp.
Qed.

(** C1 as stated fails for the search predicate: the search for "%"
    lists the tasks "B" and "A", neither of which contains a "%";
    and the search for "b" does not list a task whose title is "a",
    NUL, "b", which contains a "b". *)
Lemma title_predicate_is_not_containment :
  (exists r, In r (draw_dashboard db_ex (where_title_like ("%" ++ "%" ++ "%")))
             /\ ~ (exists pre post, title r = pre ++ "%" ++ post))
  /\ (exists r, In r [task_nul] /\ deleted r = 0 /\ done r = 0
                /\ (exists pre post, title r = pre ++ "b" ++ post)
                /\ ~ In r (draw_dashboard [task_nul]
                                          (where_title_like ("%" ++ "b" ++ "%")))).
Proof.
  split.
  - exists task_B. split; [left; reflexivity|].
    cbn. intros (pre & post & E).
    do 2 (destruct pre as [|? pre]; cbn in E; try discriminate).
  - exists task_nul. split; [now left|]. split; [reflexivity|]. split; [reflexivity|].
    split.
    + exists (String "a" (String Ascii.zero "")), "". reflexivity.
    + cbn. tauto.
Qed.

(** C1, amended. Whatever the table holds, the rows
    [draw_dashboard] fetches are exactly the rows with [deleted = 0]
    and [done = 0] that satisfy the clause: all of them without
    clause; those whose category is the tag, character for
    character, under [category=?]; and under [title LIKE ?] those
    whose title matches the pattern in the sense of [LIKE], title and
    pattern read up to their first NUL -- for the pattern [%q%] of a
    search, [q] free of [%], [_] and NUL, those whose title contains
    [q] up to the case of the letters A..Z.  Each row comes as often
    as the table holds it, by descending [id].  The rows
    [draw_completed] fetches are exactly the rows with [deleted = 0]
    and [done = 1], by descending [id].  Under the primary key the
    order is strict. *)
Theorem listings_exact_and_descending (db : table) :
  (forall r, In r (draw_dashboard db where_none)
             <-> In r db /\ deleted r = 0 /\ done r = 0)
  /\ (forall cat r, In r (draw_dashboard db (where_category cat))
                    <-> In r db /\ deleted r = 0 /\ done r = 0
                        /\ category r = cat)
  /\ (forall pat r, like_pattern_ok pat ->
        (In r (draw_dashboard db (where_title_like pat))
         <-> In r db /\ deleted r = 0 /\ done r = 0
             /\ like_match (c_str pat) (c_str (title r))))
  /\ (forall q r, like_pattern_ok ("%" ++ q ++ "%") ->
        no_wildcard q = true -> no_nul q = true ->
        (In r (draw_dashboard db (where_title_like ("%" ++ q ++ "%")))
         <-> In r db /\ deleted r = 0 /\ done r = 0
             /\ contains_nocase (c_str (title r)) q))
  /\ (forall w r, In r (draw_dashboard db w) ->
        count_occ todo_eq_dec (draw_dashboard db w) r = count_occ todo_eq_dec db r)
  /\ (forall w, StronglySorted id_desc (draw_dashboard db w))
  /\ (forall r, In r (draw_completed db)
                <-> In r db /\ deleted r = 0 /\ done r = 1)
  /\ (forall r, In r (draw_completed db) ->
        count_occ todo_eq_dec (draw_completed db) r = count_occ todo_eq_dec db r)
  /\ StronglySorted id_desc (draw_completed db)
  /\ (primary_key db ->
      (forall w, StronglySorted id_strict_desc (draw_dashboard db w))
      /\ StronglySorted id_strict_desc (draw_completed db)).
Proof.
  unfold draw_dashboard, draw_completed.
  split; [|split; [|split; [|split; [|split; [|split; [|split; [|split; [|split]]]]]]]].
  - intros r. rewrite sql_select_In, active_cond. cbn [where_holds]. tauto.
  - intros cat r. rewrite sql_select_In, active_cond. cbn [where_holds].
    rewrite String.eqb_eq. tauto.
  - intros pat r _. rewrite sql_select_In, active_cond. cbn [where_holds].
    rewrite sql_like_match. tauto.
  - intros q r _ Hw Hn. rewrite sql_select_In, active_cond. cbn [where_holds].
    rewrite (sql_like_contains q (title r) Hw Hn). tauto.
  - intros w r. apply sql_select_count_occ.
  - intros w. apply sql_select_sorted.
  - intros r. rewrite sql_select_In, completed_cond. tauto.
  - intros r. apply sql_select_count_occ.
  - apply sql_select_sorted.
  - intros Hpk. split; [intros w|]; now apply sql_select_strict.
Qed.

(** ** [UPDATE ... WHERE id=?] *)

Lemma sql_update_idem (set : todo -> todo) (t : Z) (db : table) :
  (forall r, id (set r) = id r) -> (forall r, set (set r) = set r) ->
  sql_update set t (sql_update set t db) = sql_update set t db.
Proof.
  intros Hid Hset. unfold sql_update. rewrite map_map.
  apply map_ext. intros r.
  destruct (id r =? t) eqn:E.
  - rewrite Hid, E. apply Hset.
  - now rewrite E.
Qed.

Lemma sql_update_fixed (set : todo -> todo) (t : Z) (db : table) :
  (forall r, In r db -> id r = t -> set r = r) -> sql_update set t db = db.
Proof.
  intros H. unfold sql_update. rewrite <- (map_id db) at 2.
  apply map_ext_in. intros r Hr.
  destruct (id r =? t) eqn:E; [|reflexivity].
  apply Z.eqb_eq in E. now apply H.
Qed.

Lemma sql_update_absent (set : todo -> todo) (t : Z) (db : table) :
  ~ In t (ids db) -> sql_update set t db = db.
Proof.
  intros H. apply sql_update_fixed. intros r Hr E.
  exfalso. apply H. rewrite <- E. now apply in_map.
Qed.

Lemma sql_update_ids (set : todo -> todo) (t : Z) (db : table) :
  (forall r, id (set r) = id r) -> ids (sql_update set t db) = ids db.
Proof.
  intros Hid. unfold ids, sql_update. rewrite map_map.
  apply map_ext. intros r. now destruct (id r =? t).
Qed.

Lemma sql_update_In (set : todo -> todo) (t : Z) (db : table) (r : todo) :
  In r (sql_update set t db)
  <-> exists r0, In r0 db /\ r = if id r0 =? t then set r0 else r0.
Proof.
  unfold sql_update. rewrite in_map_iff.
  split; intros (r0 & H1 & H2); exists r0; auto.
Qed.

(** A row the update touches is outside [p] before and after: the
    rows [p] keeps are the same. *)
Lemma filter_sql_update (p : todo -> bool) (set : todo -> todo) (t : Z) (db : table) :
  (forall r, In r db -> id r = t -> p r = false /\ p (set r) = false) ->
  filter p (sql_update set t db) = filter p db.
Proof.
  induction db as [|a db IH]; simpl; intros H; [reflexivity|].
  rewrite IH by (intros r Hr; apply H; now right).
  destruct (id a =? t) eqn:E; [|reflexivity].
  apply Z.eqb_eq in E. destruct (H a (or_introl eq_refl) E) as [-> ->].
  reflexivity.
Qed.

Lemma set_done_id (r : todo) : id (set_done r) = id r.
Proof. reflexivity. Qed.

Lemma set_deleted_id (r : todo) : id (set_deleted r) = id r.
Proof. reflexivity. Qed.

Lemma set_done_fixed (r : todo) : done r = 1 -> set_done r = r.
Proof. destruct r; simpl; intros ->; reflexivity. Qed.

Lemma set_deleted_fixed (r : todo) : deleted r = 1 -> set_deleted r = r.
Proof. destruct r; simpl; intros ->; reflexivity. Qed.

(** *** Binding the identity *)

Lemma mark_done_returns (db : table) (t : Z) :
  sqlite_int64 t = true -> mark_done db t = Returns (sql_update set_done t db).
Proof. intros H. unfold mark_done, bind_int. now rewrite H. Qed.

Lemma delete_todo_returns (db : table) (t : Z) :
  sqlite_int64 t = true -> delete_todo db t = Returns (sql_update set_deleted t db).
Proof. intros H. unfold delete_todo, bind_int. now rewrite H. Qed.

Lemma mark_done_inv (db db' : table) (t : Z) :
  mark_done db t = Returns db' ->
  sqlite_int64 t = true /\ db' = sql_update set_done t db.
Proof.
  unfold mark_done, bind_int. destruct (sqlite_int64 t); [|discriminate].
  cbn [bind]. now intros [= <-].
Qed.

Lemma delete_todo_inv (db db' : table) (t : Z) :
  delete_todo db t = Returns db' ->
  sqlite_int64 t = true /\ db' = sql_update set_deleted t db.
Proof.
  unfold delete_todo, bind_int. destruct (sqlite_int64 t); [|discriminate].
  cbn [bind]. now intros [= <-].
Qed.

(** C5 as stated fails: 2^63 is the identity of no row of the table,
    and [mark_done] and [delete_todo] called with it raise
    [OverflowError] instead of leaving the table as it is. *)
Lemma identity_beyond_int64_raises :
  ~ In 9223372036854775808 (ids db_ex)
  /\ mark_done db_ex 9223372036854775808 = Raises
  /\ delete_todo db_ex 9223372036854775808 = Raises
  /\ (forall db out, mark_done db 9223372036854775808 <> Returns out)
  /\ (forall db out, delete_todo db 9223372036854775808 <> Returns out).
Proof.
  split; [|split; [reflexivity|split; [reflexivity|split]]].
  - cbn. intros [H|[H|[]]]; discriminate.
  - intros db out. discriminate.
  - intros db out. discriminate.
Qed.

(** C5, amended. With an identity [t] that is an INTEGER of SQLite
    (64 bits, signed), [mark_done] and [delete_todo] return in every
    case: they set [done] (resp. [deleted]) to 1 in the rows of
    identity [t] and touch nothing else; applied twice they give
    what one application gives; on an identity no row has, and on a
    row that is already done (deleted), they return the table as it
    was.  With any other integer they raise. *)
Theorem mark_done_delete_todo_idempotent (db : table) (t : Z) :
  (sqlite_int64 t = true ->
   exists db1 db2,
     mark_done db t = Returns db1
     /\ delete_todo db t = Returns db2
     /\ mark_done db1 t = Returns db1
     /\ delete_todo db2 t = Returns db2
     /\ db1 = map (fun r => if id r =? t
                            then mktodo (id r) (title r) (category r) (due r) 1
                                        (deleted r)
                            else r) db
     /\ db2 = map (fun r => if id r =? t
                            then mktodo (id r) (title r) (category r) (due r)
                                        (done r) 1
                            else r) db
     /\ (~ In t (ids db) -> db1 = db /\ db2 = db)
     /\ ((forall r, In r db -> id r = t -> done r = 1) -> db1 = db)
     /\ ((forall r, In r db -> id r = t -> deleted r = 1) -> db2 = db))
  /\ (sqlite_int64 t = false ->
      mark_done db t = Raises /\ delete_todo db t = Raises).
Proof.
  split.
  - intros Ht. exists (sql_update set_done t db), (sql_update set_deleted t db).
    rewrite !mark_done_returns, !delete_todo_returns by exact Ht.
    rewrite !sql_update_idem by reflexivity.
    split; [reflexivity|]. split; [reflexivity|]. split; [reflexivity|].
    split; [reflexivity|]. split; [reflexivity|]. split; [reflexivity|].
    split; [|split].
    + intros H. split; now apply sql_update_absent.
    + intros H. apply sql_update_fixed. intros r Hr E.
      apply set_done_fixed. now apply H.
    + intros H. apply sql_update_fixed. intros r Hr E.
      apply set_deleted_fixed. now apply H.
  - intros Ht. unfold mark_done, delete_todo, bind_int. now rewrite Ht.
Qed.

(** ** Rows out of every listing *)

Lemma mark_done_frame (p : todo -> bool) (t : Z) (db : table) :
  all_deleted t db ->
  (forall r, deleted r <> 0 -> p r = false) ->
  filter p (sql_update set_done t db) = filter p db.
Proof.
  intros Hdel Hp. apply filter_sql_update.
  intros r Hr E. split; apply Hp; [|simpl]; now apply Hdel.
Qed.

Lemma stats_total_hides (w : clause) (r : todo) :
  deleted r <> 0 -> (deleted r =? 0) && where_holds w r = false.
Proof. intros H. apply Z.eqb_neq in H. now rewrite H. Qed.

Lemma stats_done_hides (w : clause) (r : todo) :
  deleted r <> 0 -> (done r =? 1) && (deleted r =? 0) && where_holds w r = false.
Proof. intros H. apply Z.eqb_neq in H. rewrite H. now rewrite andb_false_r. Qed.

Lemma active_hides (w : clause) (r : todo) :
  deleted r <> 0 -> (deleted r =? 0) && (done r =? 0) && where_holds w r = false.
Proof. intros H. apply Z.eqb_neq in H. now rewrite H. Qed.

Lemma completed_hides (r : todo) :
  deleted r <> 0 -> (deleted r =? 0) && (done r =? 1) = false.
Proof. intros H. apply Z.eqb_neq in H. now rewrite H. Qed.

Lemma mark_done_deleted_frame (db : table) (t : Z) :
  all_deleted t db ->
  (forall w, draw_dashboard (sql_update set_done t db) w = draw_dashboard db w)
  /\ draw_completed (sql_update set_done t db) = draw_completed db
  /\ (forall w, get_stats (sql_update set_done t db) w = get_stats db w).
Proof.
  intros Hdel. unfold draw_dashboard, draw_completed, get_stats, sql_select, sql_count.
  split; [|split].
  - intros w. rewrite mark_done_frame; auto using active_hides.
  - rewrite mark_done_frame; auto using completed_hides.
  - intros w. rewrite !mark_done_frame; auto using stats_total_hides, stats_done_hides.
Qed.

Lemma primary_key_all_deleted (db : table) (r : todo) :
  primary_key db -> In r db -> deleted r <> 0 -> all_deleted (id r) db.
Proof.
  unfold primary_key, all_deleted, ids.
  induction db as [|a db IH]; simpl; intros Hn Hin Hd r' Hin' E; [contradiction|].
  inversion Hn as [|x xs Hnotin Hn']; subst.
  destruct Hin as [->|Hin], Hin' as [->|Hin'].
  - exact Hd.
  - exfalso. apply Hnotin. rewrite <- E. now apply in_map.
  - exfalso. apply Hnotin. rewrite E. now apply in_map.
  - now apply (IH Hn' Hin Hd r').
Qed.

(** C10. In a table of SQLite with its primary key, when the row of
    identity [t] has [deleted] set, [mark_done] on [t] returns and
    changes no result of [draw_dashboard] (whatever the clause), of
    [draw_completed] or of [get_stats]; the update itself rewrites
    only the [done] column of the rows of identity [t]. *)
Theorem mark_done_on_deleted_is_unobservable (db : table) (r : todo) :
  primary_key db -> rowids db -> In r db -> deleted r <> 0 ->
  exists db',
    mark_done db (id r) = Returns db'
    /\ (forall w, draw_dashboard db' w = draw_dashboard db w)
    /\ draw_completed db' = draw_completed db
    /\ (forall w, get_stats db' w = get_stats db w)
    /\ db' = map (fun r' => if id r' =? id r
                            then mktodo (id r') (title r') (category r') (due r') 1
                                        (deleted r')
                            else r') db.
Proof.
  intros Hpk Hrow Hin Hd.
  exists (sql_update set_done (id r) db).
  destruct (mark_done_deleted_frame db (id r)) as (H1 & H2 & H3).
  - now apply primary_key_all_deleted.
  - split; [apply mark_done_returns; now apply Hrow|]. repeat split; auto.
Qed.

(** ** Rowids *)

Lemma max_rowid_bound (db : table) (r : todo) :
  In r db -> exists m, max_rowid db = Some m /\ id r <= m.
Proof.
  induction db as [|a db IH]; simpl; [contradiction|].
  intros [->|Hin].
  - destruct (max_rowid db) as [m|]; eexists; split; eauto; lia.
  - destruct (IH Hin) as (m & -> & Hm). eexists; split; eauto; lia.
Qed.

Lemma max_rowid_In (db : table) (m : Z) :
  max_rowid db = Some m -> exists r, In r db /\ id r = m.
Proof.
  revert m. induction db as [|a db IH]; simpl; intros m; [discriminate|].
  destruct (max_rowid db) as [m'|].
  - intros [= <-]. destruct (Z.max_spec (id a) m') as [[_ ->]|[_ ->]].
    + destruct (IH m' eq_refl) as (r & Hr & E). exists r. auto.
    + exists a. auto.
  - intros [= <-]. exists a. auto.
Qed.

Lemma existsb_eqb_In (v : Z) (l : list Z) :
  existsb (Z.eqb v) l = true <-> In v l.
Proof.
  rewrite existsb_exists. split.
  - intros (x & Hx & E). apply Z.eqb_eq in E. now subst.
  - intros H. exists v. split; [exact H|apply Z.eqb_refl].
Qed.

(** What [new_rowid] returns is in use by no row, and is an INTEGER
    of SQLite when the ids of the table are. *)
Lemma new_rowid_fresh rnd (db : table) (n : Z) :
  new_rowid rnd db = Returns n -> ~ In n (ids db).
Proof.
  unfold new_rowid. destruct (max_rowid db) as [m|] eqn:Hm.
  - destruct (m <? MAX_ROWID) eqn:E.
    + intros [= <-]. unfold ids. rewrite in_map_iff. intros (r & Hr & Hin).
      destruct (max_rowid_bound db r Hin) as (m' & Hm' & Hle).
      rewrite Hm in Hm'. injection Hm' as <-. lia.
    + cbv zeta.
      destruct (existsb (Z.eqb (rnd db)) (ids db)) eqn:Ex;
        [rewrite andb_false_r; discriminate|].
      destruct ((1 <=? rnd db) && (rnd db <=? MAX_ROWID)); [|discriminate].
      intros [= <-]. intros Hin. apply existsb_eqb_In in Hin. congruence.
  - intros [= <-]. destruct db; [auto|].
    simpl in Hm. destruct (max_rowid db); discriminate.
Qed.

Lemma new_rowid_int64 rnd (db : table) (n : Z) :
  rowids db -> new_rowid rnd db = Returns n -> sqlite_int64 n = true.
Proof.
  intros Hrow. unfold new_rowid. destruct (max_rowid db) as [m|] eqn:Hm.
  - destruct (m <? MAX_ROWID) eqn:E.
    + intros [= <-]. destruct (max_rowid_In db m Hm) as (r & Hr & <-).
      specialize (Hrow r Hr). unfold sqlite_int64 in *.
      apply andb_true_iff in Hrow. destruct Hrow as [H1 H2].
      apply Z.leb_le in H1. apply Z.ltb_lt in E.
      apply andb_true_iff. split; apply Z.leb_le; lia.
    + cbv zeta.
      destruct ((1 <=? rnd db) && (rnd db <=? MAX_ROWID)) eqn:Er;
        [|discriminate].
      destruct (existsb (Z.eqb (rnd db)) (ids db)); [discriminate|].
      intros [= <-]. apply andb_true_iff in Er. destruct Er as [H1 H2].
      apply Z.leb_le in H1. unfold sqlite_int64. apply andb_true_iff.
      split; [apply Z.leb_le; unfold SMALLEST_INT64; lia|exact H2].
  - now intros [= <-].
Qed.

(** With room above the largest id, the new rowid is the next one. *)
Lemma new_rowid_next rnd (db : table) :
  ids_below MAX_ROWID db ->
  exists n, new_rowid rnd db = Returns n /\ ids_below n db
            /\ (forall b, ids_below b db -> 1 <= b -> n <= b).
Proof.
  intros Hb. unfold new_rowid. destruct (max_rowid db) as [m|] eqn:Hm.
  - destruct (max_rowid_In db m Hm) as (r & Hr & <-).
    pose proof (Hb (id r) (in_map id _ _ Hr)) as Hlt.
    apply Z.ltb_lt in Hlt. rewrite Hlt.
    eexists. split; [reflexivity|]. split.
    + intros i Hi. unfold ids in Hi. apply in_map_iff in Hi.
      destruct Hi as (a & <- & Ha).
      destruct (max_rowid_bound db a Ha) as (m' & Hm' & Hle).
      rewrite Hm in Hm'. injection Hm' as <-. lia.
    + intros b Hbb _. specialize (Hbb (id r) (in_map id _ _ Hr)). lia.
  - exists 1. split; [reflexivity|]. split.
    + intros i Hi. unfold ids in Hi. apply in_map_iff in Hi.
      destruct Hi as (a & <- & Ha).
      destruct (max_rowid_bound db a Ha) as (m' & Hm' & _).
      congruence.
    + intros b _ H1. exact H1.
Qed.

Lemma sql_insert_inv rnd (db db' : table) (ti c d : string) (dn : Z) :
  sql_insert rnd db ti c d dn = Returns db' ->
  exists n, new_rowid rnd db = Returns n
            /\ db' = (db ++ [mktodo n ti c d dn 0])%list.
Proof.
  unfold sql_insert. destruct (new_rowid rnd db) as [n|]; [|discriminate].
  cbn [bind]. intros [= <-]. now exists n.
Qed.

Lemma add_todo_inv parse rnd (today : date) (db db' : table) (ti c d : string) :
  add_todo parse rnd today db ti c d = Returns db' ->
  exists due_str n,
    parse_due_date parse today d = Returns due_str
    /\ new_rowid rnd db = Returns n
    /\ db' = (db ++ [mktodo n ti c due_str 0 0])%list.
Proof.
  unfold add_todo. destruct (parse_due_date parse today d) as [s|]; [|discriminate].
  cbn [bind]. intros H. apply sql_insert_inv in H. destruct H as (n & Hn & ->).
  now exists s, n.
Qed.

Lemma sql_update_rowids (set : todo -> todo) (t : Z) (db : table) :
  (forall r, id (set r) = id r) -> rowids db -> rowids (sql_update set t db).
Proof.
  intros Hid Hrow r Hr. apply sql_update_In in Hr. destruct Hr as (r0 & Hr0 & ->).
  destruct (id r0 =? t); [rewrite Hid|]; now apply Hrow.
Qed.

Lemma run_op_rowids parse rnd (op : store_op) (db db' : table) :
  rowids db -> run_op parse rnd op db = Returns db' -> rowids db'.
Proof.
  intros Hrow. destruct op as [today ti c d|tid|tid]; simpl; intros H.
  - apply add_todo_inv in H. destruct H as (s & n & _ & Hn & ->).
    intros r Hr. apply in_app_or in Hr. destruct Hr as [Hr|[<-|[]]];
      [now apply Hrow|]. cbn [id]. now apply (new_rowid_int64 rnd db).
  - apply mark_done_inv in H. destruct H as [_ ->]. now apply sql_update_rowids.
  - apply delete_todo_inv in H. destruct H as [_ ->]. now apply sql_update_rowids.
Qed.

(** ** Soft deletion is final *)

Lemma delete_todo_soft_deleted (db : table) (t : Z) :
  In t (ids db) -> soft_deleted t (sql_update set_deleted t db).
Proof.
  intros Hin. split.
  - now rewrite sql_update_ids.
  - intros r Hr E. apply sql_update_In in Hr. destruct Hr as (r0 & _ & ->).
    destruct (id r0 =? t) eqn:E0; [reflexivity|].
    apply Z.eqb_neq in E0. contradiction.
Qed.

Lemma sql_update_soft_deleted (set : todo -> todo) (t tid : Z) (db : table) :
  (forall r, id (set r) = id r) ->
  (forall r, deleted r = 1 -> deleted (set r) = 1) ->
  soft_deleted t db -> soft_deleted t (sql_update set tid db).
Proof.
  intros Hid Hdel [Hin Hall]. split.
  - now rewrite sql_update_ids.
  - intros r Hr E. apply sql_update_In in Hr. destruct Hr as (r0 & Hr0 & ->).
    destruct (id r0 =? tid).
    + rewrite Hid in E. apply Hdel. now apply Hall.
    + now apply Hall.
Qed.

Lemma run_op_soft_deleted parse rnd (op : store_op) (t : Z) (db db' : table) :
  soft_deleted t db -> run_op parse rnd op db = Returns db' -> soft_deleted t db'.
Proof.
  intros Hs. destruct op as [today ti c d|tid|tid]; simpl; intros H.
  - apply add_todo_inv in H. destruct H as (s & n & _ & Hn & ->).
    destruct Hs as [Hin Hall]. split.
    + unfold ids. rewrite map_app. apply in_or_app. now left.
    + intros r Hr E. apply in_app_or in Hr. destruct Hr as [Hr|[<-|[]]].
      * now apply Hall.
      * simpl in E. exfalso. apply (new_rowid_fresh rnd db n Hn). now rewrite E.
  - apply mark_done_inv in H. destruct H as [_ ->].
    now apply sql_update_soft_deleted.
  - apply delete_todo_inv in H. destruct H as [_ ->].
    now apply sql_update_soft_deleted.
Qed.

Lemma run_ops_soft_deleted parse rnd (ops : list store_op) (t : Z) (db db' : table) :
  soft_deleted t db -> run_ops parse rnd ops db = Returns db' -> soft_deleted t db'.
Proof.
  revert db. induction ops as [|op ops IH]; simpl; intros db Hs.
  - now intros [= <-].
  - destruct (run_op parse rnd op db) as [db1|] eqn:E; simpl; [|discriminate].
    apply IH. now apply (run_op_soft_deleted parse rnd op t db).
Qed.

Lemma filter_absorb (p q : todo -> bool) (db : table) :
  (forall r, In r db -> q r = false -> p r = false) ->
  filter p (filter q db) = filter p db.
Proof.
  induction db as [|a db IH]; simpl; intros H; [reflexivity|].
  rewrite <- IH by (intros r Hr; apply H; now right).
  destruct (q a) eqn:E; simpl; [reflexivity|].
  now rewrite (H a (or_introl eq_refl) E).
Qed.

Lemma soft_deleted_all_deleted (t : Z) (db : table) :
  soft_deleted t db -> all_deleted t db.
Proof. intros [_ H] r Hr E. rewrite (H r Hr E). discriminate. Qed.

Lemma all_deleted_not_selected (p : todo -> bool) (t : Z) (db : table) :
  all_deleted t db -> (forall r, deleted r <> 0 -> p r = false) ->
  ~ In t (ids (sql_select p db)).
Proof.
  intros Hall Hp Hin. unfold ids in Hin. apply in_map_iff in Hin.
  destruct Hin as (r & E & Hr). apply sql_select_In in Hr. destruct Hr as [Hr Hpr].
  rewrite Hp in Hpr; [discriminate|]. now apply (Hall r).
Qed.

Lemma all_deleted_not_counted (p : todo -> bool) (t : Z) (db : table) :
  all_deleted t db -> (forall r, deleted r <> 0 -> p r = false) ->
  sql_count p db = sql_count p (filter (fun r => negb (id r =? t)) db).
Proof.
  intros Hall Hp. unfold sql_count. rewrite filter_absorb; [reflexivity|].
  intros r Hr E. apply Hp. apply negb_false_iff, Z.eqb_eq in E. now apply (Hall r).
Qed.

(** C2. Let [t] be the identity of a row of a table of SQLite.
    [delete_todo] on [t] returns; after it, and after any further
    sequence of [add_todo], [mark_done] and [delete_todo] calls, no
    row of identity [t] is among the rows of [draw_dashboard]
    (whatever the clause) or of [draw_completed]; [get_stats] counts
    what it would count with the rows of identity [t] removed from
    the table; and the rows of identity [t] are still there with
    [deleted = 1]. *)
Theorem soft_deleted_never_resurfaces parse rnd (db : table) (t : Z) :
  rowids db -> In t (ids db) ->
  exists db1,
    delete_todo db t = Returns db1
    /\ forall (ops : list store_op) (db' : table),
         run_ops parse rnd ops db1 = Returns db' ->
         (forall w, ~ In t (ids (draw_dashboard db' w)))
         /\ ~ In t (ids (draw_completed db'))
         /\ (forall w, get_stats db' w
                       = get_stats (filter (fun r => negb (id r =? t)) db') w)
         /\ In t (ids db')
         /\ (forall r, In r db' -> id r = t -> deleted r = 1).
Proof.
  intros Hrow Hin. exists (sql_update set_deleted t db). split.
  - apply delete_todo_returns. unfold ids in Hin. apply in_map_iff in Hin.
    destruct Hin as (r & <- & Hr). now apply Hrow.
  - intros ops db' Hrun.
    assert (Hs : soft_deleted t db').
    { apply (run_ops_soft_deleted parse rnd ops t (sql_update set_deleted t db)); auto.
      now apply delete_todo_soft_deleted. }
    pose proof (soft_deleted_all_deleted t db' Hs) as Hall.
    destruct Hs as [Hin' Hdel].
    split; [|split; [|split; [|split]]]; auto.
    + intros w. apply all_deleted_not_selected; auto using active_hides.
    + apply all_deleted_not_selected; auto using completed_hides.
    + intros w. unfold get_stats.
      rewrite <- !all_deleted_not_counted; auto using stats_total_hides, stats_done_hides.
Qed.

(** ** The primary key *)

Lemma run_op_primary_key parse rnd (op : store_op) (db db' : table) :
  primary_key db -> run_op parse rnd op db = Returns db' -> primary_key db'.
Proof.
  intros Hpk. destruct op as [today ti c d|tid|tid]; simpl; intros H.
  - apply add_todo_inv in H. destruct H as (s & n & _ & Hn & ->).
    unfold primary_key, ids in *. rewrite map_app. simpl.
    apply (Permutation_NoDup (l := n :: map id db)).
    + apply Permutation_cons_append.
    + constructor; [exact (new_rowid_fresh rnd db n Hn)|exact Hpk].
  - apply mark_done_inv in H. destruct H as [_ ->].
    unfold primary_key. now rewrite sql_update_ids.
  - apply delete_todo_inv in H. destruct H as [_ ->].
    unfold primary_key. now rewrite sql_update_ids.
Qed.

Lemma run_ops_primary_key parse rnd (ops : list store_op) (db db' : table) :
  primary_key db -> run_ops parse rnd ops db = Returns db' -> primary_key db'.
Proof.
  revert db. induction ops as [|op ops IH]; simpl; intros db Hpk.
  - now intros [= <-].
  - destruct (run_op parse rnd op db) as [db1|] eqn:E; simpl; [|discriminate].
    apply IH. now apply (run_op_primary_key parse rnd op db).
Qed.

(** ** Two tasks, one done, one deleted *)

Example add_two_ex :
  run_ops no_parser no_rowid [op_add today_ex "A" "work" "today";
                              op_add today_ex "B" "home" "tomorrow"] []
  = Returns db_ex
  /\ ids (draw_dashboard db_ex where_none) = [2; 1]
  /\ get_stats db_ex where_none = (2, 0).
Proof. repeat split. Qed.

Example done_then_deleted_ex :
  exists db1 db2,
    mark_done db_ex 2 = Returns db1
    /\ ids (draw_dashboard db1 where_none) = [1]
    /\ ids (draw_completed db1) = [2]
    /\ get_stats db1 where_none = (2, 1)
    /\ delete_todo db1 1 = Returns db2
    /\ draw_dashboard db2 where_none = []
    /\ ids (draw_completed db2) = [2]
    /\ get_stats db2 where_none = (1, 1).
Proof. do 2 eexists. repeat split. Qed.

(** At the largest rowid the next one is drawn at random: here 7 is
    drawn, and 2 a second time, which is taken. *)
Example random_rowid_ex :
  let db := [mktodo 2 "B" "" "" 0 0; mktodo MAX_ROWID "Z" "" "" 0 0] in
  new_rowid (fun _ => 7) db = Returns 7
  /\ new_rowid (fun _ => 2) db = Raises
  /\ new_rowid no_rowid db = Raises
  /\ new_rowid no_rowid db_ex = Returns 3
  /\ new_rowid no_rowid [mktodo (-5) "" "" "" 0 0] = Returns (-4).
Proof. repeat split. Qed.

(** ** The cursor *)

Lemma truthy_len {A : Type} (l : list A) : truthy l = true <-> 0 < len l.
Proof. destruct l; unfold len; simpl; split; intros H; try easy; lia. Qed.

Lemma truthy_nil {A : Type} (l : list A) : truthy l = false <-> l = [].
Proof. destruct l; simpl; split; intros H; easy. Qed.

(** C6. In the dashboard view, with [N > 0] rows listed, KEY_UP and
    KEY_DOWN replace the cursor by [(cursor - 1) mod N] and
    [(cursor + 1) mod N] and change nothing else: from 0, up gives
    [N - 1]; from [N - 1], down gives 0.  With no row listed, both
    keys leave the whole state as it was. *)
Theorem move_cursor_wraps parse rnd (today : date) (st : state) :
  view st = dashboard ->
  let todos := draw_dashboard (con st) (where_clause st) in
  let N := len todos in
  (0 < N ->
     loop_body parse rnd today KEY_UP st
     = Returns (Some (mkstate dashboard ((cursor_idx st - 1) mod N)
                              (where_clause st) (subtitle st) (con st)))
     /\ loop_body parse rnd today KEY_DOWN st
        = Returns (Some (mkstate dashboard ((cursor_idx st + 1) mod N)
                                 (where_clause st) (subtitle st) (con st)))
     /\ (cursor_idx st = 0 -> (cursor_idx st - 1) mod N = N - 1)
     /\ (cursor_idx st = N - 1 -> (cursor_idx st + 1) mod N = 0))
  /\ (N = 0 ->
        loop_body parse rnd today KEY_UP st = Returns (Some st)
        /\ loop_body parse rnd today KEY_DOWN st = Returns (Some st)).
Proof.
  intros Hv todos N. unfold loop_body. rewrite Hv. fold todos. split.
  - intros HN. apply truthy_len in HN as Ht. rewrite Ht. fold N.
    repeat split.
    + intros ->. replace (0 - 1) with (-1 * N + (N - 1)) by lia.
      rewrite Z.add_comm, Z.mod_add by lia. apply Z.mod_small. lia.
    + intros ->. replace (N - 1 + 1) with N by lia. apply Z.mod_same. lia.
  - intros HN. assert (Ht : truthy todos = false).
    { apply truthy_nil. destruct todos; [reflexivity|]. unfold N, len in HN.
      simpl in HN. lia. }
    rewrite Ht. split; reflexivity.
Qed.

Lemma cursor_zero_in_bounds (st : state) :
  cursor_idx st = 0 -> cursor_in_bounds st.
Proof.
  intros H. split; [easy|]. intros Hne. rewrite H.
  destruct (draw_dashboard (con st) (where_clause st)); [easy|].
  unfold len. simpl. lia.
Qed.

Lemma cursor_mod_in_bounds (v : view_name) (c : Z) (w : clause) (s : string)
  (db : table) :
  truthy (draw_dashboard db w) = true ->
  cursor_in_bounds (mkstate v (c mod len (draw_dashboard db w)) w s db).
Proof.
  intros Ht. apply truthy_len in Ht. unfold cursor_in_bounds. simpl. split.
  - intros E. rewrite E in Ht. unfold len in Ht. simpl in Ht. lia.
  - intros _. apply Z.mod_pos_bound. exact Ht.
Qed.

Lemma py_index_in_bounds {A : Type} (l : list A) (i : Z) :
  0 <= i < len l -> exists a, py_index l i = Returns a /\ In a l.
Proof.
  intros H. unfold py_index. fold (len l).
  replace (i <? 0) with false by (symmetry; apply Z.ltb_ge; lia).
  replace ((0 <=? i) && (i <? len l)) with true
    by (symmetry; apply andb_true_iff; split; [apply Z.leb_le|apply Z.ltb_lt]; lia).
  destruct (nth_error l (Z.to_nat i)) as [a|] eqn:E.
  - exists a. split; [reflexivity|]. now apply nth_error_In in E.
  - apply nth_error_None in E. unfold len in H. lia.
Qed.

Lemma loop_body_cursor_ok parse rnd (today : date) (ch : key) (st st' : state) :
  cursor_ok st -> loop_body parse rnd today ch st = Returns (Some st') ->
  cursor_ok st'.
Proof.
  intros Hok. unfold loop_body.
  destruct (view st) eqn:Hv.
  - set (todos := draw_dashboard (con st) (where_clause st)).
    destruct ch; try (intros [= <-]; exact Hok); try discriminate.
    + destruct (truthy todos) eqn:Ht; intros [= <-]; [|exact Hok].
      intros _. now apply cursor_mod_in_bounds.
    + destruct (truthy todos) eqn:Ht; intros [= <-]; [|exact Hok].
      intros _. now apply cursor_mod_in_bounds.
    + destruct (add_todo parse rnd today (con st) title0 category0 due0); simpl;
        [|discriminate].
      intros [= <-]. intros _. now apply cursor_zero_in_bounds.
    + destruct (truthy todos) eqn:Ht; [|intros [= <-]; exact Hok].
      destruct (py_index todos (cursor_idx st)); simpl; [|discriminate].
      destruct (mark_done _ _); simpl; [|discriminate].
      intros [= <-]. intros _. now apply cursor_zero_in_bounds.
    + destruct (truthy todos) eqn:Ht; [|intros [= <-]; exact Hok].
      destruct (py_index todos (cursor_idx st)); simpl; [|discriminate].
      destruct (delete_todo _ _); simpl; [|discriminate].
      intros [= <-]. intros _. now apply cursor_zero_in_bounds.
    + intros [= <-]. intros Hc. discriminate.
    + destruct (PyStr.nonempty cat); intros [= <-]; [|exact Hok].
      intros _. now apply cursor_zero_in_bounds.
    + destruct (PyStr.nonempty query); intros [= <-]; [|exact Hok].
      intros _. now apply cursor_zero_in_bounds.
    + intros [= <-]. intros _. now apply cursor_zero_in_bounds.
  - destruct ch; try (intros [= <-]; exact Hok); try discriminate.
    intros [= <-]. intros _. now apply cursor_zero_in_bounds.
Qed.

Lemma main_cursor_ok parse rnd (keys : list (date * key)) (st st' : state) :
  cursor_ok st -> main parse rnd keys st = Returns (Some st') -> cursor_ok st'.
Proof.
  revert st. induction keys as [|[today ch] keys IH]; simpl; intros st Hok.
  - now intros [= <-].
  - destruct (loop_body parse rnd today ch st) as [[st1|]|] eqn:E; try discriminate.
    apply IH. now apply (loop_body_cursor_ok parse rnd today ch st).
Qed.

(** The ids stay INTEGERs of SQLite. *)
Lemma loop_body_rowids parse rnd (today : date) (ch : key) (st st' : state) :
  rowids (con st) -> loop_body parse rnd today ch st = Returns (Some st') ->
  rowids (con st').
Proof.
  intros Hrow. unfold loop_body. destruct (view st).
  - set (todos := draw_dashboard (con st) (where_clause st)).
    destruct ch; try (intros [= <-]; exact Hrow); try discriminate.
    + destruct (truthy todos); intros [= <-]; exact Hrow.
    + destruct (truthy todos); intros [= <-]; exact Hrow.
    + destruct (add_todo parse rnd today (con st) title0 category0 due0) eqn:E;
        simpl; [|discriminate].
      intros [= <-]. cbn [con].
      exact (run_op_rowids parse rnd (op_add today title0 category0 due0) _ _ Hrow E).
    + destruct (truthy todos); [|intros [= <-]; exact Hrow].
      destruct (py_index todos (cursor_idx st)) as [r|]; simpl; [|discriminate].
      destruct (mark_done (con st) (id r)) eqn:E; simpl; [|discriminate].
      intros [= <-]. cbn [con].
      exact (run_op_rowids parse rnd (op_mark_done (id r)) _ _ Hrow E).
    + destruct (truthy todos); [|intros [= <-]; exact Hrow].
      destruct (py_index todos (cursor_idx st)) as [r|]; simpl; [|discriminate].
      destruct (delete_todo (con st) (id r)) eqn:E; simpl; [|discriminate].
      intros [= <-]. cbn [con].
      exact (run_op_rowids parse rnd (op_delete (id r)) _ _ Hrow E).
    + destruct (PyStr.nonempty cat); intros [= <-]; exact Hrow.
    + destruct (PyStr.nonempty query); intros [= <-]; exact Hrow.
  - destruct ch; try (intros [= <-]; exact Hrow); discriminate.
Qed.

Lemma main_rowids parse rnd (keys : list (date * key)) (st st' : state) :
  rowids (con st) -> main parse rnd keys st = Returns (Some st') -> rowids (con st').
Proof.
  revert st. induction keys as [|[today ch] keys IH]; simpl; intros st Hrow.
  - now intros [= <-].
  - destruct (loop_body parse rnd today ch st) as [[st1|]|] eqn:E; try discriminate.
    apply IH. now apply (loop_body_rowids parse rnd today ch st).
Qed.

Lemma listed_In (db : table) (w : clause) (r : todo) :
  In r (draw_dashboard db w) -> In r db.
Proof. unfold draw_dashboard. rewrite sql_select_In. tauto. Qed.

(** C9. Start [main] on any table, feed it any keys; if the loop is
    still running in the dashboard view, the cursor is in bounds at
    the next rendering: 0 when no row is listed, else from 0 up to
    the number of rows listed less one.  So the row lookups of the
    [d] and [x] keys raise no [IndexError]; and on a table of SQLite
    (its ids are 64-bit integers) the two keys raise nothing. *)
Theorem cursor_always_in_bounds parse rnd (db : table) (keys : list (date * key))
  (st : state) :
  main parse rnd keys (initial db) = Returns (Some st) ->
  view st = dashboard ->
  let todos := draw_dashboard (con st) (where_clause st) in
  (todos = [] -> cursor_idx st = 0)
  /\ (todos <> [] -> 0 <= cursor_idx st < len todos)
  /\ (todos <> [] ->
      exists r, py_index todos (cursor_idx st) = Returns r /\ In r todos)
  /\ (rowids db ->
      (forall today, loop_body parse rnd today key_d st <> Raises)
      /\ (forall today, loop_body parse rnd today key_x st <> Raises)).
Proof.
  intros Hrun Hv todos.
  assert (Hok : cursor_ok st).
  { apply (main_cursor_ok parse rnd keys (initial db)); auto.
    intros _. now apply cursor_zero_in_bounds. }
  destruct (Hok Hv) as [H0 H1]. fold todos in H0, H1.
  split; [exact H0|]. split; [exact H1|].
  split; [intros Hne; apply py_index_in_bounds; now apply H1|].
  intros Hrow0.
  assert (Hrow : rowids (con st))
    by (apply (main_rowids parse rnd keys (initial db)); [exact Hrow0|exact Hrun]).
  split; intros today; unfold loop_body; rewrite Hv; fold todos;
    (destruct (truthy todos) eqn:Ht; [|discriminate]);
    (assert (Hne : todos <> []) by (intros E; rewrite E in Ht; discriminate));
    destruct (py_index_in_bounds todos (cursor_idx st) (H1 Hne)) as (a & -> & Ha);
    cbn [bind]; apply listed_In in Ha.
  - rewrite (mark_done_returns _ _ (Hrow a Ha)). discriminate.
  - rewrite (delete_todo_returns _ _ (Hrow a Ha)). discriminate.
Qed.

(** ** The search *)

(** C7 as stated fails: with the one task "abc", the search for "_"
    lists it, though "_" is no substring of "abc"; and with the one
    task "Buy Milk", the search for "milk" lists it, though "milk" is
    no substring of "Buy Milk". *)
Lemma search_is_not_substring_match :
  (exists st',
     loop_body no_parser no_rowid today_ex (key_slash "_")
               (initial [mktodo 1 "abc" "" "" 0 0]) = Returns (Some st')
     /\ exists r, In r (draw_dashboard (con st') (where_clause st'))
                  /\ ~ (exists pre post, title r = pre ++ "_" ++ post))
  /\ (exists st',
        loop_body no_parser no_rowid today_ex (key_slash "milk")
                  (initial [mktodo 1 "Buy Milk" "" "" 0 0]) = Returns (Some st')
        /\ exists r, In r (draw_dashboard (con st') (where_clause st'))
                     /\ ~ (exists pre post, title r = pre ++ "milk" ++ post)).
Proof.
  split; eexists; (split; [reflexivity|]); eexists; (split; [left; reflexivity|]);
    simpl; intros (pre & post & E).
  - do 4 (destruct pre as [|? pre]; simpl in E; try discriminate).
  - do 9 (destruct pre as [|? pre]; simpl in E; try discriminate).
Qed.

(** C7, amended. In the dashboard view the [/] key with an empty
    query leaves the whole state (clause, subtitle, cursor) as it
    was.  With a query [q] that is not empty it sets the clause to
    [title LIKE '%q%'], the subtitle to [Search results for 'q'] and
    the cursor to 0; the dashboard then lists exactly the rows with
    [deleted = 0] and [done = 0] whose title matches the pattern
    [%q%] in the sense of [LIKE]: a [%] of [q] stands for any run of
    characters, a [_] for any one character, any other character for
    itself up to the case of the letters A..Z, title and pattern
    being read up to their first NUL.  When [q] holds neither [%]
    nor [_] nor NUL, these are the rows whose title contains [q] up
    to the case of the letters A..Z.  (The pattern is within the
    50000 bytes that SQLite accepts.) *)
Theorem set_search_lists_like_matches parse rnd (today : date) (st : state)
  (q : string) :
  view st = dashboard ->
  loop_body parse rnd today (key_slash "") st = Returns (Some st)
  /\ (q <> "" ->
      let st' := mkstate dashboard 0 (where_title_like ("%" ++ q ++ "%"))
                         ("Search results for '" ++ q ++ "'") (con st) in
      loop_body parse rnd today (key_slash q) st = Returns (Some st')
      /\ (like_pattern_ok ("%" ++ q ++ "%") ->
          (forall r, In r (draw_dashboard (con st') (where_clause st'))
                     <-> In r (con st) /\ deleted r = 0 /\ done r = 0
                         /\ like_match (c_str ("%" ++ q ++ "%"))
                                       (c_str (title r)))
          /\ (no_wildcard q = true -> no_nul q = true ->
              forall r, In r (draw_dashboard (con st') (where_clause st'))
                        <-> In r (con st) /\ deleted r = 0 /\ done r = 0
                            /\ contains_nocase (c_str (title r)) q))).
Proof.
  intros Hv. split; [unfold loop_body; now rewrite Hv|].
  intros Hq st'.
  assert (Hlist : forall r,
             In r (draw_dashboard (con st') (where_clause st'))
             <-> In r (con st) /\ deleted r = 0 /\ done r = 0
                 /\ sql_like ("%" ++ q ++ "%") (title r) = true).
  { intros r. unfold draw_dashboard. rewrite sql_select_In, active_cond.
    reflexivity. }
  split; [|intros _; split].
  - unfold loop_body. rewrite Hv. destruct q as [|c q]; [contradiction|].
    reflexivity.
  - intros r. rewrite Hlist, sql_like_match. reflexivity.
  - intros Hnw Hnn r. rewrite Hlist, (sql_like_contains _ _ Hnw Hnn). reflexivity.
Qed.

(** ** The due-date shortcuts *)

Lemma endswith_last (a : string) (c d : ascii) :
  PyStr.endswith (a ++ String c "") (String d "") = Ascii.eqb c d.
Proof.
  induction a as [|x a IH]; simpl.
  - now destruct (Ascii.eqb c d).
  - rewrite IH. destruct a; simpl; now destruct (Ascii.eqb x d).
Qed.

Lemma drop_last_app (a : string) (c : ascii) :
  PyStr.drop_last (a ++ String c "") = a.
Proof.
  induction a as [|x a IH]; [reflexivity|].
  simpl. destruct (a ++ String c "") eqn:E.
  - destruct a; discriminate.
  - now rewrite IH.
Qed.

Lemma isdecimal_isdigit (ds : string) :
  PyStr.all_chars PyStr.isdecimal_char ds = true ->
  PyStr.all_chars PyStr.isdigit_char ds = true.
Proof.
  induction ds as [|c ds IH]; simpl; [easy|].
  rewrite !andb_true_iff. intros [Hc Hds]. split; [|now apply IH].
  unfold PyStr.isdigit_char. unfold PyStr.isdecimal_char in Hc.
  now rewrite Hc.
Qed.

Lemma int_acc_nonneg (ds : string) (acc : Z) :
  PyStr.all_chars PyStr.isdecimal_char ds = true -> 0 <= acc ->
  0 <= PyStr.int_acc acc ds.
Proof.
  revert acc.
  induction ds as [|c ds IH]; cbn [PyStr.int_acc PyStr.all_chars]; intros acc;
    [easy|].
  rewrite andb_true_iff. intros [Hc Hds] Hacc. apply IH; [exact Hds|].
  unfold PyStr.isdecimal_char in Hc. cbv zeta in Hc.
  apply andb_true_iff in Hc. destruct Hc as [Hc _]. apply N.leb_le in Hc.
  unfold PyStr.digit_value. lia.
Qed.

Lemma days_before_year_nonneg (y : Z) : 1 <= y -> 0 <= _days_before_year y.
Proof.
  intros H. unfold _days_before_year. cbv zeta.
  assert ((y - 1) / 100 <= (y - 1) / 4).
  { apply Z.div_le_compat_l; lia. }
  assert (0 <= (y - 1) / 400) by (apply Z.div_pos; lia).
  nia.
Qed.

Lemma toordinal_pos (d : date) : valid_date d = true -> 1 <= toordinal d.
Proof.
  unfold valid_date. rewrite !andb_true_iff, !Z.leb_le.
  intros [[[[[Hy1 Hy2] Hm1] Hm2] Hd1] Hd2].
  unfold toordinal, _ymd2ord.
  pose proof (days_before_year_nonneg (year d) Hy1).
  assert (0 <= _days_before_month (year d) (month d)).
  { unfold _days_before_month.
    assert (Hm : month d = 1 \/ month d = 2 \/ month d = 3 \/ month d = 4
                 \/ month d = 5 \/ month d = 6 \/ month d = 7 \/ month d = 8
                 \/ month d = 9 \/ month d = 10 \/ month d = 11 \/ month d = 12)
      by lia.
    destruct (_is_leap (year d));
      repeat (destruct Hm as [->|Hm]; [cbv; discriminate|]); rewrite Hm; cbv;
      discriminate. }
  lia.
Qed.

Lemma shortcut_shape (ds : string) (c : ascii) :
  PyStr.nonempty ds = true ->
  PyStr.all_chars PyStr.isdecimal_char ds = true ->
  let t := "+" ++ ds ++ String c "" in
  PyStr.nonempty t = true
  /\ PyStr.startswith t "+" = true
  /\ (forall d, PyStr.endswith t (String d "") = Ascii.eqb c d)
  /\ PyStr.isdigit (PyStr.slice_1_m1 t) = true
  /\ PyStr.int (PyStr.slice_1_m1 t)
     = if Z.of_nat (String.length ds) <=? PyStr.int_max_str_digits
       then Returns (PyStr.int_acc 0 ds) else Raises.
Proof.
  intros Hne Hdec t.
  assert (Hslice : PyStr.slice_1_m1 t = ds).
  { unfold t, PyStr.slice_1_m1. simpl. apply drop_last_app. }
  rewrite Hslice. unfold PyStr.isdigit, PyStr.int.
  rewrite Hne, Hdec, (isdecimal_isdigit ds Hdec). cbn [andb].
  repeat split.
  - unfold t, PyStr.startswith. simpl. now destruct (ds ++ String c "").
  - intros d. change t with (String "+" ds ++ String c "").
    apply endswith_last.
Qed.

Lemma add_in_range (today : date) (n : Z) :
  valid_date today = true -> 0 <= n -> toordinal today + n <= _MAXORDINAL ->
  PyDate.add today n = Returns (fromordinal (toordinal today + n)).
Proof.
  intros Hv Hn Hmax. pose proof (toordinal_pos today Hv).
  unfold PyDate.add.
  replace (0 <? toordinal today + n) with true by (symmetry; apply Z.ltb_lt; lia).
  replace (toordinal today + n <=? _MAXORDINAL) with true
    by (symmetry; now apply Z.leb_le).
  reflexivity.
Qed.

Lemma timedelta_in_range (today : date) (days weeks : Z) :
  valid_date today = true -> 0 <= days + 7 * weeks ->
  toordinal today + (days + 7 * weeks) <= _MAXORDINAL ->
  timedelta days weeks = Returns (days + 7 * weeks).
Proof.
  intros Hv Hn Hmax. pose proof (toordinal_pos today Hv).
  unfold timedelta. cbv zeta.
  replace (Z.abs (days + 7 * weeks) <=? 999999999) with true; [reflexivity|].
  symmetry. apply Z.leb_le. unfold _MAXORDINAL in Hmax. lia.
Qed.

(** *** Day numbers: [fromordinal] inverts [toordinal] *)

Lemma days_before_year_decomp (a b c d : Z) :
  0 <= a -> 0 <= b <= 3 -> 0 <= c <= 24 -> 0 <= d <= 3 ->
  _days_before_year (400 * a + 100 * b + 4 * c + d + 1)
  = 146097 * a + 36524 * b + 1461 * c + 365 * d.
Proof.
  intros Ha Hb Hc Hd. unfold _days_before_year. cbv zeta.
  replace (400 * a + 100 * b + 4 * c + d + 1 - 1)
    with (400 * a + 100 * b + 4 * c + d) by lia.
  assert (E4 : (400 * a + 100 * b + 4 * c + d) / 4 = 100 * a + 25 * b + c).
  { symmetry. apply (Z.div_unique _ _ _ d); lia. }
  assert (E100 : (400 * a + 100 * b + 4 * c + d) / 100 = 4 * a + b).
  { symmetry. apply (Z.div_unique _ _ _ (4 * c + d)); lia. }
  assert (E400 : (400 * a + 100 * b + 4 * c + d) / 400 = a).
  { symmetry. apply (Z.div_unique _ _ _ (100 * b + 4 * c + d)); lia. }
  rewrite E4, E100, E400. lia.
Qed.

Lemma is_leap_decomp (a b c d : Z) :
  0 <= a -> 0 <= b <= 3 -> 0 <= c <= 24 -> 0 <= d <= 3 ->
  _is_leap (400 * a + 100 * b + 4 * c + d + 1)
  = (d =? 3) && (negb (c =? 24) || (b =? 3)).
Proof.
  intros Ha Hb Hc Hd. unfold _is_leap.
  set (y := 400 * a + 100 * b + 4 * c + d + 1).
  assert (E4 : y mod 4 = (d + 1) mod 4).
  { unfold y. replace (400 * a + 100 * b + 4 * c + d + 1)
      with ((d + 1) + (100 * a + 25 * b + c) * 4) by lia.
    apply Z.mod_add. lia. }
  assert (E100 : y mod 100 = (4 * c + d + 1) mod 100).
  { unfold y. replace (400 * a + 100 * b + 4 * c + d + 1)
      with ((4 * c + d + 1) + (4 * a + b) * 100) by lia.
    apply Z.mod_add. lia. }
  assert (E400 : y mod 400 = (100 * b + 4 * c + d + 1) mod 400).
  { unfold y. replace (400 * a + 100 * b + 4 * c + d + 1)
      with ((100 * b + 4 * c + d + 1) + a * 400) by lia.
    apply Z.mod_add. lia. }
  rewrite E4, E100, E400.
  destruct (d =? 3) eqn:D3.
  - apply Z.eqb_eq in D3. subst d. change ((3 + 1) mod 4) with 0. cbn [Z.eqb andb].
    destruct (c =? 24) eqn:C24.
    + apply Z.eqb_eq in C24. subst c. change ((4 * 24 + 3 + 1) mod 100) with 0.
      cbn [Z.eqb negb orb].
      destruct (b =? 3) eqn:B3.
      * apply Z.eqb_eq in B3. subst b. reflexivity.
      * apply Z.eqb_neq in B3. apply Z.eqb_neq.
        rewrite Z.mod_small by lia. lia.
    + apply Z.eqb_neq in C24. cbn [negb orb].
      replace ((4 * c + 3 + 1) mod 100 =? 0) with false; [reflexivity|].
      symmetry. apply Z.eqb_neq. rewrite Z.mod_small by lia. lia.
  - apply Z.eqb_neq in D3.
    replace ((d + 1) mod 4 =? 0) with false; [reflexivity|].
    symmetry. apply Z.eqb_neq. rewrite Z.mod_small by lia. lia.
Qed.

Lemma month_day_checked :
  forallb (fun k => month_day_ok true (Z.of_nat k) && month_day_ok false (Z.of_nat k))
          (seq 0 365) = true.
Proof. vm_compute. reflexivity. Qed.

Lemma month_day_spec (leap : bool) (n : Z) :
  0 <= n < 365 -> month_day_ok leap n = true.
Proof.
  intros Hn. pose proof month_day_checked as H. rewrite forallb_forall in H.
  specialize (H (Z.to_nat n)). rewrite Z2Nat.id in H by lia.
  assert (Hin : In (Z.to_nat n) (seq 0 365)) by (apply in_seq; lia).
  apply H in Hin. apply andb_true_iff in Hin. destruct leap; tauto.
Qed.

Lemma ord2ymd_month_day (y n : Z) (leap : bool) :
  (let m := Z.shiftr (n + 50) 5 in
   let preceding :=
     index _DAYS_BEFORE_MONTH m + (if (2 <? m) && leap then 1 else 0) in
   if n <? preceding then
     let m := m - 1 in
     let preceding :=
       preceding
       - (index _DAYS_IN_MONTH m + (if (m =? 2) && leap then 1 else 0)) in
     mkdate y m (n - preceding + 1)
   else mkdate y m (n - preceding + 1))
  = mkdate y (fst (month_day leap n)) (snd (month_day leap n)).
Proof.
  unfold month_day. cbv zeta.
  destruct (n <? _); reflexivity.
Qed.

Lemma dec31_leap (a b c : Z) :
  0 <= a -> 0 <= b <= 3 -> 0 <= c <= 24 ->
  negb (c =? 24) || (b =? 3) = true ->
  400 * a + 100 * b + 4 * c + 3 + 1 <= MAXYEAR ->
  valid_date (mkdate (400 * a + 100 * b + 4 * c + 3 + 1) 12 31) = true
  /\ toordinal (mkdate (400 * a + 100 * b + 4 * c + 3 + 1) 12 31)
     = 146097 * a + 36524 * b + 1461 * c + 1461.
Proof.
  intros Ha Hb Hc Hleap Hy.
  unfold valid_date, toordinal, _ymd2ord, _days_in_month, _days_before_month.
  cbn [year month day].
  rewrite days_before_year_decomp, is_leap_decomp by lia.
  rewrite Hleap.
  change (index _DAYS_BEFORE_MONTH 12) with 334.
  change (index _DAYS_IN_MONTH 12) with 31.
  change (2 <? 12) with true. change (12 =? 2) with false.
  change (3 =? 3) with true. change (1 <=? 12) with true.
  change (12 <=? 12) with true. change (1 <=? 31) with true.
  change (31 <=? 31) with true. cbn [andb].
  split; [|lia].
  rewrite !andb_true_r. apply andb_true_iff. split; apply Z.leb_le; lia.
Qed.

Lemma fromordinal_toordinal (n : Z) :
  1 <= n <= _MAXORDINAL ->
  valid_date (fromordinal n) = true /\ toordinal (fromordinal n) = n.
Proof.
  intros Hn. unfold fromordinal, _ord2ymd. cbv zeta.
  unfold _DI400Y, _DI100Y, _DI4Y, _MAXORDINAL in *.
  pose proof (Z.div_mod (n - 1) 146097 ltac:(lia)) as E1.
  pose proof (Z.mod_pos_bound (n - 1) 146097 ltac:(lia)) as R1.
  set (a := (n - 1) / 146097) in *. set (r400 := (n - 1) mod 146097) in *.
  pose proof (Z.div_mod r400 36524 ltac:(lia)) as E2.
  pose proof (Z.mod_pos_bound r400 36524 ltac:(lia)) as R2.
  set (b := r400 / 36524) in *. set (r100 := r400 mod 36524) in *.
  pose proof (Z.div_mod r100 1461 ltac:(lia)) as E3.
  pose proof (Z.mod_pos_bound r100 1461 ltac:(lia)) as R3.
  set (c := r100 / 1461) in *. set (r4 := r100 mod 1461) in *.
  pose proof (Z.div_mod r4 365 ltac:(lia)) as E4.
  pose proof (Z.mod_pos_bound r4 365 ltac:(lia)) as R4.
  set (d := r4 / 365) in *. set (r := r4 mod 365) in *.
  clearbody a r400 b r100 c r4 d r.
  assert (Ha : 0 <= a <= 24) by lia.
  assert (Hb : 0 <= b <= 4) by lia.
  assert (Hc : 0 <= c <= 24) by lia.
  assert (Hd : 0 <= d <= 4) by lia.
  rewrite ord2ymd_month_day.
  destruct (d =? 4) eqn:D4; [|destruct (b =? 4) eqn:B4]; cbn [orb].
  - apply Z.eqb_eq in D4.
    replace (a * 400 + 1 + b * 100 + c * 4 + d - 1)
      with (400 * a + 100 * b + 4 * c + 3 + 1) by lia.
    assert (Hleap : negb (c =? 24) || (b =? 3) = true).
    { replace (c =? 24) with false by (symmetry; apply Z.eqb_neq; lia).
      reflexivity. }
    destruct (dec31_leap a b c ltac:(lia) ltac:(lia) ltac:(lia) Hleap
                ltac:(unfold MAXYEAR; lia)) as [Hv Ho].
    split; [exact Hv|]. rewrite Ho. lia.
  - apply Z.eqb_eq in B4. apply Z.eqb_neq in D4.
    replace (a * 400 + 1 + b * 100 + c * 4 + d - 1)
      with (400 * a + 100 * 3 + 4 * 24 + 3 + 1) by lia.
    destruct (dec31_leap a 3 24 ltac:(lia) ltac:(lia) ltac:(lia) eq_refl
                ltac:(unfold MAXYEAR; lia)) as [Hv Ho].
    split; [exact Hv|]. rewrite Ho. lia.
  - apply Z.eqb_neq in B4. apply Z.eqb_neq in D4.
    replace (a * 400 + 1 + b * 100 + c * 4 + d)
      with (400 * a + 100 * b + 4 * c + d + 1) by lia.
    set (leap := (d =? 3) && (negb (c =? 24) || (b =? 3))).
    assert (Hr : 0 <= r < 365) by lia.
    pose proof (month_day_spec leap r Hr) as Hmd. unfold month_day_ok in Hmd.
    destruct (month_day leap r) as [m dd]. cbn [fst snd].
    rewrite !andb_true_iff, !Z.leb_le, Z.eqb_eq in Hmd.
    destruct Hmd as [[[[Hm1 Hm2] Hd1] Hd2] Hsum].
    unfold valid_date, toordinal, _ymd2ord, _days_in_month, _days_before_month.
    cbn [year month day].
    rewrite days_before_year_decomp, is_leap_decomp by lia. fold leap.
    split; [|lia].
    rewrite !andb_true_iff, !Z.leb_le. unfold MAXYEAR. repeat split; try lia.
Qed.

Lemma days_before_year_succ (y : Z) :
  _days_before_year (y + 1)
  = _days_before_year y + (if _is_leap y then 366 else 365).
Proof.
  unfold _days_before_year, _is_leap. cbv zeta.
  replace (y + 1 - 1) with y by lia.
  destruct (y mod 4 =? 0) eqn:E4; destruct (y mod 100 =? 0) eqn:E100;
    destruct (y mod 400 =? 0) eqn:E400; cbn [negb andb orb];
    rewrite ?Z.eqb_eq, ?Z.eqb_neq in *;
    Z.div_mod_to_equations; lia.
Qed.

Lemma days_before_year_mono (y1 y2 : Z) :
  y1 <= y2 -> _days_before_year y1 <= _days_before_year y2.
Proof.
  intros H. unfold _days_before_year. cbv zeta.
  Z.div_mod_to_equations. lia.
Qed.

Lemma months_checked :
  forallb (fun i =>
             forallb (fun j => months_ok true (Z.of_nat i) (Z.of_nat j)
                               && months_ok false (Z.of_nat i) (Z.of_nat j))
                     (seq 1 12))
          (seq 1 12) = true.
Proof. vm_compute. reflexivity. Qed.

Lemma months_spec (leap : bool) (m1 m2 : Z) :
  1 <= m1 <= 12 -> 1 <= m2 <= 12 ->
  0 <= dbm leap m1
  /\ dbm leap m1 + dim leap m1 <= (if leap then 366 else 365)
  /\ (m1 < m2 -> dbm leap m1 + dim leap m1 <= dbm leap m2).
Proof.
  intros H1 H2. pose proof months_checked as H. rewrite forallb_forall in H.
  assert (Hi : In (Z.to_nat m1) (seq 1 12)) by (apply in_seq; lia).
  assert (Hj : In (Z.to_nat m2) (seq 1 12)) by (apply in_seq; lia).
  specialize (H _ Hi). rewrite forallb_forall in H. specialize (H _ Hj).
  rewrite !Z2Nat.id in H by lia. apply andb_true_iff in H.
  assert (Hok : months_ok leap m1 m2 = true) by (destruct leap; tauto).
  unfold months_ok in Hok. rewrite !andb_true_iff, !Z.leb_le in Hok.
  destruct Hok as [[Ha Hb] Hc]. repeat split; auto.
  intros Hlt. apply Z.ltb_lt in Hlt. rewrite Hlt in Hc. now apply Z.leb_le.
Qed.

Lemma valid_date_inv (d : date) :
  valid_date d = true ->
  1 <= year d <= MAXYEAR /\ 1 <= month d <= 12
  /\ 1 <= day d <= dim (_is_leap (year d)) (month d).
Proof.
  unfold valid_date, _days_in_month, dim.
  rewrite !andb_true_iff, !Z.leb_le. tauto.
Qed.

Lemma toordinal_year_bounds (d : date) :
  valid_date d = true ->
  _days_before_year (year d) < toordinal d <= _days_before_year (year d + 1).
Proof.
  intros Hv. apply valid_date_inv in Hv. destruct Hv as (Hy & Hm & Hd).
  destruct (months_spec (_is_leap (year d)) (month d) (month d) Hm Hm)
    as (H0 & H1 & _).
  rewrite days_before_year_succ. unfold toordinal, _ymd2ord.
  change (_days_before_month (year d) (month d))
    with (dbm (_is_leap (year d)) (month d)).
  lia.
Qed.

Lemma toordinal_inj (d1 d2 : date) :
  valid_date d1 = true -> valid_date d2 = true ->
  toordinal d1 = toordinal d2 -> d1 = d2.
Proof.
  intros Hv1 Hv2 E.
  pose proof (toordinal_year_bounds d1 Hv1) as B1.
  pose proof (toordinal_year_bounds d2 Hv2) as B2.
  assert (Hy : year d1 = year d2).
  { destruct (Z.lt_trichotomy (year d1) (year d2)) as [Hlt|[Heq|Hgt]]; auto.
    - pose proof (days_before_year_mono (year d1 + 1) (year d2) ltac:(lia)). lia.
    - pose proof (days_before_year_mono (year d2 + 1) (year d1) ltac:(lia)). lia. }
  apply valid_date_inv in Hv1, Hv2.
  destruct Hv1 as (_ & Hm1 & Hd1), Hv2 as (_ & Hm2 & Hd2).
  unfold toordinal, _ymd2ord in E.
  change (_days_before_month (year d1) (month d1))
    with (dbm (_is_leap (year d1)) (month d1)) in E.
  change (_days_before_month (year d2) (month d2))
    with (dbm (_is_leap (year d2)) (month d2)) in E.
  destruct d1 as [y1 m1 dd1], d2 as [y2 m2 dd2]. cbn [year month day] in *.
  subst y2.
  destruct (months_spec (_is_leap y1) m1 m2 Hm1 Hm2) as (_ & _ & H12).
  destruct (months_spec (_is_leap y1) m2 m1 Hm2 Hm1) as (_ & _ & H21).
  assert (Hm : m1 = m2).
  { destruct (Z.lt_trichotomy m1 m2) as [Hlt|[Heq|Hgt]]; auto.
    - specialize (H12 Hlt). lia.
    - specialize (H21 Hgt). lia. }
  subst m2. f_equal. lia.
Qed.

Lemma fromordinal_of_toordinal (d : date) :
  valid_date d = true -> fromordinal (toordinal d) = d.
Proof.
  intros Hv. pose proof (toordinal_year_bounds d Hv) as B.
  assert (Hr : 1 <= toordinal d <= _MAXORDINAL).
  { pose proof (toordinal_pos d Hv). split; [lia|].
    apply valid_date_inv in Hv. destruct Hv as (Hy & _).
    pose proof (days_before_year_mono (year d + 1) (MAXYEAR + 1)
                  ltac:(unfold MAXYEAR in *; lia)) as Hm.
    change (_days_before_year (MAXYEAR + 1)) with _MAXORDINAL in Hm. lia. }
  destruct (fromordinal_toordinal _ Hr) as [Hv' Ho].
  now apply toordinal_inj.
Qed.

(** [days_later today n] is the one date of the calendar whose day
    number is [n] more than that of [today]. *)
Lemma days_later_spec (today : date) (n : Z) :
  valid_date today = true -> 0 <= n -> toordinal today + n <= _MAXORDINAL ->
  valid_date (days_later today n) = true
  /\ toordinal (days_later today n) = toordinal today + n
  /\ (forall d, valid_date d = true -> toordinal d = toordinal today + n ->
                d = days_later today n).
Proof.
  intros Hv Hn Hmax. pose proof (toordinal_pos today Hv).
  destruct (fromordinal_toordinal (toordinal today + n)) as [Hv' Ho]; [lia|].
  split; [exact Hv'|]. split; [exact Ho|].
  intros d Hd E. apply toordinal_inj; auto. unfold days_later. now rewrite Ho.
Qed.

(** *** The shortcuts *)

Lemma parse_due_date_plus parse (today : date) (s ds : string) (c : ascii)
  (days weeks : Z) :
  valid_date today = true ->
  PyStr.nonempty ds = true ->
  PyStr.all_chars PyStr.isdecimal_char ds = true ->
  Z.of_nat (String.length ds) <= PyStr.int_max_str_digits ->
  PyStr.lower (PyStr.strip s) = "+" ++ ds ++ String c "" ->
  (c = "d"%char /\ days = PyStr.int_acc 0 ds /\ weeks = 0
   \/ c = "w"%char /\ days = 0 /\ weeks = PyStr.int_acc 0 ds) ->
  toordinal today + (days + 7 * weeks) <= _MAXORDINAL ->
  parse_due_date parse today s
  = Returns (isoformat (fromordinal (toordinal today + (days + 7 * weeks)))).
Proof.
  intros Hv Hne Hdec Hlen Ht Hc Hmax.
  destruct (shortcut_shape ds c Hne Hdec) as (H1 & H2 & H3 & H4 & H5).
  apply Z.leb_le in Hlen. rewrite Hlen in H5.
  pose proof (int_acc_nonneg ds 0 Hdec (Z.le_refl 0)) as Hn.
  assert (Hpos : 0 <= days + 7 * weeks) by (destruct Hc as [(_ & -> & ->)|(_ & -> & ->)]; lia).
  unfold parse_due_date. cbv zeta. rewrite Ht, H1, H2, !H3, H4, H5.
  change (String.eqb ("+" ++ ds ++ String c "") "today") with false.
  change (String.eqb ("+" ++ ds ++ String c "") "tomorrow") with false.
  cbn [negb andb bind].
  destruct Hc as [(-> & -> & ->)|(-> & -> & ->)];
    cbn [Ascii.eqb Bool.eqb andb bind];
    rewrite (timedelta_in_range today) by assumption; cbn [bind];
    rewrite add_in_range by assumption; reflexivity.
Qed.

(** C3 as stated fails: ten years of days past 2025-01-10 is a date,
    9999999 days past it is none that [date] can hold, and the call
    raises [OverflowError]; so does "tomorrow" on 9999-12-31. *)
Lemma shortcut_past_last_date_raises :
  valid_date today_ex = true
  /\ parse_due_date no_parser today_ex "+9999999d" = Raises
  /\ (forall out, parse_due_date no_parser today_ex "+9999999d" <> Returns out)
  /\ valid_date (mkdate 9999 12 31) = true
  /\ parse_due_date no_parser (mkdate 9999 12 31) "tomorrow" = Raises.
Proof.
  assert (E : parse_due_date no_parser today_ex "+9999999d" = Raises)
    by reflexivity.
  repeat split; try reflexivity. intros out. rewrite E. discriminate.
Qed.

Lemma parse_due_date_plus_raises parse (today : date) (s ds : string) (c : ascii) :
  valid_date today = true ->
  PyStr.nonempty ds = true ->
  PyStr.all_chars PyStr.isdecimal_char ds = true ->
  PyStr.lower (PyStr.strip s) = "+" ++ ds ++ String c "" ->
  c = "d"%char \/ c = "w"%char ->
  PyStr.int_max_str_digits < Z.of_nat (String.length ds)
  \/ _MAXORDINAL < toordinal today
                   + (if Ascii.eqb c "d" then 1 else 7) * PyStr.int_acc 0 ds ->
  parse_due_date parse today s = Raises.
Proof.
  intros Hv Hne Hdec Ht Hc Hbig.
  destruct (shortcut_shape ds c Hne Hdec) as (H1 & H2 & H3 & H4 & H5).
  pose proof (int_acc_nonneg ds 0 Hdec (Z.le_refl 0)) as Hn.
  pose proof (toordinal_pos today Hv) as Hpos.
  unfold parse_due_date. cbv zeta. rewrite Ht, H1, H2, !H3, H4, H5.
  change (String.eqb ("+" ++ ds ++ String c "") "today") with false.
  change (String.eqb ("+" ++ ds ++ String c "") "tomorrow") with false.
  cbn [negb andb].
  destruct (Z.of_nat (String.length ds) <=? PyStr.int_max_str_digits) eqn:El.
  - apply Z.leb_le in El. destruct Hbig as [Hbig|Hbig]; [lia|].
    assert (Hraise : forall k, 0 <= k -> _MAXORDINAL < toordinal today + k ->
              (td <- (if Z.abs k <=? 999999999 then Returns k else Raises) ;;
               d <- PyDate.add today td ;; Returns (isoformat d)) = Raises).
    { intros k Hk Hmax. destruct (Z.abs k <=? 999999999); [|reflexivity].
      cbn [bind]. unfold PyDate.add.
      replace (toordinal today + k <=? _MAXORDINAL) with false
        by (symmetry; apply Z.leb_gt; lia).
      now rewrite andb_false_r. }
    destruct Hc as [-> | ->]; cbn [Ascii.eqb Bool.eqb andb bind] in *;
      unfold timedelta; cbv zeta.
    + replace (PyStr.int_acc 0 ds + 7 * 0) with (PyStr.int_acc 0 ds) by lia.
      apply Hraise; lia.
    + replace (0 + 7 * PyStr.int_acc 0 ds) with (7 * PyStr.int_acc 0 ds) by lia.
      apply Hraise; lia.
  - destruct Hc as [-> | ->]; reflexivity.
Qed.

(** C3, amended. For every date [today] and every input, with [t]
    the input stripped and lower-cased: [t] empty gives the empty
    string; "today" gives [today] in ISO form; "tomorrow" gives the
    day after; "+" digits "d" gives [today] plus that many days, and
    "+" digits "w" that many weeks, the digits being 0..9, at most
    4300 of them, and read in base ten -- each of the last three
    provided the date meant is no later than 9999-12-31, the last day
    a [date] holds.  With more digits, or a later date, the call
    raises.  The date [n] days after [today] is the one date of the
    calendar whose day number is [n] more than that of [today].  On
    2025-01-10 the inputs "today", "tomorrow", "+3d", "+2w" give
    "2025-01-10", "2025-01-11", "2025-01-13", "2025-01-24". *)
Theorem parse_due_date_shortcuts parse (today : date) (s : string) :
  valid_date today = true ->
  let t := PyStr.lower (PyStr.strip s) in
  (t = "" -> parse_due_date parse today s = Returns "")
  /\ (t = "today" -> parse_due_date parse today s = Returns (isoformat today))
  /\ (t = "tomorrow" ->
      (toordinal today + 1 <= _MAXORDINAL ->
       parse_due_date parse today s = Returns (isoformat (days_later today 1)))
      /\ (_MAXORDINAL < toordinal today + 1 ->
          parse_due_date parse today s = Raises))
  /\ (forall ds,
        PyStr.nonempty ds = true ->
        PyStr.all_chars PyStr.isdecimal_char ds = true ->
        let n := PyStr.int_acc 0 ds in
        let digits := Z.of_nat (String.length ds) in
        (t = "+" ++ ds ++ "d" ->
         (digits <= 4300 -> toordinal today + n <= _MAXORDINAL ->
          parse_due_date parse today s = Returns (isoformat (days_later today n)))
         /\ (4300 < digits \/ _MAXORDINAL < toordinal today + n ->
             parse_due_date parse today s = Raises))
        /\ (t = "+" ++ ds ++ "w" ->
            (digits <= 4300 -> toordinal today + 7 * n <= _MAXORDINAL ->
             parse_due_date parse today s
             = Returns (isoformat (days_later today (7 * n))))
            /\ (4300 < digits \/ _MAXORDINAL < toordinal today + 7 * n ->
                parse_due_date parse today s = Raises)))
  /\ (forall n, 0 <= n -> toordinal today + n <= _MAXORDINAL ->
       valid_date (days_later today n) = true
       /\ toordinal (days_later today n) = toordinal today + n
       /\ (forall d, valid_date d = true ->
                     toordinal d = toordinal today + n ->
                     d = days_later today n))
  /\ map (parse_due_date parse (mkdate 2025 1 10))
         ["today"; "tomorrow"; "+3d"; "+2w"]
     = [Returns "2025-01-10"; Returns "2025-01-11"; Returns "2025-01-13";
        Returns "2025-01-24"].
Proof.
  intros Hv t. split; [|split; [|split; [|split; [|split]]]].
  - intros Ht. unfold parse_due_date. cbv zeta. fold t. now rewrite Ht.
  - intros Ht. unfold parse_due_date. cbv zeta. fold t. now rewrite Ht.
  - intros Ht. split; intros Hmax; unfold parse_due_date, days_later; cbv zeta;
      fold t; rewrite Ht;
      cbn [PyStr.nonempty negb]; change (String.eqb "tomorrow" "today") with false;
      change (String.eqb "tomorrow" "tomorrow") with true; cbv iota;
      change (timedelta 1 0) with (Returns (A := Z) 1); cbn [bind].
    + rewrite add_in_range by (auto; lia). cbn [bind]. reflexivity.
    + unfold PyDate.add.
      replace (toordinal today + 1 <=? _MAXORDINAL) with false
        by (symmetry; apply Z.leb_gt; lia).
      now rewrite andb_false_r.
  - intros ds Hne Hdec n digits. unfold days_later. split; intros Ht; split.
    + intros Hlen Hmax.
      rewrite (parse_due_date_plus parse today s ds "d" n 0); auto.
      * now rewrite Z.mul_0_r, Z.add_0_r.
      * now rewrite Z.mul_0_r, Z.add_0_r.
    + intros Hbig.
      apply (parse_due_date_plus_raises parse today s ds "d"); auto.
      cbn [Ascii.eqb Bool.eqb andb]. fold n digits. unfold PyStr.int_max_str_digits.
      destruct Hbig; [left|right]; lia.
    + intros Hlen Hmax.
      rewrite (parse_due_date_plus parse today s ds "w" 0 n); auto.
    + intros Hbig.
      apply (parse_due_date_plus_raises parse today s ds "w"); auto.
  - intros n Hn Hmax. now apply days_later_spec.
  - reflexivity.
Qed.

(** C4 as stated fails: "Someday" is not empty, is none of the
    shortcuts, and no parser here reads it; yet what comes back is
    "someday", not the stripped input "Someday" as it was typed. *)
Lemma unparsed_due_comes_back_lowercased :
  PyStr.strip "  Someday " = "Someday"
  /\ PyStr.lower (PyStr.strip "  Someday ") = "someday"
  /\ plus_rule "d" "someday" = false
  /\ plus_rule "w" "someday" = false
  /\ date_parser_none "someday"
  /\ parse_due_date no_parser today_ex "  Someday " = Returns "someday"
  /\ parse_due_date no_parser today_ex "  Someday "
     <> Returns (PyStr.strip "  Someday ").
Proof.
  repeat split; try reflexivity. discriminate.
Qed.

(** C4, amended. When the input, stripped and lower-cased, is not
    empty, is neither "today" nor "tomorrow", passes neither [+N]
    test, and the date parser fails on it, [parse_due_date] returns
    it: stripped and in lower case, with no error. *)
Theorem parse_due_date_passes_unparsed_through parse (today : date)
  (s : string) :
  let t := PyStr.lower (PyStr.strip s) in
  t <> "" -> t <> "today" -> t <> "tomorrow" ->
  plus_rule "d" t = false -> plus_rule "w" t = false ->
  parse today t = Raises ->
  parse_due_date parse today s = Returns t.
Proof.
  intros t H0 H1 H2 Hd Hw Hp. unfold parse_due_date. cbv zeta. fold t.
  unfold plus_rule in Hd, Hw. rewrite Hd, Hw, Hp.
  apply String.eqb_neq in H1, H2. rewrite H1, H2.
  destruct t; [contradiction|reflexivity].
Qed.

(** ** The progress percentage *)

(** C8 fails on the code: with 50 tasks of which 29 are done the
    statistics are (50, 29) and the percentage printed is 57, where
    the floor of 29/50 * 100 is 58: the quotient 29/50 is rounded to
    a binary64 below 0.58 before it is multiplied and truncated.
    The cases (3, 1) and [total = 0] are as the claim says. *)
Theorem progress_of_29_in_50_is_57 :
  (exists db,
     run_ops no_parser no_rowid fifty_tasks [] = Returns db
     /\ get_stats db where_none = (50, 29)
     /\ dashboard_progress db where_none = 57)
  /\ progress_of 50 29 = 57
  /\ 29 * 100 / 50 = 58
  /\ progress_of 3 1 = 33
  /\ (forall dn, progress_of 0 dn = 0).
Proof.
  split; [|repeat split].
  eexists. split; [vm_compute; reflexivity|]. split; vm_compute; reflexivity.
Qed.

(** * Further properties *)

(** ** Due dates read back *)

Ltac bool_prop_in H :=
  repeat first
    [ rewrite orb_true_iff in H | rewrite andb_true_iff in H
    | rewrite Z.ltb_lt in H | rewrite Z.eqb_eq in H | rewrite Z.leb_le in H ].

Ltac bool_prop :=
  repeat first
    [ rewrite orb_true_iff | rewrite andb_true_iff
    | rewrite Z.ltb_lt | rewrite Z.eqb_eq | rewrite Z.leb_le ].

Lemma forall_from_spec (n : nat) (lo : Z) (p : Z -> bool) :
  forall_from n lo p = true ->
  forall z, lo <= z < lo + Z.of_nat n -> p z = true.
Proof.
  revert lo. induction n as [|n IH]; intros lo H z Hz.
  - simpl in Hz. lia.
  - cbn [forall_from] in H. apply andb_true_iff in H. destruct H as [H0 H1].
    destruct (Z.eq_dec z lo) as [->|Hne]; [exact H0|].
    apply (IH (lo + 1) H1). lia.
Qed.

Lemma year_fmt_checked : forall_from (Z.to_nat 9999) 1 year_fmt_ok = true.
Proof. vm_compute. reflexivity. Qed.

Lemma year_fmt_spec (y : Z) : 1 <= y <= 9999 -> year_fmt_ok y = true.
Proof.
  intros H. apply (forall_from_spec _ 1 _ year_fmt_checked).
  rewrite Z2Nat.id; lia.
Qed.

Lemma month_day_fmt_checked :
  forall_from 12 1 (fun m => forall_from 31 1 (month_day_fmt_ok m)) = true.
Proof. vm_compute. reflexivity. Qed.

Lemma month_day_fmt_spec (m d : Z) :
  1 <= m <= 12 -> 1 <= d <= 31 -> month_day_fmt_ok m d = true.
Proof.
  intros Hm Hd.
  pose proof (forall_from_spec _ _ _ month_day_fmt_checked m) as H.
  cbv beta in H. apply (forall_from_spec _ _ _ (H ltac:(simpl; lia))).
  simpl. lia.
Qed.

Lemma dim_le_31 (leap : bool) (m : Z) : 1 <= m <= 12 -> dim leap m <= 31.
Proof.
  intros Hm.
  assert (H : m = 1 \/ m = 2 \/ m = 3 \/ m = 4 \/ m = 5 \/ m = 6 \/ m = 7
              \/ m = 8 \/ m = 9 \/ m = 10 \/ m = 11 \/ m = 12) by lia.
  destruct leap; repeat (destruct H as [->|H]; [cbv; discriminate|]);
    rewrite H; cbv; discriminate.
Qed.

Lemma strptime_of_isoformat (d : date) :
  valid_date d = true -> strptime_ymd (isoformat d) = Returns d.
Proof.
  intros Hv. pose proof (valid_date_inv d Hv) as (Hy & Hm & Hd).
  pose proof (dim_le_31 (_is_leap (year d)) (month d) Hm) as H31.
  destruct d as [y m dd]. cbn [year month day] in *. unfold MAXYEAR in Hy.
  pose proof (year_fmt_spec y Hy) as Hyf.
  pose proof (month_day_fmt_spec m dd Hm ltac:(lia)) as Hmd.
  unfold isoformat. cbn [year month day].
  unfold year_fmt_ok in Hyf. unfold month_day_fmt_ok in Hmd.
  destruct (PyStr.fmt_0d 4 y) as [|a [|b [|c [|e [|? ?]]]]]; try discriminate.
  rewrite !andb_true_iff, Z.eqb_eq in Hyf.
  destruct Hyf as [[[[Ha Hb] Hc] He] Hval].
  cbn [String.append]. unfold strptime_ymd. rewrite Ha, Hb, Hc, He.
  cbn [andb after_dash]. change (Ascii.eqb "-" "-") with true. cbv iota.
  destruct (month_dash_day _) as [[[m' d'] rest]|]; [|discriminate].
  destruct rest; [|discriminate].
  apply andb_true_iff in Hmd. rewrite !Z.eqb_eq in Hmd. destruct Hmd as [-> ->].
  cbn [PyStr.nonempty]. cbv zeta. rewrite Hval, Hv. reflexivity.
Qed.

Lemma date_ltb_toordinal (a b : date) :
  valid_date a = true -> valid_date b = true ->
  date_ltb a b = true -> toordinal a < toordinal b.
Proof.
  intros Ha Hb H.
  pose proof (toordinal_year_bounds a Ha) as Ba.
  pose proof (toordinal_year_bounds b Hb) as Bb.
  apply valid_date_inv in Ha, Hb.
  destruct Ha as (_ & Hma & Hda), Hb as (_ & Hmb & Hdb).
  unfold date_ltb in H. bool_prop_in H.
  destruct H as [Hy|[Hy [Hm|[Hm Hd]]]].
  - pose proof (days_before_year_mono (year a + 1) (year b) ltac:(lia)). lia.
  - unfold toordinal, _ymd2ord.
    change (_days_before_month (year a) (month a))
      with (dbm (_is_leap (year a)) (month a)).
    change (_days_before_month (year b) (month b))
      with (dbm (_is_leap (year b)) (month b)).
    rewrite <- Hy in *.
    destruct (months_spec (_is_leap (year a)) (month a) (month b) Hma Hmb)
      as (_ & _ & H12).
    specialize (H12 Hm). lia.
  - unfold toordinal, _ymd2ord. rewrite Hy, Hm. lia.
Qed.

Lemma date_order_toordinal (a b : date) :
  valid_date a = true -> valid_date b = true ->
  date_ltb a b = (toordinal a <? toordinal b)
  /\ date_eqb a b = (toordinal a =? toordinal b).
Proof.
  intros Ha Hb.
  assert (Hcases : date_ltb a b = true \/ a = b \/ date_ltb b a = true).
  { destruct a as [ya ma da], b as [yb mb db]. unfold date_ltb.
    cbn [year month day]. bool_prop.
    destruct (Z.lt_trichotomy ya yb) as [?|[->|?]]; [tauto| |tauto].
    destruct (Z.lt_trichotomy ma mb) as [?|[->|?]]; [tauto| |tauto].
    destruct (Z.lt_trichotomy da db) as [?|[->|?]]; tauto. }
  assert (Hirr : forall x, date_ltb x x = false).
  { intros x. unfold date_ltb. rewrite !Z.ltb_irrefl, !andb_false_r. reflexivity. }
  assert (Heq : forall x, date_eqb x x = true).
  { intros x. unfold date_eqb. now rewrite !Z.eqb_refl. }
  destruct Hcases as [H|[->|H]].
  - pose proof (date_ltb_toordinal a b Ha Hb H) as Hlt. rewrite H. split.
    + symmetry. now apply Z.ltb_lt.
    + replace (toordinal a =? toordinal b) with false
        by (symmetry; apply Z.eqb_neq; lia).
      destruct (date_eqb a b) eqn:E; [|reflexivity].
      unfold date_eqb in E. rewrite !andb_true_iff, !Z.eqb_eq in E.
      destruct a, b; cbn [year month day] in *.
      destruct E as [[-> ->] ->]. rewrite Hirr in H. discriminate.
  - rewrite Hirr, Heq, Z.ltb_irrefl, Z.eqb_refl. split; reflexivity.
  - pose proof (date_ltb_toordinal b a Hb Ha H) as Hlt. split.
    + replace (toordinal a <? toordinal b) with false
        by (symmetry; apply Z.ltb_ge; lia).
      destruct (date_ltb a b) eqn:E; [|reflexivity].
      pose proof (date_ltb_toordinal a b Ha Hb E). lia.
    + replace (toordinal a =? toordinal b) with false
        by (symmetry; apply Z.eqb_neq; lia).
      destruct (date_eqb a b) eqn:E; [|reflexivity].
      unfold date_eqb in E. rewrite !andb_true_iff, !Z.eqb_eq in E.
      destruct a, b; cbn [year month day] in *.
      destruct E as [[-> ->] ->]. rewrite Hirr in H. discriminate.
Qed.

Lemma due_attr_isoformat (today d : date) :
  valid_date today = true -> valid_date d = true ->
  due_attr today (isoformat d) 0 = urgency today d.
Proof.
  intros Ht Hd. unfold due_attr, urgency.
  rewrite (strptime_of_isoformat d Hd).
  destruct (date_order_toordinal d today Hd Ht) as [-> ->].
  assert (Hne : PyStr.nonempty (isoformat d) = true).
  { unfold isoformat. pose proof (valid_date_inv d Hd) as (Hy & _).
    pose proof (year_fmt_spec (year d) Hy) as Hyf. unfold year_fmt_ok in Hyf.
    destruct (PyStr.fmt_0d 4 (year d)); [discriminate|reflexivity]. }
  rewrite Hne. reflexivity.
Qed.

Lemma strptime_valid (s : string) (d : date) :
  strptime_ymd s = Returns d -> valid_date d = true.
Proof.
  unfold strptime_ymd.
  destruct s as [|a [|b [|c [|e t]]]]; try discriminate.
  destruct (char_in 48 57 a && char_in 48 57 b && char_in 48 57 c
            && char_in 48 57 e); [|discriminate].
  destruct (after_dash t) as [t1|]; [|discriminate].
  destruct (month_dash_day (month_matches t1)) as [[[m dd] rest]|];
    [|discriminate].
  destruct (PyStr.nonempty rest); [discriminate|].
  cbv zeta. destruct (valid_date _) eqn:E; [|discriminate].
  now intros [= <-].
Qed.

(** X1. [strptime] reads back what [isoformat] writes: for every
    date [d] of the calendar,
    [datetime.strptime(d.isoformat(), "%Y-%m-%d").date()] is [d]; and
    whatever string [strptime] accepts, the date it returns is a date
    of the calendar. *)
Theorem strptime_isoformat_round_trip (d : date) :
  valid_date d = true ->
  strptime_ymd (isoformat d) = Returns d
  /\ (forall s d', strptime_ymd s = Returns d' -> valid_date d' = true).
Proof.
  intros Hv. split.
  - now apply strptime_of_isoformat.
  - intros s d' H. now apply (strptime_valid s).
Qed.

(** ** The colour of a listed task *)

Lemma listed_not_done (db : table) (w : clause) (r : todo) :
  In r (draw_dashboard db w) -> done r = 0 /\ deleted r = 0.
Proof.
  unfold draw_dashboard. rewrite sql_select_In, active_cond. tauto.
Qed.

Lemma due_attr_not_done (today : date) (due_str : string) :
  valid_date today = true -> due_attr today due_str 0 = due_colour today due_str.
Proof.
  intros Ht. unfold due_attr, due_colour. cbn [int_truthy Z.eqb negb].
  rewrite andb_true_r. destruct (strptime_ymd due_str) as [d|] eqn:E.
  - pose proof (strptime_valid due_str d E) as Hd.
    destruct (date_order_toordinal d today Hd Ht) as [-> ->].
    destruct due_str; [discriminate|]. reflexivity.
  - now destruct (PyStr.nonempty due_str).
Qed.

(** X2. Every task the dashboard lists is written with the box
    [[ ]]: the query keeps the rows that are not done, so the checked
    box and the [not done] guard of the colouring never apply.  Its
    title and its due date are written in one colour, which depends
    on what [strptime] makes of the due date: red when it reads a
    date before today, yellow when it reads today, green when it
    reads a later date, and no colour when it rejects the text, as
    it does the empty one and free text.  The ISO form of a date of
    the calendar is read as that date.  (These are the calls of the
    body of the row loop, in order, as long as curses accepts
    them.) *)
Theorem listed_task_colour (today : date) (db : table) (w : clause) (r : todo)
  (cursor idx : Z) :
  valid_date today = true ->
  In r (draw_dashboard db w) ->
  let marker := if idx =? cursor then "-> " else "   " in
  let tag := if PyStr.nonempty (category r)
             then [addstr ("#" ++ category r) (color_pair 4)] else [] in
  let a := due_colour today (due r) in
  todo_calls today cursor idx r
  = ([addstr_at (5 + idx) 0 marker A_NORMAL;
      addstr ("[ ] " ++ title r ++ " ") a]
     ++ tag
     ++ (if PyStr.nonempty (due r)
         then [addstr (" (due " ++ due r ++ ")") a] else []))%list
  /\ (forall d, strptime_ymd (due r) = Returns d ->
        valid_date d = true
        /\ (toordinal d < toordinal today -> a = color_pair 1)
        /\ (toordinal d = toordinal today -> a = color_pair 2)
        /\ (toordinal today < toordinal d -> a = color_pair 3))
  /\ (forall d, valid_date d = true -> due r = isoformat d ->
        strptime_ymd (due r) = Returns d)
  /\ (strptime_ymd (due r) = Raises -> a = A_NORMAL)
  /\ (due r = "" -> a = A_NORMAL /\ PyStr.nonempty (due r) = false).
Proof.
  intros Ht Hin marker tag a.
  destruct (listed_not_done db w r Hin) as [Hdn _].
  split; [|split; [|split; [|split]]].
  - unfold todo_calls. rewrite Hdn, (due_attr_not_done today (due r) Ht).
    reflexivity.
  - intros d E. unfold a, due_colour. rewrite E. unfold urgency.
    split; [now apply (strptime_valid (due r))|]. split; [|split]; intros H.
    + apply Z.ltb_lt in H. now rewrite H.
    + rewrite H, Z.ltb_irrefl, Z.eqb_refl. reflexivity.
    + replace (toordinal d <? toordinal today) with false
        by (symmetry; apply Z.ltb_ge; lia).
      replace (toordinal d =? toordinal today) with false
        by (symmetry; apply Z.eqb_neq; lia).
      reflexivity.
  - intros d Hd ->. now apply strptime_of_isoformat.
  - intros E. unfold a, due_colour. now rewrite E.
  - intros E. unfold a. rewrite E. split; reflexivity.
Qed.

(** ** From the shortcut typed to the colour shown *)

Lemma parse_due_date_today parse (today : date) (s : string) :
  PyStr.lower (PyStr.strip s) = "today" ->
  parse_due_date parse today s = Returns (isoformat today).
Proof. intros Ht. unfold parse_due_date. cbv zeta. now rewrite Ht. Qed.

Lemma parse_due_date_tomorrow parse (today : date) (s : string) :
  valid_date today = true ->
  PyStr.lower (PyStr.strip s) = "tomorrow" ->
  toordinal today + 1 <= _MAXORDINAL ->
  parse_due_date parse today s = Returns (isoformat (days_later today 1)).
Proof.
  intros Hv Ht Hmax. unfold parse_due_date, days_later. cbv zeta. rewrite Ht.
  cbn [PyStr.nonempty negb]. change (String.eqb "tomorrow" "today") with false.
  change (String.eqb "tomorrow" "tomorrow") with true. cbv iota.
  change (timedelta 1 0) with (Returns (A := Z) 1). cbn [bind].
  rewrite add_in_range by (auto; lia). cbn [bind]. reflexivity.
Qed.

Lemma due_attr_days_later (today seen : date) (n : Z) :
  valid_date today = true -> valid_date seen = true ->
  0 <= n -> toordinal today + n <= _MAXORDINAL ->
  due_attr seen (isoformat (days_later today n)) 0
  = (if toordinal today + n <? toordinal seen then color_pair 1
     else if toordinal today + n =? toordinal seen then color_pair 2
     else color_pair 3).
Proof.
  intros Ht Hs Hn Hmax.
  destruct (days_later_spec today n Ht Hn Hmax) as (Hv & Ho & _).
  rewrite (due_attr_isoformat seen _ Hs Hv). unfold urgency. now rewrite Ho.
Qed.

(** X3. A task added on the day [today] with the due date "today",
    "tomorrow" or "+" digits "d" (at most 4300 digits, the date meant
    being no later than 9999-12-31) and looked at on the day [seen] is red when the date
    meant is before [seen], yellow when it is [seen] and green when
    it is later.  So on the day it is added "today" shows yellow and
    "tomorrow" green, and the day after "today" shows red and
    "tomorrow" yellow. *)
Theorem shortcut_due_colour parse (today seen : date) (s : string) :
  valid_date today = true -> valid_date seen = true ->
  let t := PyStr.lower (PyStr.strip s) in
  let colour n :=
    if toordinal today + n <? toordinal seen then color_pair 1
    else if toordinal today + n =? toordinal seen then color_pair 2
    else color_pair 3 in
  (t = "today" ->
   exists due_str, parse_due_date parse today s = Returns due_str
                   /\ due_attr seen due_str 0 = colour 0)
  /\ (t = "tomorrow" -> toordinal today + 1 <= _MAXORDINAL ->
      exists due_str, parse_due_date parse today s = Returns due_str
                      /\ due_attr seen due_str 0 = colour 1)
  /\ (forall ds,
        PyStr.nonempty ds = true ->
        PyStr.all_chars PyStr.isdecimal_char ds = true ->
        Z.of_nat (String.length ds) <= 4300 ->
        t = "+" ++ ds ++ "d" ->
        toordinal today + PyStr.int_acc 0 ds <= _MAXORDINAL ->
        exists due_str, parse_due_date parse today s = Returns due_str
                        /\ due_attr seen due_str 0 = colour (PyStr.int_acc 0 ds))
  /\ (seen = today -> colour 0 = color_pair 2 /\ colour 1 = color_pair 3)
  /\ (toordinal seen = toordinal today + 1 ->
      colour 0 = color_pair 1 /\ colour 1 = color_pair 2).
Proof.
  intros Ht Hs t colour. split; [|split; [|split; [|split]]].
  - intros E. exists (isoformat today). split.
    + now apply parse_due_date_today.
    + unfold colour. rewrite Z.add_0_r.
      rewrite (due_attr_isoformat seen today Hs Ht). reflexivity.
  - intros E Hmax. exists (isoformat (days_later today 1)). split.
    + now apply parse_due_date_tomorrow.
    + apply due_attr_days_later; auto. lia.
  - intros ds Hne Hdec Hlen E Hmax.
    exists (isoformat (days_later today (PyStr.int_acc 0 ds))). split.
    + pose proof (parse_due_date_plus parse today s ds "d" (PyStr.int_acc 0 ds) 0
                    Ht Hne Hdec Hlen E
                    (or_introl (conj eq_refl (conj eq_refl eq_refl))))
        as Hplus.
      rewrite Z.mul_0_r, Z.add_0_r in Hplus. exact (Hplus Hmax).
    + apply due_attr_days_later; auto.
      apply int_acc_nonneg; [exact Hdec|lia].
  - intros ->. unfold colour. rewrite Z.add_0_r, Z.ltb_irrefl, Z.eqb_refl.
    replace (toordinal today + 1 <? toordinal today) with false
      by (symmetry; apply Z.ltb_ge; lia).
    replace (toordinal today + 1 =? toordinal today) with false
      by (symmetry; apply Z.eqb_neq; lia).
    split; reflexivity.
  - intros E. unfold colour. rewrite E, Z.add_0_r, Z.ltb_irrefl, Z.eqb_refl.
    replace (toordinal today <? toordinal today + 1) with true
      by (symmetry; apply Z.ltb_lt; lia).
    split; reflexivity.
Qed.

(** ** The marker and the lines of the rows *)

Lemma markers_todo_calls (today : date) (c idx : Z) (t : todo) (cs : list call) :
  markers (todo_calls today c idx t ++ cs)
  = (5 + idx, if idx =? c then "-> " else "   ") :: markers cs.
Proof.
  unfold todo_calls. cbv zeta.
  destruct (PyStr.nonempty (category t)), (PyStr.nonempty (due t)); reflexivity.
Qed.

Lemma markers_rows (today : date) (c : Z) (l : list todo) (i : Z) :
  markers (flat_map (fun it => todo_calls today c (fst it) (snd it))
                    (enumerate_from i l))
  = map (fun it => (5 + fst it, if fst it =? c then "-> " else "   "))
        (enumerate_from i l).
Proof.
  revert i. induction l as [|a l IH]; intros i; [reflexivity|].
  cbn [enumerate_from flat_map map fst snd].
  now rewrite markers_todo_calls, IH.
Qed.

Lemma enumerate_from_fst {A : Type} (l : list A) (i y : Z) :
  In y (map fst (enumerate_from i l)) <-> i <= y < i + len l.
Proof.
  revert i. induction l as [|a l IH]; intros i.
  - unfold len. simpl. lia.
  - cbn [enumerate_from map fst In]. rewrite IH. unfold len.
    cbn [List.length]. lia.
Qed.

Lemma enumerate_from_count {A : Type} (l : list A) (i c : Z) :
  List.length (filter (fun it => fst it =? c) (enumerate_from i l))
  = if (i <=? c) && (c <? i + len l) then 1%nat else 0%nat.
Proof.
  revert i. induction l as [|a l IH]; intros i.
  - unfold len. simpl.
    destruct (i <=? c) eqn:E1; [|reflexivity].
    replace (c <? i + 0) with false; [reflexivity|].
    symmetry. apply Z.ltb_ge. apply Z.leb_le in E1. lia.
  - cbn [enumerate_from filter fst]. specialize (IH (i + 1)).
    assert (Hlen : len (a :: l) = len l + 1) by (unfold len; cbn [List.length]; lia).
    rewrite Hlen.
    destruct (i =? c) eqn:E.
    + apply Z.eqb_eq in E. subst c. cbn [List.length]. rewrite IH.
      replace (i + 1 <=? i) with false by (symmetry; apply Z.leb_gt; lia).
      rewrite Z.leb_refl.
      replace (i <? i + (len l + 1)) with true; [reflexivity|].
      symmetry. apply Z.ltb_lt. unfold len. lia.
    + rewrite IH. apply Z.eqb_neq in E.
      destruct (i + 1 <=? c) eqn:E1.
      * apply Z.leb_le in E1.
        replace (i <=? c) with true by (symmetry; apply Z.leb_le; lia).
        now replace (i + 1 + len l) with (i + (len l + 1)) by lia.
      * apply Z.leb_gt in E1. cbn [andb].
        replace (i <=? c) with false; [reflexivity|].
        symmetry. apply Z.leb_gt. lia.
Qed.

Lemma filter_map_marker (c : Z) (l : list (Z * todo)) :
  List.length
    (filter (fun m : Z * string => String.eqb (snd m) "-> ")
            (map (fun it => (5 + fst it, if fst it =? c then "-> " else "   ")) l))
  = List.length (filter (fun it => fst it =? c) l).
Proof.
  induction l as [|a l IH]; [reflexivity|].
  cbn [map filter snd]. destruct (fst a =? c).
  - change (String.eqb "-> " "-> ") with true. cbn [List.length]. now rewrite IH.
  - change (String.eqb "   " "-> ") with false. cbv iota. exact IH.
Qed.

Lemma write_returns (fits : list call -> call -> bool) (cs written out : list call) :
  write fits written cs = Returns out -> out = (written ++ cs)%list.
Proof.
  revert written. induction cs as [|c cs IH]; intros written; cbn [write].
  - intros [= <-]. now rewrite app_nil_r.
  - destruct (fits written c); [|discriminate].
    intros H. apply IH in H. now rewrite <- app_assoc in H.
Qed.

Lemma dashboard_calls_shape (today : date) (maxx : Z) (db : table) (cursor : Z)
  (w : clause) (sub : string) :
  exists head stats bar,
    dashboard_calls today maxx db cursor w sub
    = (head ++ todos_calls today cursor (draw_dashboard db w)
       ++ [addstr_at 18 0 stats A_NORMAL; addstr_at 19 0 bar A_NORMAL])%list
    /\ (head = [] \/ head = [addstr_at 3 0 sub A_BOLD]).
Proof.
  unfold dashboard_calls. destruct (get_stats db w) as [total dn].
  unfold draw_progress_bar. do 3 eexists. split; [reflexivity|].
  destruct (PyStr.nonempty sub); auto.
Qed.

(** X4. Whatever keys [main] has read since it started, when it
    draws a dashboard with tasks listed and curses accepts every
    call of the drawing (the screen is tall and wide enough), the
    rows are written on the lines 5, 6, ... one below the other
    between the subtitle and the statistics, exactly one row carries
    the marker [->], it is the row on line 5 + cursor, and that row
    is the task the [d] and [x] keys act on. *)
Theorem one_marker_on_the_cursor_row parse rnd (fits : list call -> call -> bool)
  (db : table) (keys : list (date * key)) (st : state) (today : date)
  (maxx : Z) (written : list call) :
  main parse rnd keys (initial db) = Returns (Some st) ->
  view st = dashboard ->
  draw_dashboard (con st) (where_clause st) <> [] ->
  write fits [] (dashboard_calls today maxx (con st) (cursor_idx st)
                                 (where_clause st) (subtitle st))
  = Returns written ->
  let todos := draw_dashboard (con st) (where_clause st) in
  exists head rows stats bar,
    written = (head ++ rows ++ [addstr_at 18 0 stats A_NORMAL;
                                addstr_at 19 0 bar A_NORMAL])%list
    /\ (head = [] \/ head = [addstr_at 3 0 (subtitle st) A_BOLD])
    /\ rows = todos_calls today (cursor_idx st) todos
    /\ map fst (markers rows)
       = map (fun k => 5 + Z.of_nat k) (seq 0 (List.length todos))
    /\ List.length (filter (fun m => String.eqb (snd m) "-> ") (markers rows))
       = 1%nat
    /\ In (5 + cursor_idx st, "-> ") (markers rows)
    /\ exists r, py_index todos (cursor_idx st) = Returns r /\ In r todos.
Proof.
  intros Hrun Hv Hne Hw todos.
  apply write_returns in Hw. cbn [app] in Hw.
  destruct (dashboard_calls_shape today maxx (con st) (cursor_idx st)
              (where_clause st) (subtitle st)) as (head & stats & bar & E & Hhead).
  rewrite E in Hw. fold todos in Hw.
  exists head, (todos_calls today (cursor_idx st) todos), stats, bar.
  split; [exact Hw|]. split; [exact Hhead|]. split; [reflexivity|].
  set (ms := markers (todos_calls today (cursor_idx st) todos)).
  assert (Hok : cursor_ok st).
  { apply (main_cursor_ok parse rnd keys (initial db)); auto.
    intros _. now apply cursor_zero_in_bounds. }
  destruct (Hok Hv) as [_ Hb]. specialize (Hb Hne). fold todos in Hb.
  assert (Hms : ms = map (fun it => (5 + fst it,
                                      if fst it =? cursor_idx st then "-> " else "   "))
                         (enumerate_from 0 todos)).
  { unfold ms, todos_calls. destruct todos as [|a l] eqn:Et; [contradiction|].
    cbn [truthy]. apply markers_rows. }
  split; [|split; [|split]].
  - rewrite Hms, map_map. cbn [fst].
    assert (G : forall (l : list todo) i,
               map (fun it : Z * todo => 5 + fst it) (enumerate_from i l)
               = map (fun k => 5 + (i + Z.of_nat k)) (seq 0 (List.length l))).
    { induction l as [|a l IH]; intros i; [reflexivity|].
      cbn [enumerate_from map fst List.length seq]. f_equal; [f_equal; lia|].
      rewrite IH, <- seq_shift, map_map. apply map_ext. intros k. lia. }
    rewrite G. apply map_ext. intros k. lia.
  - rewrite Hms, filter_map_marker, enumerate_from_count.
    replace ((0 <=? cursor_idx st) && (cursor_idx st <? 0 + len todos)) with true;
      [reflexivity|].
    symmetry. apply andb_true_iff. split; [apply Z.leb_le|apply Z.ltb_lt]; lia.
  - rewrite Hms. apply in_map_iff.
    assert (Hin : In (cursor_idx st) (map fst (enumerate_from 0 todos)))
      by (apply enumerate_from_fst; lia).
    apply in_map_iff in Hin. destruct Hin as (it & E' & Hin).
    exists it. split; [|exact Hin]. now rewrite E', Z.eqb_refl.
  - now apply py_index_in_bounds.
Qed.

Lemma call_line_todo_calls (today : date) (c idx y : Z) (t : todo) :
  In (Some y) (map call_line (todo_calls today c idx t)) <-> y = 5 + idx.
Proof.
  unfold todo_calls. cbv zeta.
  destruct (PyStr.nonempty (category t)), (PyStr.nonempty (due t)); cbn;
    split; intros H; try (repeat (destruct H as [H|H]; try discriminate H);
                          try (now injection H); try contradiction);
    left; now rewrite H.
Qed.

Lemma call_line_todos_calls (today : date) (c y : Z) (todos : list todo) :
  todos <> [] ->
  (In (Some y) (map call_line (todos_calls today c todos))
   <-> 5 <= y < 5 + len todos).
Proof.
  intros Hne. unfold todos_calls.
  destruct todos as [|a l] eqn:E; [contradiction|]. cbn [truthy]. rewrite <- E.
  rewrite in_map_iff. split.
  - intros (cl & Hy & Hin). apply in_flat_map in Hin.
    destruct Hin as (it & Hit & Hcl).
    assert (Hy' : In (Some y) (map call_line (todo_calls today c (fst it) (snd it)))).
    { apply in_map_iff. now exists cl. }
    apply call_line_todo_calls in Hy'.
    assert (Hf : In (fst it) (map fst (enumerate_from 0 todos)))
      by (apply in_map; exact Hit).
    apply enumerate_from_fst in Hf. lia.
  - intros Hy.
    assert (Hf : In (y - 5) (map fst (enumerate_from 0 todos)))
      by (apply enumerate_from_fst; lia).
    apply in_map_iff in Hf. destruct Hf as (it & E' & Hit).
    assert (Hy' : In (Some y) (map call_line (todo_calls today c (fst it) (snd it)))).
    { apply call_line_todo_calls. lia. }
    apply in_map_iff in Hy'. destruct Hy' as (cl & Hcl & Hin).
    exists cl. split; [exact Hcl|]. apply in_flat_map. now exists it.
Qed.

(** X5. When curses accepts every call of a drawing,
    [draw_dashboard] writes its rows on the lines 5 to 4 + N and
    then the statistics on line 18 and the progress bar on line 19,
    whatever N is: a row is written on the statistics line, before
    the statistics, exactly when 14 or more tasks are listed, and on
    the line of the bar exactly when 15 or more are. *)
Theorem rows_reach_the_statistics_lines (fits : list call -> call -> bool)
  (today : date) (maxx : Z) (db : table) (cursor : Z) (w : clause) (sub : string)
  (written : list call) :
  write fits [] (dashboard_calls today maxx db cursor w sub) = Returns written ->
  let todos := draw_dashboard db w in
  exists head rows stats bar,
    written = (head ++ rows ++ [addstr_at 18 0 stats A_NORMAL;
                                addstr_at 19 0 bar A_NORMAL])%list
    /\ (head = [] \/ head = [addstr_at 3 0 sub A_BOLD])
    /\ rows = todos_calls today cursor todos
    /\ (forall y, In (Some y) (map call_line rows)
                  <-> 5 <= y < 5 + Z.max 1 (len todos))
    /\ (In (Some 18) (map call_line rows) <-> 14 <= len todos)
    /\ (In (Some 19) (map call_line rows) <-> 15 <= len todos).
Proof.
  intros Hw todos.
  apply write_returns in Hw. cbn [app] in Hw.
  destruct (dashboard_calls_shape today maxx db cursor w sub)
    as (head & stats & bar & E & Hhead).
  rewrite E in Hw. fold todos in Hw.
  exists head, (todos_calls today cursor todos), stats, bar.
  split; [exact Hw|]. split; [exact Hhead|]. split; [reflexivity|].
  set (rows := todos_calls today cursor todos).
  assert (Hlines : forall y, In (Some y) (map call_line rows)
                             <-> 5 <= y < 5 + Z.max 1 (len todos)).
  { intros y. unfold rows. destruct todos as [|a l] eqn:Et.
    - unfold todos_calls, len. cbn. split.
      + intros [H|[]]. injection H as <-. lia.
      + intros H. left. f_equal. lia.
    - rewrite call_line_todos_calls by discriminate.
      unfold len. cbn [List.length]. lia. }
  split; [exact Hlines|split].
  - rewrite Hlines. unfold len. lia.
  - rewrite Hlines. unfold len. lia.
Qed.

(** Twenty tasks on a screen of 24 lines: the row meant for line 24
    is refused and the drawing raises, before any statistics are
    written; a screen that takes every call completes the drawing. *)
Example twenty_rows_on_24_lines_ex :
  exists db,
    run_ops no_parser no_rowid (repeat (op_add today_ex "task" "" "") 20) []
    = Returns db
    /\ len (draw_dashboard db where_none) = 20
    /\ write fits_24_lines [] (dashboard_calls today_ex 80 db 0 where_none "")
       = Raises
    /\ exists written,
         write fits_all [] (dashboard_calls today_ex 80 db 0 where_none "")
         = Returns written.
Proof.
  eexists. split; [vm_compute; reflexivity|]. split; [reflexivity|].
  split; [vm_compute; reflexivity|]. eexists. vm_compute. reflexivity.
Qed.

(** ** The statistics add up *)

Lemma flags01_sql_update (set : todo -> todo) (t : Z) (db : table) :
  (forall r, (done r = 0 \/ done r = 1) /\ (deleted r = 0 \/ deleted r = 1) ->
             (done (set r) = 0 \/ done (set r) = 1)
             /\ (deleted (set r) = 0 \/ deleted (set r) = 1)) ->
  flags01 db -> flags01 (sql_update set t db).
Proof.
  intros Hset H r Hr. apply sql_update_In in Hr. destruct Hr as (r0 & Hr0 & ->).
  destruct (id r0 =? t); [apply Hset|]; now apply H.
Qed.

Lemma run_op_flags01 parse rnd (op : store_op) (db db' : table) :
  flags01 db -> run_op parse rnd op db = Returns db' -> flags01 db'.
Proof.
  intros H. destruct op as [today ti c d|tid|tid]; simpl; intros Hrun.
  - apply add_todo_inv in Hrun. destruct Hrun as (s & n & _ & _ & ->).
    intros r Hr. apply in_app_or in Hr. destruct Hr as [Hr|[<-|[]]]; [now apply H|].
    simpl. auto.
  - apply mark_done_inv in Hrun. destruct Hrun as [_ ->].
    apply flags01_sql_update; auto. simpl. tauto.
  - apply delete_todo_inv in Hrun. destruct Hrun as [_ ->].
    apply flags01_sql_update; auto. simpl. tauto.
Qed.

Lemma run_ops_flags01 parse rnd (ops : list store_op) (db db' : table) :
  flags01 db -> run_ops parse rnd ops db = Returns db' -> flags01 db'.
Proof.
  revert db. induction ops as [|op ops IH]; simpl; intros db H.
  - now intros [= <-].
  - destruct (run_op parse rnd op db) as [db1|] eqn:E; simpl; [|discriminate].
    apply IH. now apply (run_op_flags01 parse rnd op db).
Qed.

Lemma count_split (w : clause) (db : table) :
  flags01 db ->
  sql_count (fun r => (deleted r =? 0) && where_holds w r) db
  = sql_count (fun r => (deleted r =? 0) && (done r =? 0) && where_holds w r) db
    + sql_count (fun r => (done r =? 1) && (deleted r =? 0) && where_holds w r) db.
Proof.
  unfold sql_count. induction db as [|a db IH]; intros H; [reflexivity|].
  assert (Ha : done a = 0 \/ done a = 1) by (apply H; now left).
  assert (H' : flags01 db) by (intros r Hr; apply H; now right).
  specialize (IH H'). cbn [filter].
  destruct (deleted a =? 0), (where_holds w a), Ha as [-> | ->];
    cbn [Z.eqb Pos.eqb andb List.length] in *; lia.
Qed.

Lemma count_le (p q : todo -> bool) (db : table) :
  (forall r, p r = true -> q r = true) ->
  0 <= sql_count p db <= sql_count q db /\ sql_count q db <= len db.
Proof.
  intros Hpq. unfold sql_count, len.
  induction db as [|a db IH]; [simpl; lia|]. cbn [filter].
  destruct (p a) eqn:Ep.
  - rewrite (Hpq a Ep). cbn [List.length]. lia.
  - destruct (q a); cbn [List.length]; lia.
Qed.

Lemma sql_select_length (p : todo -> bool) (db : table) :
  len (sql_select p db) = sql_count p db.
Proof.
  unfold len, sql_count. f_equal. apply Permutation_length, sql_select_perm.
Qed.

(** X6. Start from a table whose flags are all 0 or 1 (the empty
    table is one) and run any add, mark-done and delete calls: the
    flags are still 0 or 1, and for every clause the statistics
    satisfy [0 <= done <= total <= number of rows] and
    [total = rows listed on the dashboard + done]; with no clause,
    [done] is the number of rows of the completed view. *)
Theorem statistics_add_up parse rnd (ops : list store_op) (db db' : table)
  (w : clause) :
  flags01 db ->
  run_ops parse rnd ops db = Returns db' ->
  flags01 db'
  /\ 0 <= snd (get_stats db' w) <= fst (get_stats db' w)
  /\ fst (get_stats db' w) <= len db'
  /\ fst (get_stats db' w) = len (draw_dashboard db' w) + snd (get_stats db' w)
  /\ snd (get_stats db' where_none) = len (draw_completed db').
Proof.
  intros H0 Hrun. pose proof (run_ops_flags01 parse rnd ops db db' H0 Hrun) as H.
  split; [exact H|]. unfold get_stats, draw_dashboard, draw_completed.
  cbn [fst snd]. rewrite !sql_select_length.
  pose proof (count_le
                (fun r => (done r =? 1) && (deleted r =? 0) && where_holds w r)
                (fun r => (deleted r =? 0) && where_holds w r) db') as Hle.
  destruct Hle as [Hle1 Hle2].
  { intros r Hr. apply andb_true_iff in Hr. destruct Hr as [Hr Hw].
    apply andb_true_iff in Hr. destruct Hr as [_ Hd]. now rewrite Hd, Hw. }
  split; [exact Hle1|]. split; [exact Hle2|]. split.
  - now apply count_split.
  - unfold sql_count. f_equal. f_equal. apply filter_ext. intros r.
    cbn [where_holds]. rewrite andb_true_r. apply andb_comm.
Qed.

(** ** What the keys do to the lists *)

Lemma insert_desc_head (r : todo) (rows : list todo) :
  (forall a, In a rows -> id a <= id r) -> insert_desc r rows = r :: rows.
Proof.
  destruct rows as [|b rows]; [reflexivity|]. intros H. cbn [insert_desc].
  replace (id b <=? id r) with true; [reflexivity|].
  symmetry. apply Z.leb_le. apply H. now left.
Qed.

Lemma order_by_id_desc_snoc (rows : list todo) (r : todo) :
  (forall a, In a rows -> id a < id r) ->
  order_by_id_desc (rows ++ [r]) = r :: order_by_id_desc rows.
Proof.
  induction rows as [|a rows IH]; intros H; [reflexivity|].
  cbn [app order_by_id_desc]. rewrite IH by (intros b Hb; apply H; now right).
  cbn [insert_desc].
  replace (id r <=? id a) with false; [reflexivity|].
  symmetry. apply Z.leb_gt. apply H. now left.
Qed.

(** X7. In the dashboard view the [a] key, when the due date typed
    normalises and a rowid is found, appends one row: an identity
    that no row has, the title and category as typed, the due date
    normalised, not done, not deleted.  It clears the filter and
    puts the cursor at 0, and the new task is listed.  While every
    identity of the table is below the largest rowid, the new
    identity is above them all, the new task is the first row of the
    list drawn next, above the rows listed before without filter,
    and the cursor is on it. *)
Theorem added_task_is_first_and_selected parse rnd (today : date) (st st' : state)
  (t c d : string) :
  view st = dashboard ->
  loop_body parse rnd today (key_a t c d) st = Returns (Some st') ->
  exists due_str n,
    parse_due_date parse today d = Returns due_str
    /\ new_rowid rnd (con st) = Returns n
    /\ let r := mktodo n t c due_str 0 0 in
       con st' = (con st ++ [r])%list
       /\ ~ In n (ids (con st))
       /\ view st' = dashboard /\ where_clause st' = where_none
       /\ subtitle st' = "" /\ cursor_idx st' = 0
       /\ In r (draw_dashboard (con st') (where_clause st'))
       /\ (ids_below MAX_ROWID (con st) ->
           (forall a, In a (con st) -> id a < n)
           /\ draw_dashboard (con st') (where_clause st')
              = r :: draw_dashboard (con st) where_none
           /\ py_index (draw_dashboard (con st') (where_clause st'))
                       (cursor_idx st')
              = Returns r).
Proof.
  intros Hv. unfold loop_body. rewrite Hv.
  destruct (add_todo parse rnd today (con st) t c d) as [db'|] eqn:E;
    [|discriminate].
  cbn [bind]. intros [= <-].
  apply add_todo_inv in E. destruct E as (due_str & n & Hp & Hn & ->).
  exists due_str, n. split; [exact Hp|]. split; [exact Hn|].
  cbv zeta. cbn [con view where_clause subtitle cursor_idx].
  set (r := mktodo n t c due_str 0 0).
  split; [reflexivity|]. split; [exact (new_rowid_fresh rnd _ n Hn)|].
  split; [reflexivity|]. split; [reflexivity|]. split; [reflexivity|].
  split; [reflexivity|]. split.
  - unfold draw_dashboard. apply sql_select_In. split; [|reflexivity].
    apply in_or_app. right. now left.
  - intros Hbelow. destruct (new_rowid_next rnd (con st) Hbelow) as (n' & Hn' & Hab & _).
    rewrite Hn in Hn'. injection Hn' as <-.
    assert (Hlist : draw_dashboard (con st ++ [r])%list where_none
                    = r :: draw_dashboard (con st) where_none).
    { unfold draw_dashboard, sql_select.
      rewrite filter_app. cbn [filter where_holds deleted done r Z.eqb andb].
      apply order_by_id_desc_snoc. intros a Ha. apply filter_In in Ha.
      apply Hab. apply in_map. tauto. }
    split; [intros a Ha; apply Hab; now apply in_map|].
    split; [exact Hlist|]. rewrite Hlist. reflexivity.
Qed.

(** At the largest rowid the new task gets a rowid drawn at random:
    here 7, and the task is listed second, below the cursor. *)
Example added_task_below_the_cursor_ex :
  let db := [mktodo MAX_ROWID "Z" "" "" 0 0] in
  exists st',
    loop_body no_parser (fun _ => 7) today_ex (key_a "C" "" "") (initial db)
    = Returns (Some st')
    /\ map title (draw_dashboard (con st') (where_clause st')) = ["Z"; "C"]
    /\ cursor_idx st' = 0.
Proof. eexists. repeat split. Qed.

Lemma insert_desc_filter_out (q : todo -> bool) (a : todo) (rows : list todo) :
  q a = false -> filter q (insert_desc a rows) = filter q rows.
Proof.
  intros Hq. induction rows as [|b rows IH]; cbn [insert_desc filter].
  - now rewrite Hq.
  - destruct (id b <=? id a); cbn [filter]; [now rewrite Hq|].
    now rewrite IH.
Qed.

Lemma insert_desc_filter_in (q : todo -> bool) (a : todo) (rows : list todo) :
  StronglySorted id_desc rows -> q a = true ->
  filter q (insert_desc a rows) = insert_desc a (filter q rows).
Proof.
  intros Hs Hq. induction Hs as [|b rows Hs IH Hb]; cbn [insert_desc filter].
  - now rewrite Hq.
  - destruct (id b <=? id a) eqn:E.
    + cbn [filter]. rewrite Hq. symmetry.
      change (insert_desc a (filter q (b :: rows)) = a :: filter q (b :: rows)).
      apply insert_desc_head. intros x Hx. apply filter_In in Hx.
      destruct Hx as [[<-|Hx] _]; [now apply Z.leb_le|].
      rewrite Forall_forall in Hb. specialize (Hb x Hx). unfold id_desc in Hb.
      apply Z.leb_le in E. lia.
    + cbn [filter]. rewrite IH. destruct (q b); [|reflexivity].
      cbn [insert_desc]. now rewrite E.
Qed.

Lemma order_by_id_desc_filter (q : todo -> bool) (rows : list todo) :
  order_by_id_desc (filter q rows) = filter q (order_by_id_desc rows).
Proof.
  induction rows as [|a rows IH]; [reflexivity|]. cbn [filter order_by_id_desc].
  destruct (q a) eqn:Hq.
  - cbn [order_by_id_desc]. rewrite IH. symmetry.
    apply insert_desc_filter_in; [apply order_by_id_desc_sorted|exact Hq].
  - rewrite IH. symmetry. now apply insert_desc_filter_out.
Qed.

(** After the update the rows of identity [t] are outside [p]: what
    [p] keeps is what it kept before, less the rows of identity [t]. *)
Lemma filter_after_update (p : todo -> bool) (set : todo -> todo) (t : Z)
  (db : table) :
  (forall r, p (set r) = false) ->
  filter p (sql_update set t db) = without t (filter p db).
Proof.
  intros Hset. unfold without, sql_update.
  induction db as [|a db IH]; [reflexivity|]. cbn [map filter].
  destruct (id a =? t) eqn:E.
  - rewrite Hset, IH. destruct (p a); [|reflexivity]. cbn [filter].
    now rewrite E.
  - rewrite IH. destruct (p a); [|reflexivity]. cbn [filter]. now rewrite E.
Qed.

Lemma without_commute (p : todo -> bool) (t : Z) (db : table) :
  without t (filter p db) = filter p (without t db).
Proof.
  unfold without. induction db as [|a db IH]; [reflexivity|]. cbn [filter].
  destruct (p a) eqn:Ep, (id a =? t) eqn:E; cbn [filter negb];
    rewrite ?Ep, ?E; cbn [negb]; now rewrite IH.
Qed.

Lemma sql_select_after_update (p : todo -> bool) (set : todo -> todo) (t : Z)
  (db : table) :
  (forall r, p (set r) = false) ->
  sql_select p (sql_update set t db) = without t (sql_select p db)
  /\ sql_select p (sql_update set t db) = sql_select p (without t db)
  /\ sql_count p (sql_update set t db) = sql_count p (without t db).
Proof.
  intros Hset. unfold sql_select, sql_count.
  rewrite (filter_after_update p set t db Hset). split; [|split].
  - unfold without. apply order_by_id_desc_filter.
  - now rewrite without_commute.
  - now rewrite without_commute.
Qed.

Lemma without_length (t : Z) (rows : list todo) (r : todo) :
  NoDup (ids rows) -> In r rows -> id r = t ->
  len (without t rows) = len rows - 1.
Proof.
  unfold without, len, ids.
  induction rows as [|a rows IH]; intros Hn Hin E; [contradiction|].
  inversion Hn as [|x xs Hnotin Hn']; subst. cbn [filter List.length].
  destruct Hin as [->|Hin].
  - rewrite Z.eqb_refl. cbn [negb].
    assert (Hsame : filter (fun r0 => negb (id r0 =? id r)) rows = rows).
    { rewrite <- (filter_ext_in (fun _ => true)).
      - clear. induction rows as [|b rows IH]; [reflexivity|]. cbn. now rewrite IH.
      - intros b Hb. symmetry. apply negb_true_iff, Z.eqb_neq. intros Heq.
        apply Hnotin. rewrite <- Heq. now apply in_map. }
    rewrite Hsame. lia.
  - assert (Hne : id a <> id r).
    { intros Heq. apply Hnotin. rewrite Heq. now apply in_map. }
    apply Z.eqb_neq in Hne. rewrite Hne. cbn [negb List.length].
    specialize (IH Hn' Hin eq_refl). lia.
Qed.

Lemma listed_ids_nodup (p : todo -> bool) (db : table) :
  primary_key db -> NoDup (ids (sql_select p db)).
Proof.
  intros Hpk. apply (Permutation_NoDup (l := ids (filter p db))).
  - unfold ids. apply Permutation_map. symmetry. apply sql_select_perm.
  - now apply nodup_ids_filter.
Qed.

(** X8. In the dashboard view of a table of SQLite, with the cursor
    on a listed row, the [d] key marks the task under the cursor done
    and puts the cursor back to 0.  For every clause the dashboard
    then lists what it listed before, in the same order, less that
    task; under the primary key that is exactly one row less, and the
    completed view gains exactly that task, now done. *)
Theorem done_key_moves_the_selected_task parse rnd (today : date) (st : state) :
  view st = dashboard ->
  rowids (con st) ->
  0 <= cursor_idx st < len (draw_dashboard (con st) (where_clause st)) ->
  exists r db',
    py_index (draw_dashboard (con st) (where_clause st)) (cursor_idx st)
    = Returns r
    /\ In r (draw_dashboard (con st) (where_clause st))
    /\ mark_done (con st) (id r) = Returns db'
    /\ loop_body parse rnd today key_d st
       = Returns (Some (mkstate dashboard 0 (where_clause st) (subtitle st) db'))
    /\ (forall w, draw_dashboard db' w
                  = without (id r) (draw_dashboard (con st) w))
    /\ (primary_key (con st) ->
        len (draw_dashboard db' (where_clause st))
        = len (draw_dashboard (con st) (where_clause st)) - 1
        /\ (forall x, In x (draw_completed db')
                      <-> x = set_done r \/ In x (draw_completed (con st)))).
Proof.
  intros Hv Hrow Hb.
  destruct (py_index_in_bounds _ _ Hb) as (r & Hidx & Hin).
  exists r, (sql_update set_done (id r) (con st)).
  split; [exact Hidx|]. split; [exact Hin|].
  assert (Hmd : mark_done (con st) (id r)
                = Returns (sql_update set_done (id r) (con st))).
  { apply mark_done_returns. apply Hrow. now apply (listed_In _ (where_clause st)). }
  split; [exact Hmd|].
  assert (Hlist : forall w, draw_dashboard (sql_update set_done (id r) (con st)) w
                            = without (id r) (draw_dashboard (con st) w)).
  { intros w. unfold draw_dashboard.
    apply sql_select_after_update. intros x. cbn [set_done done deleted].
    now rewrite andb_false_r. }
  split; [|split; [exact Hlist|]].
  - unfold loop_body. rewrite Hv.
    assert (Ht : truthy (draw_dashboard (con st) (where_clause st)) = true)
      by (apply truthy_len; lia).
    rewrite Ht, Hidx. cbn [bind]. rewrite Hmd. reflexivity.
  - intros Hpk. split.
    + rewrite Hlist. apply (without_length _ _ r); auto.
      now apply listed_ids_nodup.
    + pose proof Hin as Hr. unfold draw_dashboard in Hr.
      apply sql_select_In in Hr. destruct Hr as [Hr Hp].
      apply active_cond in Hp. destruct Hp as (Hdel & Hdn & _).
      intros x. unfold draw_completed.
      rewrite !sql_select_In, !completed_cond, sql_update_In. split.
      * intros ((r0 & Hr0 & ->) & Hx).
        destruct (id r0 =? id r) eqn:E.
        -- apply Z.eqb_eq in E. left. f_equal.
           assert (Hall : forall a b, In a (con st) -> In b (con st) ->
                                      id a = id b -> a = b).
           { clear - Hpk. unfold primary_key, ids in Hpk.
             induction (con st) as [|c l IH]; intros a b Ha Hb E; [contradiction|].
             inversion Hpk as [|y ys Hnotin Hn]; subst.
             destruct Ha as [->|Ha], Hb as [->|Hb]; auto.
             - exfalso. apply Hnotin. rewrite E. now apply in_map.
             - exfalso. apply Hnotin. rewrite <- E. now apply in_map. }
           now apply Hall.
        -- right. tauto.
      * intros [->|[Hx Hc]].
        -- split; [|cbn; tauto]. exists r. now rewrite Z.eqb_refl.
        -- split; [|exact Hc]. exists x. split; [exact Hx|].
           destruct (id x =? id r) eqn:E; [|reflexivity].
           apply Z.eqb_eq in E. exfalso.
           assert (x = r).
           { clear - Hpk Hx Hr E. unfold primary_key, ids in Hpk.
             induction (con st) as [|c l IH]; [contradiction|].
             inversion Hpk as [|y ys Hnotin Hn]; subst.
             destruct Hx as [->|Hx], Hr as [->|Hr]; auto.
             - exfalso. apply Hnotin. rewrite E. now apply in_map.
             - exfalso. apply Hnotin. rewrite <- E. now apply in_map. }
           subst x. lia.
Qed.

(** X9. In the dashboard view of a table of SQLite, with the cursor
    on a listed row, the [x] key marks the task under the cursor
    deleted and puts the cursor back to 0.  From then on every query
    answers as if the rows of that identity had been removed from
    the table: the dashboard for every clause, the completed view
    and the statistics; under the primary key the dashboard lists
    exactly one row less and the total is one less. *)
Theorem delete_key_removes_the_selected_task parse rnd (today : date)
  (st : state) :
  view st = dashboard ->
  rowids (con st) ->
  0 <= cursor_idx st < len (draw_dashboard (con st) (where_clause st)) ->
  exists r db',
    py_index (draw_dashboard (con st) (where_clause st)) (cursor_idx st)
    = Returns r
    /\ In r (draw_dashboard (con st) (where_clause st))
    /\ delete_todo (con st) (id r) = Returns db'
    /\ loop_body parse rnd today key_x st
       = Returns (Some (mkstate dashboard 0 (where_clause st) (subtitle st) db'))
    /\ (forall w, draw_dashboard db' w
                  = without (id r) (draw_dashboard (con st) w)
                  /\ draw_dashboard db' w
                     = draw_dashboard (without (id r) (con st)) w
                  /\ get_stats db' w = get_stats (without (id r) (con st)) w)
    /\ draw_completed db' = draw_completed (without (id r) (con st))
    /\ (primary_key (con st) ->
        len (draw_dashboard db' (where_clause st))
        = len (draw_dashboard (con st) (where_clause st)) - 1
        /\ fst (get_stats db' (where_clause st))
           = fst (get_stats (con st) (where_clause st)) - 1).
Proof.
  intros Hv Hrow Hb.
  destruct (py_index_in_bounds _ _ Hb) as (r & Hidx & Hin).
  exists r, (sql_update set_deleted (id r) (con st)).
  split; [exact Hidx|]. split; [exact Hin|].
  assert (Hmd : delete_todo (con st) (id r)
                = Returns (sql_update set_deleted (id r) (con st))).
  { apply delete_todo_returns. apply Hrow. now apply (listed_In _ (where_clause st)). }
  split; [exact Hmd|].
  assert (Hsel : forall p, (forall x, deleted x <> 0 -> p x = false) ->
                 sql_select p (sql_update set_deleted (id r) (con st))
                 = without (id r) (sql_select p (con st))
                 /\ sql_select p (sql_update set_deleted (id r) (con st))
                    = sql_select p (without (id r) (con st))
                 /\ sql_count p (sql_update set_deleted (id r) (con st))
                    = sql_count p (without (id r) (con st))).
  { intros p Hp. apply sql_select_after_update. intros x. apply Hp.
    cbn. discriminate. }
  split; [|split; [|split]].
  - unfold loop_body. rewrite Hv.
    assert (Ht : truthy (draw_dashboard (con st) (where_clause st)) = true)
      by (apply truthy_len; lia).
    rewrite Ht, Hidx. cbn [bind]. rewrite Hmd. reflexivity.
  - intros w. unfold draw_dashboard, get_stats.
    destruct (Hsel _ (active_hides w)) as (H1 & H2 & _).
    destruct (Hsel _ (stats_total_hides w)) as (_ & _ & H3).
    destruct (Hsel _ (stats_done_hides w)) as (_ & _ & H4).
    now rewrite H3, H4.
  - unfold draw_completed. now destruct (Hsel _ completed_hides) as (_ & H2 & _).
  - intros Hpk.
    destruct (Hsel _ (active_hides (where_clause st))) as (H1 & _ & _).
    split.
    + unfold draw_dashboard at 1. rewrite H1.
      apply (without_length _ _ r); auto. now apply listed_ids_nodup.
    + unfold get_stats. cbn [fst].
      destruct (Hsel _ (stats_total_hides (where_clause st))) as (H3 & _ & _).
      rewrite <- !sql_select_length, H3.
      apply (without_length _ _ r); auto; [now apply listed_ids_nodup|].
      unfold draw_dashboard in Hin. apply sql_select_In in Hin.
      destruct Hin as [Hr Hp]. apply active_cond in Hp.
      destruct Hp as (Hdel & _ & Hw). apply sql_select_In. split; [exact Hr|].
      rewrite Hdel, Hw. reflexivity.
Qed.

(** X10. In the dashboard view the [f] key with an empty tag
    leaves the whole state as it was.  With a tag that is not empty
    it sets the clause to [category=tag], the subtitle to
    [Filtered by #tag] and the cursor to 0; the dashboard then lists
    exactly the rows with [deleted = 0] and [done = 0] whose category
    is the tag, character for character.  A search typed next
    replaces the filter: it lists the tasks of every category whose
    title matches the pattern in the sense of [LIKE] (the pattern
    being within the 50000 bytes that SQLite accepts). *)
Theorem filter_key_lists_the_category parse rnd (today : date) (st : state)
  (cat q : string) :
  view st = dashboard ->
  loop_body parse rnd today (key_f "") st = Returns (Some st)
  /\ (cat <> "" ->
      let st' := mkstate dashboard 0 (where_category cat)
                         ("Filtered by #" ++ cat) (con st) in
      loop_body parse rnd today (key_f cat) st = Returns (Some st')
      /\ (forall r, In r (draw_dashboard (con st') (where_clause st'))
                    <-> In r (con st) /\ deleted r = 0 /\ done r = 0
                        /\ category r = cat)
      /\ (q <> "" ->
          exists st'',
            loop_body parse rnd today (key_slash q) st' = Returns (Some st'')
            /\ (like_pattern_ok ("%" ++ q ++ "%") ->
                forall r, In r (draw_dashboard (con st'') (where_clause st''))
                          <-> In r (con st) /\ deleted r = 0 /\ done r = 0
                              /\ like_match (c_str ("%" ++ q ++ "%"))
                                            (c_str (title r))))).
Proof.
  intros Hv. split; [unfold loop_body; now rewrite Hv|].
  intros Hcat st'. split; [|split].
  - unfold loop_body. rewrite Hv. destruct cat; [contradiction|reflexivity].
  - intros r. unfold draw_dashboard. rewrite sql_select_In, active_cond.
    cbn [con where_clause st' where_holds]. rewrite String.eqb_eq. reflexivity.
  - intros Hq. eexists. split.
    + unfold loop_body. cbn [view st']. destruct q; [contradiction|reflexivity].
    + intros _ r. unfold draw_dashboard. rewrite sql_select_In, active_cond.
      cbn [con where_clause where_holds]. rewrite sql_like_match. reflexivity.
Qed.

(** X11. The completed view writes nothing to the store and raises
    nothing: [q] ends the loop, [b] goes back to the dashboard with
    the cursor at 0 and the clause and subtitle as they were, and
    every other key leaves the whole state as it was.  So from the
    dashboard, [c] and then [b] change nothing but the cursor, which
    is 0. *)
Theorem completed_view_is_read_only parse rnd (today : date) (st : state)
  (ch : key) :
  (view st = completed ->
   (ch = key_q /\ loop_body parse rnd today ch st = Returns None)
   \/ (ch = key_b
       /\ loop_body parse rnd today ch st
          = Returns (Some (mkstate dashboard 0 (where_clause st) (subtitle st)
                                   (con st))))
   \/ (ch <> key_q /\ ch <> key_b
       /\ loop_body parse rnd today ch st = Returns (Some st)))
  /\ (view st = dashboard ->
      exists st1,
        loop_body parse rnd today key_c st = Returns (Some st1)
        /\ view st1 = completed
        /\ loop_body parse rnd today key_b st1
           = Returns (Some (mkstate dashboard 0 (where_clause st) (subtitle st)
                                    (con st)))).
Proof.
  split; intros Hv.
  - unfold loop_body. rewrite Hv.
    destruct ch;
      first [ left; split; reflexivity
            | right; left; split; reflexivity
            | right; right; split; [discriminate|split; [discriminate|reflexivity]] ].
  - eexists. split; [unfold loop_body; rewrite Hv; reflexivity|].
    split; reflexivity.
Qed.

(** ** The history of the table *)

Lemma row_evolves_refl (r : todo) : row_evolves r r.
Proof. unfold row_evolves. auto. Qed.

Lemma row_evolves_trans (a b c : todo) :
  row_evolves a b -> row_evolves b c -> row_evolves a c.
Proof.
  unfold row_evolves. intros (H1 & H2 & H3) (H4 & H5 & H6).
  split; [congruence|]. split.
  - destruct H5 as [->| ->]; auto.
  - destruct H6 as [->| ->]; auto.
Qed.

Lemma Forall2_row_evolves_refl (db : table) : Forall2 row_evolves db db.
Proof. induction db; constructor; auto using row_evolves_refl. Qed.

Lemma Forall2_row_evolves_trans (a b c : table) :
  Forall2 row_evolves a b -> Forall2 row_evolves b c -> Forall2 row_evolves a c.
Proof.
  intros H. revert c. induction H as [|x y a b Hxy Hab IH]; intros c Hc.
  - inversion Hc. constructor.
  - inversion Hc as [|y' z b' c' Hyz Hbc]; subst. constructor.
    + now apply (row_evolves_trans x y z).
    + now apply IH.
Qed.

Lemma table_evolves_refl (db : table) : table_evolves db db.
Proof.
  exists db, []. split; [now rewrite app_nil_r|apply Forall2_row_evolves_refl].
Qed.

Lemma table_evolves_trans (a b c : table) :
  table_evolves a b -> table_evolves b c -> table_evolves a c.
Proof.
  intros (old & added & -> & H1) (old' & added' & -> & H2).
  apply Forall2_app_inv_l in H2. destruct H2 as (l1 & l2 & H3 & H4 & ->).
  exists l1, (l2 ++ added')%list. split; [now rewrite app_assoc|].
  now apply (Forall2_row_evolves_trans a old l1).
Qed.

Lemma sql_update_evolves (set : todo -> todo) (t : Z) (db : table) :
  (forall r, row_evolves r (set r)) -> table_evolves db (sql_update set t db).
Proof.
  intros Hset. exists (sql_update set t db), []. split; [now rewrite app_nil_r|].
  unfold sql_update. induction db as [|a db IH]; cbn [map]; constructor; auto.
  destruct (id a =? t); [apply Hset|apply row_evolves_refl].
Qed.

Lemma set_done_evolves (r : todo) : row_evolves r (set_done r).
Proof. unfold row_evolves. cbn. auto. Qed.

Lemma set_deleted_evolves (r : todo) : row_evolves r (set_deleted r).
Proof. unfold row_evolves. cbn. auto. Qed.

Lemma add_todo_evolves parse rnd (today : date) (db db' : table) (t c d : string) :
  add_todo parse rnd today db t c d = Returns db' -> table_evolves db db'.
Proof.
  intros H. apply add_todo_inv in H. destruct H as (s & n & _ & _ & ->).
  eexists db, _. split; [reflexivity|].
  apply Forall2_row_evolves_refl.
Qed.

Lemma loop_body_evolves parse rnd (today : date) (ch : key) (st st' : state) :
  loop_body parse rnd today ch st = Returns (Some st') ->
  table_evolves (con st) (con st').
Proof.
  unfold loop_body. destruct (view st).
  - set (todos := draw_dashboard (con st) (where_clause st)).
    destruct ch; try (intros [= <-]; apply table_evolves_refl); try discriminate.
    + destruct (truthy todos); intros [= <-]; apply table_evolves_refl.
    + destruct (truthy todos); intros [= <-]; apply table_evolves_refl.
    + destruct (add_todo parse rnd today (con st) title0 category0 due0) eqn:E;
        simpl; [|discriminate].
      intros [= <-]. cbn [con]. now apply (add_todo_evolves parse rnd today _ _ _ _ _ E).
    + destruct (truthy todos); [|intros [= <-]; apply table_evolves_refl].
      destruct (py_index todos (cursor_idx st)) as [r|]; simpl; [|discriminate].
      destruct (mark_done (con st) (id r)) eqn:E; simpl; [|discriminate].
      intros [= <-]. apply mark_done_inv in E. destruct E as [_ ->].
      apply sql_update_evolves, set_done_evolves.
    + destruct (truthy todos); [|intros [= <-]; apply table_evolves_refl].
      destruct (py_index todos (cursor_idx st)) as [r|]; simpl; [|discriminate].
      destruct (delete_todo (con st) (id r)) eqn:E; simpl; [|discriminate].
      intros [= <-]. apply delete_todo_inv in E. destruct E as [_ ->].
      apply sql_update_evolves, set_deleted_evolves.
    + destruct (PyStr.nonempty cat); intros [= <-]; apply table_evolves_refl.
    + destruct (PyStr.nonempty query); intros [= <-]; apply table_evolves_refl.
  - destruct ch; try (intros [= <-]; apply table_evolves_refl); discriminate.
Qed.

Lemma main_evolves parse rnd (keys : list (date * key)) (st st' : state) :
  main parse rnd keys st = Returns (Some st') -> table_evolves (con st) (con st').
Proof.
  revert st. induction keys as [|[today ch] keys IH]; simpl; intros st.
  - intros [= <-]. apply table_evolves_refl.
  - destruct (loop_body parse rnd today ch st) as [[st1|]|] eqn:E; try discriminate.
    intros H. apply (table_evolves_trans _ (con st1)).
    + now apply (loop_body_evolves parse rnd today ch).
    + now apply IH.
Qed.

Lemma Forall2_row_evolves_ids (a b : table) :
  Forall2 row_evolves a b -> ids a = ids b /\ List.length a = List.length b.
Proof.
  induction 1 as [|x y a b (Hc & _) Hab [IH1 IH2]]; [auto|].
  unfold core in Hc. injection Hc as Hid _ _ _. unfold ids in *.
  cbn [map List.length]. now rewrite Hid, IH1, IH2.
Qed.

(** X12. Whatever keys [main] reads, the table only grows and
    ages: the rows it had are still there, in place, each with the
    identity, title, category and due date it had and each flag as
    it was or set to 1; new rows come after them.  No row is ever
    removed, reordered, renamed, un-done or un-deleted. *)
Theorem table_only_grows_and_ages parse rnd (keys : list (date * key))
  (st st' : state) :
  main parse rnd keys st = Returns (Some st') ->
  exists old added,
    con st' = (old ++ added)%list
    /\ Forall2 (fun r r' =>
                  id r' = id r /\ title r' = title r
                  /\ category r' = category r /\ due r' = due r
                  /\ (done r' = done r \/ done r' = 1)
                  /\ (deleted r' = deleted r \/ deleted r' = 1))
               (con st) old
    /\ ids (con st') = (ids (con st) ++ ids added)%list
    /\ len (con st) <= len (con st').
Proof.
  intros H. destruct (main_evolves parse rnd keys st st' H) as (old & added & E & F).
  exists old, added. split; [exact E|].
  destruct (Forall2_row_evolves_ids _ _ F) as [Hids Hlen].
  split; [|split].
  - clear - F. induction F as [|x y a b (Hc & H1 & H2) Hab IH]; constructor; auto.
    unfold core in Hc. injection Hc as -> -> -> ->. tauto.
  - rewrite E. unfold ids in *. now rewrite map_app, Hids.
  - rewrite E. unfold len. rewrite length_app, Hlen. lia.
Qed.

(** ** Identities *)

Lemma ids_increasing_snoc (db : table) (r : todo) :
  ids_increasing db -> ids_below (id r) db -> ids_increasing (db ++ [r])%list.
Proof.
  unfold ids_increasing, ids_below, ids. rewrite map_app. cbn [map].
  generalize (map id db) (id r). intros l n H Hn.
  induction H as [|a l Hs IH Ha]; cbn [app].
  - repeat constructor.
  - constructor.
    + apply IH. intros b Hb. apply Hn. now right.
    + apply Forall_app. split; [exact Ha|]. constructor; [|constructor].
      apply Hn. now left.
Qed.

Lemma ids_increasing_nodup (db : table) : ids_increasing db -> primary_key db.
Proof.
  unfold ids_increasing, primary_key.
  induction 1 as [|a l Hs IH Ha]; constructor; auto.
  intros Hin. rewrite Forall_forall in Ha. specialize (Ha a Hin). lia.
Qed.

(** One turn of the loop with room for [k + 1] more rows leaves the
    ids increasing, with room for [k] more. *)
Lemma loop_body_ids_increasing parse rnd (today : date) (ch : key) (st st' : state)
  (k : Z) :
  0 <= k -> k + 1 < MAX_ROWID ->
  loop_body parse rnd today ch st = Returns (Some st') ->
  ids_increasing (con st) /\ ids_below (MAX_ROWID - (k + 1)) (con st) ->
  ids_increasing (con st') /\ ids_below (MAX_ROWID - k) (con st').
Proof.
  intros Hk Hroom Hrun [Hinc Hbelow].
  assert (Hsame : ids (con st') = ids (con st) ->
                  ids_increasing (con st') /\ ids_below (MAX_ROWID - k) (con st')).
  { intros E. unfold ids_increasing, ids_below. rewrite E. split; [exact Hinc|].
    intros i Hi. specialize (Hbelow i Hi). lia. }
  revert Hrun. unfold loop_body. destruct (view st).
  - set (todos := draw_dashboard (con st) (where_clause st)).
    destruct ch; try (intros [= <-]; now apply Hsame); try discriminate.
    + destruct (truthy todos); intros [= <-]; now apply Hsame.
    + destruct (truthy todos); intros [= <-]; now apply Hsame.
    + destruct (add_todo parse rnd today (con st) title0 category0 due0) eqn:E;
        cbn [bind]; [|discriminate].
      intros [= <-]. cbn [con]. apply add_todo_inv in E.
      destruct E as (s & n & _ & Hn & ->).
      destruct (new_rowid_next rnd (con st)) as (n' & Hn' & Hab & Hleast).
      { intros i Hi. specialize (Hbelow i Hi). lia. }
      rewrite Hn in Hn'. injection Hn' as <-.
      specialize (Hleast (MAX_ROWID - (k + 1)) Hbelow ltac:(lia)).
      split.
      * now apply ids_increasing_snoc.
      * intros i Hi. unfold ids in Hi. rewrite map_app in Hi.
        apply in_app_or in Hi. destruct Hi as [Hi|[<-|[]]].
        -- specialize (Hbelow i Hi). lia.
        -- cbn [id]. lia.
    + destruct (truthy todos); [|intros [= <-]; now apply Hsame].
      destruct (py_index todos (cursor_idx st)) as [r|]; cbn [bind]; [|discriminate].
      destruct (mark_done (con st) (id r)) eqn:E; cbn [bind]; [|discriminate].
      intros [= <-]. apply mark_done_inv in E. destruct E as [_ ->].
      apply Hsame. cbn [con]. now apply sql_update_ids.
    + destruct (truthy todos); [|intros [= <-]; now apply Hsame].
      destruct (py_index todos (cursor_idx st)) as [r|]; cbn [bind]; [|discriminate].
      destruct (delete_todo (con st) (id r)) eqn:E; cbn [bind]; [|discriminate].
      intros [= <-]. apply delete_todo_inv in E. destruct E as [_ ->].
      apply Hsame. cbn [con]. now apply sql_update_ids.
    + destruct (PyStr.nonempty cat); intros [= <-]; now apply Hsame.
    + destruct (PyStr.nonempty query); intros [= <-]; now apply Hsame.
  - destruct ch; try (intros [= <-]; now apply Hsame); discriminate.
Qed.

(** X13. While there is room below the largest rowid, identities are
    handed out in increasing order and never again: if the
    identities of the table grow with the order of insertion when
    [main] starts (as in the empty table) and the largest is more
    than the number of keys below [MAX_ROWID], they still grow with
    the order of insertion after these keys, so no two rows share an
    identity, and every row added since has an identity above all
    those the table had at the start, deleted rows included. *)
Theorem identities_increase_and_are_never_reused parse rnd
  (keys : list (date * key)) (st st' : state) :
  ids_increasing (con st) ->
  len keys < MAX_ROWID ->
  ids_below (MAX_ROWID - len keys) (con st) ->
  main parse rnd keys st = Returns (Some st') ->
  ids_increasing (con st')
  /\ primary_key (con st')
  /\ exists new_ids,
       ids (con st') = (ids (con st) ++ new_ids)%list
       /\ forall a b, In a (ids (con st)) -> In b new_ids -> a < b.
Proof.
  intros Hinc Hlen Hbelow Hrun.
  assert (Hinc' : ids_increasing (con st')).
  { revert st Hinc Hlen Hbelow Hrun.
    induction keys as [|[today ch] keys IH]; intros st Hinc Hlen Hbelow.
    - now intros [= <-].
    - cbn [main].
      destruct (loop_body parse rnd today ch st) as [[st1|]|] eqn:E; try discriminate.
      assert (Hl : len ((today, ch) :: keys) = len keys + 1)
        by (unfold len; cbn [List.length]; lia).
      rewrite Hl in Hlen, Hbelow.
      assert (Hk : 0 <= len keys) by (unfold len; lia).
      destruct (loop_body_ids_increasing parse rnd today ch st st1 (len keys)
                  Hk Hlen E (conj Hinc Hbelow)) as [Hinc1 Hbelow1].
      apply IH; auto. lia. }
  split; [exact Hinc'|]. split; [now apply ids_increasing_nodup|].
  destruct (main_evolves parse rnd keys st st' Hrun) as (old & added & E & F).
  destruct (Forall2_row_evolves_ids _ _ F) as [Hids _].
  exists (ids added). split.
  - rewrite E. unfold ids in *. now rewrite map_app, Hids.
  - intros a b Ha Hb. unfold ids_increasing in Hinc'. rewrite E in Hinc'.
    unfold ids in *. rewrite map_app, <- Hids in Hinc'.
    clear - Hinc' Ha Hb. induction (map id (con st)) as [|x l IH]; [contradiction|].
    cbn [app] in Hinc'. inversion Hinc' as [|y ys Hs Hall]; subst.
    destruct Ha as [->|Ha]; [|now apply IH].
    rewrite Forall_forall in Hall. apply Hall. apply in_or_app. now right.
Qed.

(** ** Weeks are seven days *)

Lemma parse_due_date_plus_unfold parse (today : date) (s ds : string)
  (c : ascii) :
  PyStr.nonempty ds = true ->
  PyStr.all_chars PyStr.isdecimal_char ds = true ->
  Z.of_nat (String.length ds) <= PyStr.int_max_str_digits ->
  PyStr.lower (PyStr.strip s) = "+" ++ ds ++ String c "" ->
  c = "d"%char \/ c = "w"%char ->
  parse_due_date parse today s
  = (td <- (if Ascii.eqb c "d" then timedelta (PyStr.int_acc 0 ds) 0
            else timedelta 0 (PyStr.int_acc 0 ds)) ;;
     d <- PyDate.add today td ;; Returns (isoformat d)).
Proof.
  intros Hne Hdec Hlen Ht Hc.
  destruct (shortcut_shape ds c Hne Hdec) as (H1 & H2 & H3 & H4 & H5).
  apply Z.leb_le in Hlen. rewrite Hlen in H5.
  unfold parse_due_date. cbv zeta. rewrite Ht, H1, H2, !H3, H4, H5.
  change (String.eqb ("+" ++ ds ++ String c "") "today") with false.
  change (String.eqb ("+" ++ ds ++ String c "") "tomorrow") with false.
  cbn [negb andb bind].
  destruct Hc as [-> | ->]; reflexivity.
Qed.

(** X15. "+" digits "w" is "+" digits "d" with seven times the
    number, both written with at most 4300 digits: the two inputs
    give the same outcome on every day, the same date when there is
    one and an exception alike when the date is out of range. *)
Theorem weeks_are_seven_days parse (today : date) (s1 s2 ds1 ds2 : string) :
  PyStr.nonempty ds1 = true -> PyStr.all_chars PyStr.isdecimal_char ds1 = true ->
  PyStr.nonempty ds2 = true -> PyStr.all_chars PyStr.isdecimal_char ds2 = true ->
  Z.of_nat (String.length ds1) <= 4300 ->
  Z.of_nat (String.length ds2) <= 4300 ->
  PyStr.lower (PyStr.strip s1) = "+" ++ ds1 ++ "w" ->
  PyStr.lower (PyStr.strip s2) = "+" ++ ds2 ++ "d" ->
  PyStr.int_acc 0 ds2 = 7 * PyStr.int_acc 0 ds1 ->
  parse_due_date parse today s1 = parse_due_date parse today s2.
Proof.
  intros Hn1 Hd1 Hn2 Hd2 Hl1 Hl2 E1 E2 Hval.
  rewrite (parse_due_date_plus_unfold parse today s1 ds1 "w" Hn1 Hd1 Hl1 E1
             (or_intror eq_refl)).
  rewrite (parse_due_date_plus_unfold parse today s2 ds2 "d" Hn2 Hd2 Hl2 E2
             (or_introl eq_refl)).
  cbn [Ascii.eqb Bool.eqb]. unfold timedelta. cbv zeta. rewrite Hval.
  now replace (7 * PyStr.int_acc 0 ds1 + 7 * 0) with (0 + 7 * PyStr.int_acc 0 ds1)
    by lia.
Qed.

(** ** The percentage and the bar, on the screens and lists there are *)

Lemma progress_checked :
  forall_from 200 1 (fun t => forall_from (Z.to_nat t + 1) 0 (progress_ok t)) = true.
Proof. vm_compute. reflexivity. Qed.

Lemma progress_spec (total dn : Z) :
  1 <= total <= 200 -> 0 <= dn <= total -> progress_ok total dn = true.
Proof.
  intros Ht Hd.
  pose proof (forall_from_spec _ _ _ progress_checked total) as H.
  cbv beta in H. apply (forall_from_spec _ _ _ (H ltac:(simpl; lia))). lia.
Qed.

(** X16. While at most 200 tasks are counted, the percentage the
    dashboard prints is between 0 and 100, is the floor of
    [100 * done / total] or one less, and is 100 exactly when there
    are tasks and all of them are done; with nothing to count it is
    0. *)
Theorem progress_is_within_one_of_the_floor (db : table) (w : clause) :
  fst (get_stats db w) <= 200 ->
  let total := fst (get_stats db w) in
  let dn := snd (get_stats db w) in
  let p := dashboard_progress db w in
  0 <= p <= 100
  /\ (total = 0 -> p = 0)
  /\ (0 < total -> 100 * dn / total - 1 <= p <= 100 * dn / total)
  /\ (p = 100 <-> 0 < total /\ dn = total).
Proof.
  intros Hmax total dn p.
  assert (Hb : 0 <= dn <= total).
  { unfold dn, total, get_stats. cbn [fst snd].
    apply (count_le
             (fun r => (done r =? 1) && (deleted r =? 0) && where_holds w r)
             (fun r => (deleted r =? 0) && where_holds w r) db).
    intros r Hr. apply andb_true_iff in Hr. destruct Hr as [Hr Hw].
    apply andb_true_iff in Hr. destruct Hr as [_ Hd]. now rewrite Hd, Hw. }
  assert (Hp : p = progress_of total dn).
  { unfold p, dashboard_progress, total, dn. now destruct (get_stats db w). }
  destruct (Z.eq_dec total 0) as [E0|Hne].
  - assert (p = 0) by (rewrite Hp, E0; reflexivity).
    repeat split; try lia.
  - pose proof (progress_spec total dn ltac:(fold total in Hmax; lia) Hb) as Hok.
    unfold progress_ok in Hok. cbv zeta in Hok. rewrite <- Hp in Hok.
    rewrite !andb_true_iff, !Z.leb_le in Hok.
    destruct Hok as [[[[H1 H2] H3] H4] H5]. apply eqb_prop in H5.
    split; [lia|]. split; [lia|]. split; [lia|]. split.
    + intros E. split; [lia|]. apply Z.eqb_eq in E. rewrite E in H5.
      symmetry in H5. now apply Z.eqb_eq in H5.
    + intros [_ E]. apply Z.eqb_eq in E. rewrite E in H5. now apply Z.eqb_eq.
Qed.

Lemma bar_checked :
  forall_from 308 (-7) (fun wd => forall_from 101 0 (bar_ok wd)) = true.
Proof. vm_compute. reflexivity. Qed.

Lemma bar_spec (width percent : Z) :
  -7 <= width <= 300 -> 0 <= percent <= 100 -> bar_ok width percent = true.
Proof.
  intros Hw Hp.
  pose proof (forall_from_spec _ _ _ bar_checked width) as H.
  cbv beta in H. apply (forall_from_spec _ _ _ (H ltac:(simpl; lia))).
  simpl. lia.
Qed.

Lemma length_append (a b : string) :
  String.length (a ++ b) = (String.length a + String.length b)%nat.
Proof. induction a as [|c a IH]; cbn; [reflexivity|now rewrite IH]. Qed.

Lemma str_mul_length (c : ascii) (n : Z) :
  Z.of_nat (String.length (str_mul (String c "") n)) = Z.max 0 n.
Proof.
  unfold str_mul.
  assert (H : forall k, String.length (String.concat "" (repeat (String c "") k)) = k).
  { induction k as [|k IH]; [reflexivity|]. cbn [repeat String.concat].
    destruct (repeat (String c "") k) eqn:E.
    - destruct k; [reflexivity|discriminate].
    - rewrite !length_append. cbn [String.length]. rewrite IH. lia. }
  rewrite H. lia.
Qed.

(** X17. On a screen of 0 to 307 columns and for a percentage from
    0 to 100, the progress bar has [max(0, columns - 7)] cells: the
    filled ones never outnumber them, they are the floor of
    [percent * cells / 100] or one less, and all cells are filled at
    100.  The text written is those cells between brackets and the
    percentage, [cells + 4] characters and the digits. *)
Theorem progress_bar_fits_its_width (percent maxx : Z) :
  0 <= maxx <= 307 -> 0 <= percent <= 100 ->
  let width := maxx - 7 in
  let cells := Z.max 0 width in
  let filled := Z.max 0 (bar_filled percent width) in
  0 <= filled <= cells
  /\ (0 <= width ->
      filled = bar_filled percent width
      /\ percent * width / 100 - 1 <= filled <= percent * width / 100)
  /\ (percent = 100 -> filled = cells)
  /\ draw_progress_bar 19 0 percent width
     = addstr_at 19 0 ("[" ++ str_mul "#" filled ++ str_mul "-" (cells - filled)
                       ++ "] " ++ PyStr.str_of_Z percent ++ "%") A_NORMAL
  /\ Z.of_nat (String.length (bar_text percent width))
     = cells + 4 + Z.of_nat (String.length (PyStr.str_of_Z percent)).
Proof.
  intros Hm Hp width cells filled.
  pose proof (bar_spec width percent ltac:(unfold width; lia) Hp) as Hok.
  unfold bar_ok in Hok. cbv zeta in Hok.
  assert (Hmul : forall a b, Z.max 0 a = Z.max 0 b ->
                             str_mul "#" a = str_mul "#" b
                             /\ str_mul "-" a = str_mul "-" b).
  { intros a b E. unfold str_mul.
    assert (Z.to_nat a = Z.to_nat b) as -> by lia. auto. }
  assert (Hlen : Z.of_nat (String.length (bar_text percent width))
                 = Z.max 0 (bar_filled percent width)
                   + Z.max 0 (width - bar_filled percent width) + 4
                   + Z.of_nat (String.length (PyStr.str_of_Z percent))).
  { unfold bar_text. cbv zeta. rewrite !length_append.
    rewrite !Nat2Z.inj_add, !str_mul_length. cbn [String.length]. lia. }
  destruct (width <? 0) eqn:Ew.
  - apply Z.ltb_lt in Ew. rewrite andb_true_iff, !Z.leb_le in Hok.
    destruct Hok as [H1 H2].
    assert (Hf : filled = 0) by (unfold filled; lia).
    assert (Hc : cells = 0) by (unfold cells; lia).
    split; [lia|]. split; [lia|]. split; [lia|]. split.
    + unfold draw_progress_bar, bar_text. cbv zeta. rewrite Hf, Hc.
      destruct (Hmul (bar_filled percent width) 0 ltac:(lia)) as [-> _].
      destruct (Hmul (width - bar_filled percent width) (0 - 0) ltac:(lia))
        as [_ ->].
      reflexivity.
    + rewrite Hlen. lia.
  - apply Z.ltb_ge in Ew. rewrite !andb_true_iff, !Z.leb_le in Hok.
    destruct Hok as [[[[H1 H2] H3] H4] H5].
    assert (Hf : filled = bar_filled percent width) by (unfold filled; lia).
    assert (Hc : cells = width) by (unfold cells; lia).
    split; [lia|]. split; [lia|]. split; [|split].
    + intros E. apply Z.eqb_eq in E. rewrite E in H5. cbn [negb orb] in H5.
      apply Z.eqb_eq in H5. lia.
    + unfold draw_progress_bar, bar_text. cbv zeta. now rewrite Hf, Hc.
    + rewrite Hlen. lia.
Qed.

(** * The theorems at concrete inputs *)

Lemma primary_key_db_ex : primary_key db_ex.
Proof.
  repeat constructor; simpl; intros H;
    repeat (destruct H as [H|H]; try discriminate H); exact H.
Defined.

Lemma primary_key_db_deleted_ex : primary_key db_deleted_ex.
Proof.
  repeat constructor; simpl; intros H;
    repeat (destruct H as [H|H]; try discriminate H); exact H.
Defined.

Lemma rowids_db_ex : rowids db_ex.
Proof. intros r [<-|[<-|[]]]; reflexivity. Defined.

Lemma rowids_db_deleted_ex : rowids db_deleted_ex.
Proof. intros r [<-|[<-|[]]]; reflexivity. Defined.

Lemma like_pattern_ok_b : like_pattern_ok ("%" ++ "b" ++ "%").
Proof. unfold like_pattern_ok. vm_compute. intros E. discriminate E. Defined.

(** C1 on two tasks: B, the later one, is listed first; the search
    for "b" lists the tasks with a "b" or a "B" in the title. *)
Lemma listings_exact_and_descending_witness :
  primary_key db_ex
  /\ StronglySorted id_strict_desc (draw_dashboard db_ex where_none)
  /\ draw_dashboard db_ex where_none
     = [mktodo 2 "B" "home" "2025-01-11" 0 0; mktodo 1 "A" "work" "2025-01-10" 0 0]
  /\ like_pattern_ok ("%" ++ "b" ++ "%")
  /\ (In task_B (draw_dashboard db_ex (where_title_like ("%" ++ "b" ++ "%")))
      <-> In task_B db_ex /\ deleted task_B = 0 /\ done task_B = 0
          /\ contains_nocase (c_str (title task_B)) "b").
Proof.
  split; [exact primary_key_db_ex|].
  destruct (listings_exact_and_descending db_ex)
    as (_ & _ & _ & Hlike & _ & _ & _ & _ & _ & H).
  split; [exact (proj1 (H primary_key_db_ex) where_none)|].
  split; [reflexivity|]. split; [exact like_pattern_ok_b|].
  exact (Hlike "b" task_B like_pattern_ok_b eq_refl eq_refl).
Defined.

(** C5 on the identity of task B and on an identity no task has. *)
Lemma mark_done_delete_todo_idempotent_witness :
  sqlite_int64 2 = true
  /\ (exists db1,
        mark_done db_ex 2 = Returns db1 /\ mark_done db1 2 = Returns db1
        /\ db1 = [mktodo 1 "A" "work" "2025-01-10" 0 0;
                  mktodo 2 "B" "home" "2025-01-11" 1 0])
  /\ sqlite_int64 7 = true
  /\ ~ In 7 (ids db_ex)
  /\ mark_done db_ex 7 = Returns db_ex
  /\ delete_todo db_ex 7 = Returns db_ex.
Proof.
  assert (Hn : ~ In 7 (ids db_ex)).
  { simpl. intros H. repeat (destruct H as [H|H]; try discriminate H). exact H. }
  split; [reflexivity|]. split.
  - destruct (proj1 (mark_done_delete_todo_idempotent db_ex 2) eq_refl)
      as (db1 & db2 & H1 & _ & H3 & _ & H5 & _).
    exists db1. split; [exact H1|]. split; [exact H3|]. rewrite H5. reflexivity.
  - split; [reflexivity|]. split; [exact Hn|].
    destruct (proj1 (mark_done_delete_todo_idempotent db_ex 7) eq_refl)
      as (db1 & db2 & H1 & H2 & _ & _ & _ & _ & Habs & _).
    destruct (Habs Hn) as [E1 E2]. rewrite E1 in H1. rewrite E2 in H2.
    split; [exact H1|exact H2].
Defined.

(** C2: A is deleted, then a task is added and others are marked;
    A is in no listing. *)
Lemma soft_deleted_never_resurfaces_witness :
  rowids db_ex
  /\ In 1 (ids db_ex)
  /\ exists db1 db',
       delete_todo db_ex 1 = Returns db1
       /\ run_ops no_parser no_rowid ops_ex db1 = Returns db'
       /\ (forall w, ~ In 1 (ids (draw_dashboard db' w)))
       /\ ~ In 1 (ids (draw_completed db'))
       /\ (forall w, get_stats db' w
                     = get_stats (filter (fun r => negb (id r =? 1)) db') w)
       /\ In 1 (ids db')
       /\ (forall r, In r db' -> id r = 1 -> deleted r = 1).
Proof.
  assert (Hin : In 1 (ids db_ex)) by (simpl; left; reflexivity).
  split; [exact rowids_db_ex|]. split; [exact Hin|].
  destruct (soft_deleted_never_resurfaces no_parser no_rowid db_ex 1
              rowids_db_ex Hin) as (db1 & Hd & H).
  exists db1. cbv in Hd. injection Hd as <-.
  eexists. split; [reflexivity|]. split; [reflexivity|].
  apply (H ops_ex). reflexivity.
Defined.

(** C3 on 2025-01-10 with the input " +3D ". *)
Lemma parse_due_date_shortcuts_witness :
  valid_date today_ex = true
  /\ parse_due_date no_parser today_ex " +3D "
     = Returns (isoformat (days_later today_ex 3))
  /\ isoformat (days_later today_ex 3) = "2025-01-13".
Proof.
  split; [reflexivity|]. split; [|reflexivity].
  destruct (parse_due_date_shortcuts no_parser today_ex " +3D " eq_refl)
    as (_ & _ & _ & H & _).
  destruct (H "3" eq_refl eq_refl) as [Hd _].
  destruct (Hd eq_refl) as [Hret _].
  apply Hret; vm_compute; intros E; discriminate E.
Defined.

(** C4 on "  Someday ". *)
Lemma parse_due_date_passes_unparsed_through_witness :
  parse_due_date no_parser today_ex "  Someday " = Returns "someday".
Proof.
  apply (parse_due_date_passes_unparsed_through no_parser today_ex "  Someday ");
    try reflexivity; intros E; discriminate E.
Defined.

(** C6 on two listed tasks: up from 0 wraps to 1. *)
Lemma move_cursor_wraps_witness :
  view (initial db_ex) = dashboard
  /\ loop_body no_parser no_rowid today_ex KEY_UP (initial db_ex)
     = Returns (Some (mkstate dashboard 1 where_none "" db_ex)).
Proof.
  split; [reflexivity|].
  destruct (move_cursor_wraps no_parser no_rowid today_ex (initial db_ex) eq_refl)
    as [H _].
  destruct (H eq_refl) as [Hup _]. exact Hup.
Defined.

(** C7 on the search for "b": B is listed, A is not. *)
Lemma set_search_lists_like_matches_witness :
  view (initial db_ex) = dashboard
  /\ "b" <> ""
  /\ loop_body no_parser no_rowid today_ex (key_slash "b") (initial db_ex)
     = Returns (Some (mkstate dashboard 0 (where_title_like "%b%")
                              "Search results for 'b'" db_ex))
  /\ draw_dashboard db_ex (where_title_like "%b%")
     = [mktodo 2 "B" "home" "2025-01-11" 0 0]
  /\ (In task_B (draw_dashboard db_ex (where_title_like "%b%"))
      <-> In task_B db_ex /\ deleted task_B = 0 /\ done task_B = 0
          /\ contains_nocase (c_str (title task_B)) "b").
Proof.
  assert (Hq : "b" <> "") by (intros E; discriminate E).
  split; [reflexivity|]. split; [exact Hq|].
  destruct (set_search_lists_like_matches no_parser no_rowid today_ex
              (initial db_ex) "b" eq_refl) as [_ H].
  destruct (H Hq) as [Hkey Hlist].
  split; [exact Hkey|]. split; [reflexivity|].
  exact (proj2 (Hlist like_pattern_ok_b) eq_refl eq_refl task_B).
Defined.

(** C9 after four keys. *)
Lemma cursor_always_in_bounds_witness :
  main no_parser no_rowid keys_ex (initial db_ex) = Returns (Some st_ex)
  /\ view st_ex = dashboard
  /\ draw_dashboard (con st_ex) (where_clause st_ex) <> []
  /\ 0 <= cursor_idx st_ex < len (draw_dashboard (con st_ex) (where_clause st_ex))
  /\ rowids db_ex
  /\ loop_body no_parser no_rowid today_ex key_d st_ex <> Raises.
Proof.
  assert (Hrun : main no_parser no_rowid keys_ex (initial db_ex)
                 = Returns (Some st_ex))
    by (vm_compute; reflexivity).
  assert (Hne : draw_dashboard (con st_ex) (where_clause st_ex) <> [])
    by (vm_compute; intros E; discriminate E).
  split; [exact Hrun|]. split; [reflexivity|]. split; [exact Hne|].
  destruct (cursor_always_in_bounds no_parser no_rowid db_ex keys_ex st_ex Hrun
              eq_refl) as (_ & H1 & _ & H3).
  split; [exact (H1 Hne)|]. split; [exact rowids_db_ex|].
  exact (proj1 (H3 rowids_db_ex) today_ex).
Defined.

(** C10 on a table whose task A is deleted. *)
Lemma mark_done_on_deleted_is_unobservable_witness :
  primary_key db_deleted_ex
  /\ rowids db_deleted_ex
  /\ In (mktodo 1 "A" "work" "2025-01-10" 0 1) db_deleted_ex
  /\ exists db',
       mark_done db_deleted_ex 1 = Returns db'
       /\ db' <> db_deleted_ex
       /\ (forall w, draw_dashboard db' w = draw_dashboard db_deleted_ex w)
       /\ draw_completed db' = draw_completed db_deleted_ex
       /\ (forall w, get_stats db' w = get_stats db_deleted_ex w).
Proof.
  assert (Hin : In (mktodo 1 "A" "work" "2025-01-10" 0 1) db_deleted_ex)
    by (left; reflexivity).
  split; [exact primary_key_db_deleted_ex|]. split; [exact rowids_db_deleted_ex|].
  split; [exact Hin|].
  destruct (mark_done_on_deleted_is_unobservable db_deleted_ex _
              primary_key_db_deleted_ex rowids_db_deleted_ex Hin)
    as (db' & H0 & H1 & H2 & H3 & H4).
  - simpl. intros E. discriminate E.
  - exists db'. split; [exact H0|]. split.
    + rewrite H4. intros E. discriminate E.
    + split; [exact H1|]. split; [exact H2|exact H3].
Defined.

(** * The further properties at concrete inputs *)

Lemma flags01_db_ex : flags01 db_ex.
Proof.
  intros r [<-|[<-|[]]]; split; left; reflexivity.
Defined.

Lemma ids_increasing_db_ex : ids_increasing db_ex.
Proof. repeat constructor. Defined.

Lemma ids_below_db_ex (n : Z) : 2 < n -> ids_below n db_ex.
Proof. intros H i Hi. cbn in Hi. destruct Hi as [<-|[<-|[]]]; lia. Defined.

Lemma main_keys_ex :
  main no_parser no_rowid keys_ex (initial db_ex) = Returns (Some st_ex).
Proof. vm_compute. reflexivity. Defined.

(** X1 on 2025-01-10. *)
Lemma strptime_isoformat_round_trip_witness :
  valid_date today_ex = true
  /\ strptime_ymd (isoformat today_ex) = Returns today_ex.
Proof.
  split; [reflexivity|].
  exact (proj1 (strptime_isoformat_round_trip today_ex eq_refl)).
Defined.

(** X2 on task B, due the day after 2025-01-10: green. *)
Lemma listed_task_colour_witness :
  valid_date today_ex = true
  /\ In task_B (draw_dashboard db_ex where_none)
  /\ strptime_ymd (due task_B) = Returns (mkdate 2025 1 11)
  /\ toordinal today_ex < toordinal (mkdate 2025 1 11)
  /\ due_colour today_ex (due task_B) = color_pair 3.
Proof.
  assert (Hin : In task_B (draw_dashboard db_ex where_none))
    by (left; reflexivity).
  assert (Hlt : toordinal today_ex < toordinal (mkdate 2025 1 11))
    by reflexivity.
  split; [reflexivity|]. split; [exact Hin|]. split; [reflexivity|].
  split; [exact Hlt|].
  destruct (listed_task_colour today_ex db_ex where_none task_B 0 0 eq_refl Hin)
    as (_ & H & _).
  destruct (H (mkdate 2025 1 11) eq_refl) as (_ & _ & _ & Hg).
  exact (Hg Hlt).
Defined.

(** X3 on "today", typed and seen on 2025-01-10: yellow. *)
Lemma shortcut_due_colour_witness :
  valid_date today_ex = true
  /\ exists due_str,
       parse_due_date no_parser today_ex " Today" = Returns due_str
       /\ due_attr today_ex due_str 0 = color_pair 2.
Proof.
  split; [reflexivity|].
  exact (proj1 (shortcut_due_colour no_parser today_ex today_ex " Today"
                  eq_refl eq_refl) eq_refl).
Defined.

(** X4 after the keys of [keys_ex], on a screen that takes every
    call: the marker is on line 6. *)
Lemma one_marker_on_the_cursor_row_witness :
  main no_parser no_rowid keys_ex (initial db_ex) = Returns (Some st_ex)
  /\ draw_dashboard (con st_ex) (where_clause st_ex) <> []
  /\ exists written,
       write fits_all [] (dashboard_calls today_ex 80 (con st_ex) (cursor_idx st_ex)
                                          (where_clause st_ex) (subtitle st_ex))
       = Returns written
       /\ In (6, "-> ")
             (markers (todos_calls today_ex (cursor_idx st_ex)
                         (draw_dashboard (con st_ex) (where_clause st_ex)))).
Proof.
  assert (Hne : draw_dashboard (con st_ex) (where_clause st_ex) <> [])
    by (vm_compute; intros E; discriminate E).
  split; [exact main_keys_ex|]. split; [exact Hne|].
  eexists. split; [vm_compute; reflexivity|].
  destruct (one_marker_on_the_cursor_row no_parser no_rowid fits_all db_ex keys_ex
              st_ex today_ex 80 _ main_keys_ex eq_refl Hne eq_refl)
    as (head & rows & stats & bar & _ & _ & Hrows & _ & _ & H & _).
  rewrite Hrows in H. exact H.
Defined.

(** X5 on A and B, on a screen that takes every call: no row on the
    statistics line. *)
Lemma rows_reach_the_statistics_lines_witness :
  exists written,
    write fits_all [] (dashboard_calls today_ex 80 db_ex 0 where_none "")
    = Returns written
    /\ (In (Some 18) (map call_line
                          (todos_calls today_ex 0 (draw_dashboard db_ex where_none)))
        <-> 14 <= len (draw_dashboard db_ex where_none)).
Proof.
  eexists. split; [vm_compute; reflexivity|].
  destruct (rows_reach_the_statistics_lines fits_all today_ex 80 db_ex 0 where_none
              "" _ eq_refl)
    as (head & rows & stats & bar & _ & _ & Hrows & _ & H & _).
  rewrite Hrows in H. exact H.
Defined.

(** X6 after the operations of [ops_ex]. *)
Lemma statistics_add_up_witness :
  flags01 db_ex
  /\ exists db',
       run_ops no_parser no_rowid ops_ex db_ex = Returns db'
       /\ fst (get_stats db' where_none)
          = len (draw_dashboard db' where_none) + snd (get_stats db' where_none).
Proof.
  split; [exact flags01_db_ex|]. eexists. split; [reflexivity|].
  destruct (statistics_add_up no_parser no_rowid ops_ex db_ex _ where_none
              flags01_db_ex eq_refl) as (_ & _ & _ & H & _).
  exact H.
Defined.

(** X7: a task C added to A and B. *)
Lemma added_task_is_first_and_selected_witness :
  ids_below MAX_ROWID db_ex
  /\ exists st',
       loop_body no_parser no_rowid today_ex (key_a "C" "" "tomorrow") (initial db_ex)
       = Returns (Some st')
       /\ exists due_str n,
            parse_due_date no_parser today_ex "tomorrow" = Returns due_str
            /\ new_rowid no_rowid db_ex = Returns n
            /\ py_index (draw_dashboard (con st') (where_clause st'))
                        (cursor_idx st')
               = Returns (mktodo n "C" "" due_str 0 0).
Proof.
  assert (Hb : ids_below MAX_ROWID db_ex) by (apply ids_below_db_ex; reflexivity).
  split; [exact Hb|].
  eexists. split; [reflexivity|].
  destruct (added_task_is_first_and_selected no_parser no_rowid today_ex
              (initial db_ex) _ "C" "" "tomorrow" eq_refl eq_refl)
    as (due_str & n & Hp & Hn & H).
  exists due_str, n. split; [exact Hp|]. split; [exact Hn|].
  destruct H as (_ & _ & _ & _ & _ & _ & _ & H).
  exact (proj2 (proj2 (H Hb))).
Defined.

(** X8 and X9 on the first row of A and B. *)
Lemma done_key_moves_the_selected_task_witness :
  view (initial db_ex) = dashboard
  /\ rowids (con (initial db_ex))
  /\ 0 <= cursor_idx (initial db_ex)
     < len (draw_dashboard (con (initial db_ex)) (where_clause (initial db_ex)))
  /\ exists r db',
       py_index (draw_dashboard db_ex where_none) 0 = Returns r
       /\ mark_done db_ex (id r) = Returns db'
       /\ loop_body no_parser no_rowid today_ex key_d (initial db_ex)
          = Returns (Some (mkstate dashboard 0 where_none "" db')).
Proof.
  assert (Hb : 0 <= cursor_idx (initial db_ex)
               < len (draw_dashboard (con (initial db_ex))
                                     (where_clause (initial db_ex))))
    by (vm_compute; split; [intros E; discriminate E|reflexivity]).
  split; [reflexivity|]. split; [exact rowids_db_ex|]. split; [exact Hb|].
  destruct (done_key_moves_the_selected_task no_parser no_rowid today_ex
              (initial db_ex) eq_refl rowids_db_ex Hb)
    as (r & db' & H1 & _ & H2 & H3 & _).
  exists r, db'. split; [exact H1|]. split; [exact H2|exact H3].
Defined.

Lemma delete_key_removes_the_selected_task_witness :
  view (initial db_ex) = dashboard
  /\ rowids (con (initial db_ex))
  /\ 0 <= cursor_idx (initial db_ex)
     < len (draw_dashboard (con (initial db_ex)) (where_clause (initial db_ex)))
  /\ exists r db',
       py_index (draw_dashboard db_ex where_none) 0 = Returns r
       /\ delete_todo db_ex (id r) = Returns db'
       /\ draw_completed db' = draw_completed (without (id r) db_ex).
Proof.
  assert (Hb : 0 <= cursor_idx (initial db_ex)
               < len (draw_dashboard (con (initial db_ex))
                                     (where_clause (initial db_ex))))
    by (vm_compute; split; [intros E; discriminate E|reflexivity]).
  split; [reflexivity|]. split; [exact rowids_db_ex|]. split; [exact Hb|].
  destruct (delete_key_removes_the_selected_task no_parser no_rowid today_ex
              (initial db_ex) eq_refl rowids_db_ex Hb)
    as (r & db' & H1 & _ & H2 & _ & _ & H3 & _).
  exists r, db'. split; [exact H1|]. split; [exact H2|exact H3].
Defined.

(** X10 on the tag "home". *)
Lemma filter_key_lists_the_category_witness :
  view (initial db_ex) = dashboard
  /\ "home" <> ""
  /\ loop_body no_parser no_rowid today_ex (key_f "home") (initial db_ex)
     = Returns (Some (mkstate dashboard 0 (where_category "home")
                              "Filtered by #home" db_ex)).
Proof.
  assert (Hc : "home" <> "") by (intros E; discriminate E).
  split; [reflexivity|]. split; [exact Hc|].
  destruct (filter_key_lists_the_category no_parser no_rowid today_ex (initial db_ex)
              "home" "a" eq_refl) as [_ H].
  exact (proj1 (H Hc)).
Defined.

(** X11 on a completed view reached with a filter on. *)
Lemma completed_view_is_read_only_witness :
  view st_completed_ex = completed
  /\ loop_body no_parser no_rowid today_ex key_x st_completed_ex
     = Returns (Some st_completed_ex).
Proof.
  split; [reflexivity|].
  destruct (completed_view_is_read_only no_parser no_rowid today_ex st_completed_ex
              key_x) as [H _].
  destruct (H eq_refl) as [[E _]|[[E _]|(_ & _ & E)]];
    [discriminate E|discriminate E|exact E].
Defined.

(** X12 and X13 after the keys of [keys_ex]. *)
Lemma table_only_grows_and_ages_witness :
  main no_parser no_rowid keys_ex (initial db_ex) = Returns (Some st_ex)
  /\ len (con (initial db_ex)) <= len (con st_ex).
Proof.
  split; [exact main_keys_ex|].
  destruct (table_only_grows_and_ages no_parser no_rowid keys_ex (initial db_ex) st_ex
              main_keys_ex) as (old & added & _ & _ & _ & H).
  exact H.
Defined.

Lemma identities_increase_and_are_never_reused_witness :
  ids_increasing (con (initial db_ex))
  /\ len keys_ex < MAX_ROWID
  /\ ids_below (MAX_ROWID - len keys_ex) (con (initial db_ex))
  /\ main no_parser no_rowid keys_ex (initial db_ex) = Returns (Some st_ex)
  /\ primary_key (con st_ex).
Proof.
  assert (Hlen : len keys_ex < MAX_ROWID) by reflexivity.
  assert (Hb : ids_below (MAX_ROWID - len keys_ex) (con (initial db_ex)))
    by (apply ids_below_db_ex; reflexivity).
  split; [exact ids_increasing_db_ex|]. split; [exact Hlen|]. split; [exact Hb|].
  split; [exact main_keys_ex|].
  exact (proj1 (proj2 (identities_increase_and_are_never_reused no_parser no_rowid
                         keys_ex (initial db_ex) st_ex ids_increasing_db_ex Hlen Hb
                         main_keys_ex))).
Defined.

(** X15: two weeks and fourteen days. *)
Lemma weeks_are_seven_days_witness :
  parse_due_date no_parser today_ex "+2w" = parse_due_date no_parser today_ex "+14d".
Proof.
  apply (weeks_are_seven_days no_parser today_ex "+2w" "+14d" "2" "14");
    first [reflexivity | vm_compute; intros E; discriminate E].
Defined.

(** X16 on A and B, none done. *)
Lemma progress_is_within_one_of_the_floor_witness :
  fst (get_stats db_ex where_none) <= 200
  /\ 0 <= dashboard_progress db_ex where_none <= 100.
Proof.
  assert (H : fst (get_stats db_ex where_none) <= 200)
    by (vm_compute; intros E; discriminate E).
  split; [exact H|].
  exact (proj1 (progress_is_within_one_of_the_floor db_ex where_none H)).
Defined.

(** X17 at 33 percent on 27 columns. *)
Lemma progress_bar_fits_its_width_witness :
  0 <= 27 <= 307 /\ 0 <= 33 <= 100
  /\ 0 <= Z.max 0 (bar_filled 33 (27 - 7)) <= Z.max 0 (27 - 7).
Proof.
  assert (H1 : 0 <= 27 <= 307) by lia.
  assert (H2 : 0 <= 33 <= 100) by lia.
  split; [exact H1|]. split; [exact H2|].
  exact (proj1 (progress_bar_fits_its_width 33 27 H1 H2)).
Defined.
